(** * Cortex search engine: the SearXNG client with its manager and
  display helper, the OpenAI enhancement service and the search tool of
  the agent, embedded from [src/search_engine/],
  [src/services/openai/client.py] and [src/main.py].

  Conventions of the embedding.
  - A Python [str] is a Rocq [string] read as a sequence of code points
    below 256; [lower], [isspace] and friends are Python's on that range.
  - A Python [int] is a [Z].  A Python [float] the code computes with
    (the relevance score) is an IEEE binary64 number, a primitive [float],
    with the operations of the source in their order; the float literals
    that are only handed on (sampling temperatures, confidences) and the
    clock differences are written as the rationals of their decimals
    ([Q]).
  - A value decoded from JSON is a [json]; dictionaries keep insertion
    order (association lists).
  - A raising computation returns [inl e]; code with effects (log lines,
    HTTP requests, model calls, clock readings) threads a world. *)

From Stdlib Require Import Floats.
From Stdlib Require Uint63.
From Stdlib Require Import ZArith QArith Qminmax List String Ascii Bool Lia.
From Stdlib Require Import DecimalString.
Import ListNotations.

Local Open Scope string_scope.
Local Open Scope Z_scope.

(** ** Python strings *)

Module PyStr.

Definition code (c : ascii) : nat := nat_of_ascii c.

(** [str.isspace] on one character: TAB..CR, FS..US, space, NEL, NBSP. *)
Definition isspace (c : ascii) : bool :=
  let n := code c in
  (((9 <=? n) && (n <=? 13)) || ((28 <=? n) && (n <=? 32))
   || (n =? 133) || (n =? 160))%nat.

(** [str.lower] on one character: A..Z and the Latin-1 capitals
    (U+00C0..U+00DE without the multiplication sign) move up by 32. *)
Definition lower_char (c : ascii) : ascii :=
  let n := code c in
  if (((65 <=? n) && (n <=? 90))
      || ((192 <=? n) && (n <=? 222) && negb (n =? 215)))%nat
  then ascii_of_nat (n + 32) else c.

Fixpoint lower (s : string) : string :=
  match s with
  | EmptyString => EmptyString
  | String c s' => String (lower_char c) (lower s')
  end.

(** [len(s)] *)
Definition len (s : string) : Z := Z.of_nat (String.length s).

(** [s[:k]] for a literal [k >= 0]. *)
Definition take (k : nat) (s : string) : string := substring 0 k s.

(** [s.startswith(p)] *)
Definition startswith (s p : string) : bool := prefix p s.

(** [needle in hay] *)
Fixpoint str_in (needle hay : string) : bool :=
  prefix needle hay
  || match hay with
     | EmptyString => false
     | String _ hay' => str_in needle hay'
     end.

(** [s.lstrip()], [s.rstrip()], [s.strip()] *)
Fixpoint lstrip (s : string) : string :=
  match s with
  | EmptyString => EmptyString
  | String c s' => if isspace c then lstrip s' else s
  end.

Fixpoint rstrip (s : string) : string :=
  match s with
  | EmptyString => EmptyString
  | String c s' =>
      match rstrip s' with
      | EmptyString => if isspace c then EmptyString else String c EmptyString
      | r => String c r
      end
  end.

Definition strip (s : string) : string := rstrip (lstrip s).

(** [s.strip(chars)] *)
Fixpoint mem_char (c : ascii) (chars : string) : bool :=
  match chars with
  | EmptyString => false
  | String d chars' => Ascii.eqb c d || mem_char c chars'
  end.

Fixpoint lstrip_chars (chars s : string) : string :=
  match s with
  | EmptyString => EmptyString
  | String c s' => if mem_char c chars then lstrip_chars chars s' else s
  end.

Fixpoint rstrip_chars (chars s : string) : string :=
  match s with
  | EmptyString => EmptyString
  | String c s' =>
      match rstrip_chars chars s' with
      | EmptyString =>
          if mem_char c chars then EmptyString else String c EmptyString
      | r => String c r
      end
  end.

Definition strip_chars (chars s : string) : string :=
  rstrip_chars chars (lstrip_chars chars s).

(** The word being read is kept reversed in [acc]. *)
Definition flush (acc : list ascii) : list string :=
  match acc with
  | [] => []
  | _ => [string_of_list_ascii (List.rev acc)]
  end.

(** [s.split()]: the maximal runs of non-whitespace characters. *)
Fixpoint split_from (acc : list ascii) (s : string) : list string :=
  match s with
  | EmptyString => flush acc
  | String c s' =>
      if isspace c then (flush acc ++ split_from [] s')%list
      else split_from (c :: acc) s'
  end.

Definition split (s : string) : list string := split_from [] s.

(** [s.split(sep)] for a one-character separator: empty pieces are kept. *)
Fixpoint split_on_from (sep : ascii) (acc : list ascii) (s : string)
  : list string :=
  match s with
  | EmptyString => [string_of_list_ascii (List.rev acc)]
  | String c s' =>
      if Ascii.eqb c sep
      then string_of_list_ascii (List.rev acc) :: split_on_from sep [] s'
      else split_on_from sep (c :: acc) s'
  end.

Definition split_on (sep : ascii) (s : string) : list string :=
  split_on_from sep [] s.

(** [sep.join(parts)] *)
Fixpoint join (sep : string) (parts : list string) : string :=
  match parts with
  | [] => EmptyString
  | [p] => p
  | p :: rest => p ++ sep ++ join sep rest
  end.

(** [str(n)] for an [int]. *)
Definition of_int (n : Z) : string := NilZero.string_of_int (Z.to_int n).

(** The truth value of a string: non-empty. *)
Definition truthy (s : string) : bool :=
  match s with EmptyString => false | _ => true end.

End PyStr.

(** ** Python floats *)

Module PyFloat.

(** [float(n)] for an [int] below 2^63, rounded to nearest; exact below
    2^53. *)
Definition of_int (n : Z) : float := of_uint63 (Uint63.of_Z n).

(** [a / b] for two [int]s with [b] not zero.  Python returns the double
    nearest to the quotient; for operands below 2^53, as the counts and
    lengths of this code are, that is the IEEE quotient of the two
    conversions. *)
Definition int_div (a b : Z) : float := (of_int a / of_int b)%float.

(** [min(a, b)]: the first argument unless the second is smaller. *)
Definition min (a b : float) : float := if (b <? a)%float then b else a.

(** The rational a double denotes, when it is a number. *)
Definition exact_value (x : float) : option Q :=
  match Prim2SF x with
  | S754_zero _ => Some 0%Q
  | S754_finite s m e =>
      let v := if s then Zneg m else Zpos m in
      Some (match e with
            | Zneg k => v # (2 ^ k)
            | _ => inject_Z (v * 2 ^ e)
            end)
  | _ => None
  end.

(** A double that is not negative, or is no number at all. *)
Definition positive_or_nan (x : spec_float) : bool :=
  match x with
  | S754_nan => true
  | S754_zero s | S754_infinity s | S754_finite s _ _ => negb s
  end.

End PyFloat.


(** ** Exceptions *)

(** The exception classes the two packages raise, catch or can be handed by
    the libraries they call.  [OtherException] stands for any further
    subclass of [Exception] (the errors of the OpenAI SDK, for one);
    [KeyboardInterrupt] and [CancelledError] derive from [BaseException]
    only, so [except Exception] lets them through. *)
Inductive exn_class : Type :=
| BaseException | Exception
| KeyboardInterrupt | CancelledError
| ValueError | TypeError | AttributeError | IndexError | KeyError
| JSONDecodeError | ZeroDivisionError | OSError | NameError
| UnboundLocalError
| SearXNGException | NetworkError | APIError | InvalidConfigurationError
| RequestException | Timeout | ConnectionError | ConnectTimeout
| ReadTimeout | HTTPError
| OtherException (name : string).

Definition class_name (c : exn_class) : string :=
  match c with
  | BaseException => "BaseException" | Exception => "Exception"
  | KeyboardInterrupt => "KeyboardInterrupt"
  | CancelledError => "CancelledError"
  | ValueError => "ValueError" | TypeError => "TypeError"
  | AttributeError => "AttributeError" | IndexError => "IndexError"
  | KeyError => "KeyError" | JSONDecodeError => "JSONDecodeError"
  | ZeroDivisionError => "ZeroDivisionError"
  | OSError => "OSError" | NameError => "NameError"
  | UnboundLocalError => "UnboundLocalError"
  | SearXNGException => "SearXNGException" | NetworkError => "NetworkError"
  | APIError => "APIError"
  | InvalidConfigurationError => "InvalidConfigurationError"
  | RequestException => "RequestException" | Timeout => "Timeout"
  | ConnectionError => "ConnectionError"
  | ConnectTimeout => "ConnectTimeout" | ReadTimeout => "ReadTimeout"
  | HTTPError => "HTTPError"
  | OtherException name => name
  end.

(** The class and its ancestors (method resolution order). *)
Definition mro (c : exn_class) : list exn_class :=
  match c with
  | BaseException => [BaseException]
  | Exception => [Exception; BaseException]
  | KeyboardInterrupt => [KeyboardInterrupt; BaseException]
  | CancelledError => [CancelledError; BaseException]
  | ValueError => [ValueError; Exception; BaseException]
  | TypeError => [TypeError; Exception; BaseException]
  | AttributeError => [AttributeError; Exception; BaseException]
  | IndexError => [IndexError; Exception; BaseException]
  | KeyError => [KeyError; Exception; BaseException]
  | JSONDecodeError =>
      [JSONDecodeError; ValueError; Exception; BaseException]
  | ZeroDivisionError => [ZeroDivisionError; Exception; BaseException]
  | OSError => [OSError; Exception; BaseException]
  | NameError => [NameError; Exception; BaseException]
  | UnboundLocalError =>
      [UnboundLocalError; NameError; Exception; BaseException]
  | SearXNGException => [SearXNGException; Exception; BaseException]
  | NetworkError =>
      [NetworkError; SearXNGException; Exception; BaseException]
  | APIError => [APIError; SearXNGException; Exception; BaseException]
  | InvalidConfigurationError =>
      [InvalidConfigurationError; SearXNGException; Exception; BaseException]
  | RequestException =>
      [RequestException; OSError; Exception; BaseException]
  | Timeout => [Timeout; RequestException; OSError; Exception; BaseException]
  | ConnectionError =>
      [ConnectionError; RequestException; OSError; Exception; BaseException]
  | ConnectTimeout =>
      [ConnectTimeout; ConnectionError; Timeout; RequestException; OSError;
       Exception; BaseException]
  | ReadTimeout =>
      [ReadTimeout; Timeout; RequestException; OSError; Exception;
       BaseException]
  | HTTPError =>
      [HTTPError; RequestException; OSError; Exception; BaseException]
  | OtherException name => [OtherException name; Exception; BaseException]
  end.

Definition class_eqb (a b : exn_class) : bool :=
  match a, b with
  | OtherException n, OtherException m => String.eqb n m
  | OtherException _, _ | _, OtherException _ => false
  | _, _ => String.eqb (class_name a) (class_name b)
  end.

(** An exception object: its class and [str(e)]. *)
Record exn : Type := Exn { exn_cls : exn_class; exn_msg : string }.

(** [isinstance(e, C)] *)
Definition isinstance (e : exn) (C : exn_class) : bool :=
  existsb (class_eqb C) (mro (exn_cls e)).

(** Whether [e] is an instance of some class called [name]. *)
Definition instance_of_named (e : exn) (name : string) : bool :=
  existsb (fun c => String.eqb (class_name c) name) (mro (exn_cls e)).

(** ** Values decoded from JSON *)

#[warnings="-register-all"]
Inductive json : Type :=
| JNull
| JBool (b : bool)
| JInt (n : Z)
| JFloat (q : Q)
| JStr (s : string)
| JArr (items : list json)
| JObj (fields : list (string * json)).

Module Py.

(** [type(v).__name__] *)
Definition type_name (v : json) : string :=
  match v with
  | JNull => "NoneType" | JBool _ => "bool" | JInt _ => "int"
  | JFloat _ => "float" | JStr _ => "str" | JArr _ => "list"
  | JObj _ => "dict"
  end.

(** [bool(v)] *)
Definition truthy (v : json) : bool :=
  match v with
  | JNull => false
  | JBool b => b
  | JInt n => negb (n =? 0)
  | JFloat q => negb (Qeq_bool q 0)
  | JStr s => PyStr.truthy s
  | JArr l => match l with [] => false | _ => true end
  | JObj m => match m with [] => false | _ => true end
  end.

(** [d.get(key, default)] on the fields of a dictionary. *)
Fixpoint dict_get (m : list (string * json)) (key : string) (default : json)
  : json :=
  match m with
  | [] => default
  | (k, v) :: m' => if String.eqb k key then v else dict_get m' key default
  end.

Definition no_attribute (v : json) (attr : string) : exn :=
  Exn AttributeError
      ("'" ++ type_name v ++ "' object has no attribute '" ++ attr ++ "'").

(** [v.get(key, default)]: only a dictionary has the method. *)
Definition get (v : json) (key : string) (default : json) : exn + json :=
  match v with
  | JObj m => inr (dict_get m key default)
  | _ => inl (no_attribute v "get")
  end.

(** [xs[:k]] on a list, for any integer [k]. *)
Definition slice_to {A : Type} (k : Z) (xs : list A) : list A :=
  if 0 <=? k then firstn (Z.to_nat k) xs
  else firstn (List.length xs - Z.to_nat (- k))%nat xs.

(** The one-character strings of a string, as [iter(s)] yields them. *)
Fixpoint chars (s : string) : list json :=
  match s with
  | EmptyString => []
  | String c s' => JStr (String c EmptyString) :: chars s'
  end.

(** [v[:k]] then iteration over the slice: lists and strings can be
    sliced; a dictionary cannot be indexed by a slice and the other values
    are not subscriptable. *)
Definition slice_items (v : json) (k : Z) : exn + list json :=
  match v with
  | JArr l => inr (slice_to k l)
  | JStr s => inr (slice_to k (chars s))
  | JObj _ => inl (Exn TypeError "unhashable type: 'slice'")
  | _ => inl (Exn TypeError
                  ("'" ++ type_name v ++ "' object is not subscriptable"))
  end.

(** [iter(v)] *)
Definition iter (v : json) : exn + list json :=
  match v with
  | JArr l => inr l
  | JStr s => inr (chars s)
  | JObj m => inr (map (fun kv => JStr (fst kv)) m)
  | _ => inl (Exn TypeError
                  ("'" ++ type_name v ++ "' object is not iterable"))
  end.

(** Hashable values are the scalars; as numbers, [True == 1 == 1.0]. *)
Definition hashable (v : json) : bool :=
  match v with JArr _ | JObj _ => false | _ => true end.

Definition as_number (v : json) : option Q :=
  match v with
  | JBool b => Some (if b then 1%Q else 0%Q)
  | JInt n => Some (inject_Z n)
  | JFloat q => Some q
  | _ => None
  end.

Definition eqb (a b : json) : bool :=
  match a, b with
  | JNull, JNull => true
  | JStr s, JStr t => String.eqb s t
  | _, _ =>
      match as_number a, as_number b with
      | Some x, Some y => Qeq_bool x y
      | _, _ => false
      end
  end.

(** [set.add]: the set is kept as a duplicate-free list in order of first
    insertion (the iteration order of a Python set is not specified). *)
Definition set_add (s : list json) (v : json) : exn + list json :=
  if hashable v then
    inr (if existsb (eqb v) s then s else (s ++ [v])%list)
  else inl (Exn TypeError ("unhashable type: '" ++ type_name v ++ "'")).

Fixpoint set_add_all (s : list json) (vs : list json) : exn + list json :=
  match vs with
  | [] => inr s
  | v :: vs' =>
      match set_add s v with
      | inl e => inl e
      | inr s' => set_add_all s' vs'
      end
  end.

End Py.

(** ** Computations with a world and exceptions *)

Module Eff.

Definition M (W A : Type) : Type := W -> (exn + A) * W.

Definition ret {W A} (a : A) : M W A := fun w => (inr a, w).

Definition bind {W A B} (c : M W A) (k : A -> M W B) : M W B :=
  fun w =>
    match c w with
    | (inl e, w') => (inl e, w')
    | (inr a, w') => k a w'
    end.

Definition raise {W A} (e : exn) : M W A := fun w => (inl e, w).

(** Lifting of a pure computation that can raise. *)
Definition lift {W A} (r : exn + A) : M W A := fun w => (r, w).

(** [try: c  except Exception as e: h e] *)
Definition try_except {W A} (c : M W A) (h : exn -> M W A) : M W A :=
  fun w =>
    match c w with
    | (inl e, w') =>
        if isinstance e Exception then h e w' else (inl e, w')
    | (inr a, w') => (inr a, w')
    end.

End Eff.

Declare Scope eff_scope.
Delimit Scope eff_scope with eff.
Notation "x <- c ;; k" := (Eff.bind c (fun x => k))
  (at level 61, c at next level, right associativity) : eff_scope.
Notation "c ;;; k" := (Eff.bind c (fun _ => k))
  (at level 61, right associativity) : eff_scope.

Local Open Scope eff_scope.

(** ** [search_engine/config.py] *)

Module Config.

Record SearchConfig : Type := mkSearchConfig {
  base_url : string;
  timeout : Z;
  max_results : Z;
  language : string;
  safe_search : Z;
  time_range : option string;
  categories : list string;
  engines : list string
}.

(** [url.startswith(('http://', 'https://'))] *)
Definition has_http_scheme (url : string) : bool :=
  PyStr.startswith url "http://" || PyStr.startswith url "https://".

(** [x in [0, 1, 2]] *)
Definition in_0_1_2 (x : Z) : bool :=
  existsb (Z.eqb x) [0; 1; 2].

(** [SearchConfig.__post_init__]: the four checks, in the source's order. *)
Definition __post_init__ (self : SearchConfig) : exn + unit :=
  if negb (has_http_scheme (base_url self)) then
    inl (Exn ValueError "Base URL must start with http:// or https://")
  else if timeout self <=? 0 then
    inl (Exn ValueError "Timeout must be positive")
  else if max_results self <=? 0 then
    inl (Exn ValueError "Max results must be positive")
  else if negb (in_0_1_2 (safe_search self)) then
    inl (Exn ValueError "Safe search must be 0, 1, or 2")
  else inr tt.

(** The dataclass constructor: the generated [__init__] stores the
    arguments as they are and then runs [__post_init__]. *)
Definition new (base_url : string) (timeout max_results : Z)
  (language : string) (safe_search : Z) (time_range : option string)
  (categories engines : list string) : exn + SearchConfig :=
  let self := mkSearchConfig base_url timeout max_results language
                safe_search time_range categories engines in
  match __post_init__ self with
  | inl e => inl e
  | inr _ => inr self
  end.

(** The field defaults of the dataclass. *)
Definition default : SearchConfig :=
  mkSearchConfig "http://localhost:8888" 30 10 "en" 0 None ["general"] [].

End Config.

(** ** [search_engine/models.py] *)

Module Models.

(** The dataclasses do not check their field types: a field holds whatever
    the upstream item carried. *)
Record SearchResult : Type := mkSearchResult {
  title : json;
  url : json;
  content : json;
  engines : json;
  category : json;
  publishedDate : json
}.

Record SearchResponse : Type := mkSearchResponse {
  query : string;
  results : list SearchResult;
  total_results : Z;
  search_time : Q;
  engines_used : list json;
  suggestions : json
}.

End Models.

(** ** [search_engine/client.py] *)

Module Client.
Import Config.

(** A request parameter: the strings and integers the client and its
    callers put into the query string. *)
Inductive param : Type := PStr (s : string) | PInt (n : Z).

Definition param_str (p : param) : string :=
  match p with PStr s => s | PInt n => PyStr.of_int n end.

(** A keyword dictionary, in insertion order. *)
Definition kwargs : Type := list (string * param).

(** [d[key] = v] *)
Fixpoint dict_set (d : kwargs) (key : string) (v : param) : kwargs :=
  match d with
  | [] => [(key, v)]
  | (k, x) :: d' =>
      if String.eqb k key then (k, v) :: d' else (k, x) :: dict_set d' key v
  end.

(** [d.update(other)] *)
Definition dict_update (d other : kwargs) : kwargs :=
  fold_left (fun acc kv => dict_set acc (fst kv) (snd kv)) other d.

(** [d.get(key, default)] *)
Fixpoint dict_get (d : kwargs) (key : string) (default : param) : param :=
  match d with
  | [] => default
  | (k, x) :: d' => if String.eqb k key then x else dict_get d' key default
  end.

(** [d.pop(key, default)]: the value and the dictionary without the key. *)
Definition dict_pop (d : kwargs) (key : string) (default : param)
  : param * kwargs :=
  (dict_get d key default,
   filter (fun kv => negb (String.eqb (fst kv) key)) d).

Inductive level : Type := INFO | WARNING | ERROR.

(** What [session.get] is called with. *)
Record request : Type := mkRequest {
  req_url : string;
  req_params : kwargs;
  req_timeout : Z
}.

(** What the client reads of a [requests.Response]: the status, the body,
    and the text of the [HTTPError] that [raise_for_status] builds for it. *)
Record response : Type := mkResponse {
  status_code : Z;
  text : string;
  http_error_text : string
}.

Inductive outcome : Type :=
| Raises (e : exn)
| Responds (r : response).

(** The world of a client: the log lines written, the HTTP requests sent
    and the number of clock readings taken, oldest first. *)
Record world : Type := mkWorld {
  log : list (level * string);
  sent : list request;
  clock_reads : nat
}.

Definition empty_world : world := mkWorld [] [] 0.

Definition M : Type -> Type := Eff.M world.

Section WithEnvironment.

(** The transport answers the [n]-th request of a session; [json_loads]
    is the JSON decoder (the text of the [ValueError] when it rejects
    the body); [clock] gives the successive readings of [datetime.now()]
    in seconds. *)
Variable transport : nat -> request -> outcome.
Variable json_loads : string -> string + json.
Variable clock : nat -> Q.

Variable config : SearchConfig.

Definition logger (lvl : level) (msg : string) : M unit :=
  fun w => (inr tt, mkWorld (log w ++ [(lvl, msg)])%list (sent w)
                            (clock_reads w)).

Definition now : M Q :=
  fun w => (inr (clock (clock_reads w)),
            mkWorld (log w) (sent w) (S (clock_reads w))).

(** [self.session.get(url, params=..., timeout=...)]: the request is
    recorded and the transport's answer returned as a value. *)
Definition session_get (req : request) : M outcome :=
  fun w => (inr (transport (List.length (sent w)) req),
            mkWorld (log w) (sent w ++ [req])%list (clock_reads w)).

(** [_build_search_params] *)
Definition _build_search_params (query : string) (kw : kwargs) : kwargs :=
  let params := [("q", PStr query); ("format", PStr "json");
                 ("language", PStr (language config));
                 ("safesearch", PInt (safe_search config))] in
  let params :=
    match time_range config with
    | Some tr => if PyStr.truthy tr
                 then dict_set params "time_range" (PStr tr) else params
    | None => params
    end in
  let params :=
    match categories config with
    | [] => params
    | cs => dict_set params "categories" (PStr (PyStr.join "," cs))
    end in
  let params :=
    match engines config with
    | [] => params
    | es => dict_set params "engines" (PStr (PyStr.join "," es))
    end in
  dict_update params kw.

(** [response.raise_for_status()] *)
Definition raise_for_status (r : response) : M unit :=
  if (400 <=? status_code r) && (status_code r <? 600)
  then Eff.raise (Exn HTTPError (http_error_text r))
  else Eff.ret tt.

(** The three [except] clauses of [_make_request], tried in order;
    [resp] is the local variable [response], unbound while [session.get]
    has not returned. *)
Definition _make_request_handlers (resp : option response) (e : exn)
  : M json :=
  if isinstance e Timeout then
    logger ERROR ("Request timeout after " ++ PyStr.of_int (timeout config)
                  ++ " seconds") ;;;
    Eff.raise (Exn NetworkError "Request to SearXNG timed out")
  else if isinstance e ConnectionError then
    logger ERROR ("Failed to connect to SearXNG at " ++ base_url config) ;;;
    Eff.raise (Exn NetworkError
                   ("Cannot connect to SearXNG at " ++ base_url config))
  else if isinstance e HTTPError then
    logger ERROR ("HTTP error: " ++ exn_msg e) ;;;
    match resp with
    | None =>
        Eff.raise (Exn UnboundLocalError
          "cannot access local variable 'response' where it is not associated with a value")
    | Some r =>
        if status_code r =? 403 then
          Eff.raise (Exn APIError
                         "Access forbidden - check if JSON format is enabled")
        else if status_code r =? 429 then
          Eff.raise (Exn APIError "Rate limit exceeded - try again later")
        else
          Eff.raise (Exn NetworkError
                         ("HTTP " ++ PyStr.of_int (status_code r) ++ ": "
                          ++ exn_msg e))
    end
  else Eff.raise e.

(** The [try] body of [_make_request] once [session.get] has returned. *)
Definition _make_request_read (r : response) : M json :=
  raise_for_status r ;;;
  if negb (PyStr.truthy (PyStr.strip (text r))) then
    Eff.raise (Exn APIError "Empty response from SearXNG")
  else
    match json_loads (text r) with
    | inl detail =>
        logger ERROR ("Failed to parse JSON response: " ++ detail) ;;;
        Eff.raise (Exn APIError
                       ("Invalid JSON response from SearXNG: " ++ detail))
    | inr data => Eff.ret data
    end.

(** A [try] whose handlers see every exception, as a list of [except]
    clauses with a final re-raise does. *)
Definition handle {A} (c : M A) (h : exn -> M A) : M A :=
  fun w =>
    match c w with
    | (inl e, w') => h e w'
    | (inr a, w') => (inr a, w')
    end.

(** [_make_request] *)
Definition _make_request (params : kwargs) : M json :=
  logger INFO ("Making search request with query: "
               ++ param_str (dict_get params "q" (PStr "N/A"))) ;;;
  out <- session_get (mkRequest (base_url config ++ "/search") params
                                (timeout config)) ;;
  match out with
  | Raises e => _make_request_handlers None e
  | Responds r =>
      handle (_make_request_read r) (_make_request_handlers (Some r))
  end.

(** [url.startswith(('http://', 'https://'))] on a field of any type. *)
Definition startswith_scheme (url : json) : exn + bool :=
  match url with
  | JStr s => inr (has_http_scheme s)
  | _ => inl (Py.no_attribute url "startswith")
  end.

(** The [try] body of the loop of [_parse_results]: [None] is the
    [continue] taken for a URL without scheme. *)
Definition parse_item_body (item : json) : M (option Models.SearchResult) :=
  url <- Eff.lift (Py.get item "url" (JStr "")) ;;
  invalid <- (if Py.truthy url
              then ok <- Eff.lift (startswith_scheme url) ;; Eff.ret (negb ok)
              else Eff.ret false) ;;
  if invalid : bool then
    logger WARNING ("Skipping result with invalid URL: "
                    ++ match url with JStr s => s | _ => "" end) ;;;
    Eff.ret None
  else
    title <- Eff.lift (Py.get item "title" (JStr "No title")) ;;
    content <- Eff.lift (Py.get item "content" (JStr "")) ;;
    engines <- Eff.lift (Py.get item "engines" (JArr [])) ;;
    category <- Eff.lift (Py.get item "category" (JStr "general")) ;;
    publishedDate <- Eff.lift (Py.get item "publishedDate" JNull) ;;
    Eff.ret (Some (Models.mkSearchResult title url content engines category
                                         publishedDate)).

(** One iteration: [except Exception] logs and continues. *)
Definition parse_item (item : json) : M (option Models.SearchResult) :=
  Eff.try_except (parse_item_body item)
    (fun e => logger WARNING ("Failed to parse result: " ++ exn_msg e) ;;;
              Eff.ret None).

(** The [for] loop: [results] grows by [append]. *)
Fixpoint parse_items (items : list json) (results : list Models.SearchResult)
  : M (list Models.SearchResult) :=
  match items with
  | [] => Eff.ret results
  | item :: items' =>
      r <- parse_item item ;;
      match r with
      | Some result => parse_items items' (results ++ [result])%list
      | None => parse_items items' results
      end
  end.

(** [set(engine for result in results for engine in result.engines)] *)
Fixpoint collect_engines (results : list Models.SearchResult)
  (seen : list json) : exn + list json :=
  match results with
  | [] => inr seen
  | result :: results' =>
      match Py.iter (Models.engines result) with
      | inl e => inl e
      | inr es =>
          match Py.set_add_all seen es with
          | inl e => inl e
          | inr seen' => collect_engines results' seen'
          end
      end
  end.

(** [_parse_results] *)
Definition _parse_results (data : json) (query : string) (search_time : Q)
  : M Models.SearchResponse :=
  raw <- Eff.lift (Py.get data "results" (JArr [])) ;;
  items <- Eff.lift (Py.slice_items raw (max_results config)) ;;
  results <- parse_items items [] ;;
  engines_used <- Eff.lift (collect_engines results []) ;;
  suggestions <- Eff.lift (Py.get data "suggestions" (JArr [])) ;;
  Eff.ret (Models.mkSearchResponse query results
             (Z.of_nat (List.length results)) search_time engines_used
             suggestions).

(** [not query or not query.strip()] *)
Definition blank (query : string) : bool :=
  negb (PyStr.truthy query) || negb (PyStr.truthy (PyStr.strip query)).

(** [search]: the [except Exception] clause logs and re-raises. *)
Definition search (query : string) (kw : kwargs) : M Models.SearchResponse :=
  if blank query then
    Eff.raise (Exn ValueError "Search query cannot be empty")
  else
    start_time <- now ;;
    Eff.try_except
      (let params := _build_search_params (PyStr.strip query) kw in
       data <- _make_request params ;;
       end_time <- now ;;
       _parse_results data query (end_time - start_time)%Q)
      (fun e =>
         logger ERROR ("Search failed for query '" ++ query ++ "': "
                       ++ exn_msg e) ;;;
         Eff.raise e).

(** [search_news] *)
Definition search_news (query : string) (kw : kwargs)
  : M Models.SearchResponse :=
  let (tr, kw') := dict_pop kw "time_range" (PStr "year") in
  let news_params := [("categories", PStr "news"); ("time_range", tr)] in
  search query (dict_update news_params kw').

(** [response.elapsed.total_seconds()] *)
Variable elapsed : response -> Q.

(** [get_health_status]: a GET of [<base_url>/config] without
    parameters; any ordinary exception gives the unhealthy report. *)
Definition get_health_status : M (list (string * json)) :=
  Eff.try_except
    (out <- session_get (mkRequest (base_url config ++ "/config") []
                                   (timeout config)) ;;
     match out with
     | Raises e => Eff.raise e
     | Responds r =>
         raise_for_status r ;;;
         match json_loads (text r) with
         | inl detail => Eff.raise (Exn JSONDecodeError detail)
         | inr cfg =>
             Eff.ret [("status", JStr "healthy");
                      ("url", JStr (base_url config));
                      ("response_time", JFloat (elapsed r));
                      ("config", cfg)]
         end
     end)
    (fun e =>
       Eff.ret [("status", JStr "unhealthy");
                ("url", JStr (base_url config));
                ("error", JStr (exn_msg e))]).

End WithEnvironment.

End Client.

(** ** [search_engine/manager.py] *)

Module Manager.
Import Config Client.

(** The keyword arguments of [create_client] that name a field of
    [SearchConfig], each with a value of the field's type; any other
    keyword makes the dataclass constructor raise [TypeError]. *)
Record overrides : Type := mkOverrides {
  o_base_url : option string;
  o_timeout : option Z;
  o_max_results : option Z;
  o_language : option string;
  o_safe_search : option Z;
  o_time_range : option (option string);
  o_categories : option (list string);
  o_engines : option (list string)
}.

Definition no_overrides : overrides :=
  mkOverrides None None None None None None None None.

(** A dictionary of the comprehensions. *)
Definition entry : Type := list (string * json).

(** [len(v)] *)
Definition py_len (v : json) : exn + Z :=
  match v with
  | JStr s => inr (PyStr.len s)
  | JArr l => inr (Z.of_nat (List.length l))
  | JObj m => inr (Z.of_nat (List.length m))
  | _ => inl (Exn TypeError
                  ("object of type '" ++ Py.type_name v ++ "' has no len()"))
  end.

(** [v[:k] + "..."] for a literal [k >= 0]; a dictionary rejects the
    slice as a key (with a [TypeError] before Python 3.12). *)
Definition cut_with_dots (k : nat) (v : json) : exn + json :=
  match v with
  | JStr s => inr (JStr (PyStr.take k s ++ "..."))
  | JArr _ =>
      inl (Exn TypeError
               ("can only concatenate list (not "
                ++ String (ascii_of_nat 34) "str"
                ++ String (ascii_of_nat 34) ") to list"))
  | JObj _ => inl (Exn TypeError "unhashable type: 'slice'")
  | _ => inl (Exn TypeError
                  ("'" ++ Py.type_name v ++ "' object is not subscriptable"))
  end.

(** [c[:k] + "..." if len(c) > k else c] *)
Definition snippet (k : nat) (c : json) : exn + json :=
  match py_len c with
  | inl e => inl e
  | inr n => if n >? Z.of_nat k then cut_with_dots k c else inr c
  end.

(** The items of [', '.join(v)], each of which must be a string. *)
Fixpoint join_items (i : Z) (items : list json) : exn + list string :=
  match items with
  | [] => inr []
  | JStr s :: items' =>
      match join_items (i + 1) items' with
      | inl e => inl e
      | inr rest => inr (s :: rest)
      end
  | v :: _ =>
      inl (Exn TypeError
               ("sequence item " ++ PyStr.of_int i
                ++ ": expected str instance, " ++ Py.type_name v ++ " found"))
  end.

(** [', '.join(v)] *)
Definition join_engines (v : json) : exn + json :=
  match Py.iter v with
  | inl _ => inl (Exn TypeError "can only join an iterable")
  | inr items =>
      match join_items 0 items with
      | inl e => inl e
      | inr parts => inr (JStr (PyStr.join ", " parts))
      end
  end.

(** One dictionary of the comprehension of [quick_search]. *)
Definition quick_entry (result : Models.SearchResult) : exn + entry :=
  match snippet 200 (Models.content result) with
  | inl e => inl e
  | inr snip =>
      match join_engines (Models.engines result) with
      | inl e => inl e
      | inr engines =>
          inr [("title", Models.title result); ("url", Models.url result);
               ("snippet", snip); ("engines", engines)]
      end
  end.

(** One dictionary of the comprehension of [search_ai_news]. *)
Definition news_entry (result : Models.SearchResult) : exn + entry :=
  match snippet 300 (Models.content result) with
  | inl e => inl e
  | inr snip =>
      match join_engines (Models.engines result) with
      | inl e => inl e
      | inr engines =>
          inr [("title", Models.title result); ("url", Models.url result);
               ("snippet", snip); ("engines", engines);
               ("category", Models.category result)]
      end
  end.

(** A list comprehension whose element expression can raise. *)
Fixpoint comprehension {A B} (f : A -> exn + B) (xs : list A)
  : exn + list B :=
  match xs with
  | [] => inr []
  | x :: xs' =>
      match f x with
      | inl e => inl e
      | inr y =>
          match comprehension f xs' with
          | inl e => inl e
          | inr ys => inr (y :: ys)
          end
      end
  end.

Section WithEnvironment.

(** The environment of the process and [int] on a string (the value, or
    the text of the [ValueError]); the transport, decoder and clock are
    those of the client. *)
Variable getenv : string -> option string.
Variable int_of : string -> string + Z.
Variable transport : nat -> request -> outcome.
Variable json_loads : string -> string + json.
Variable clock : nat -> Q.

(** [os.getenv(name, default)] with a string default. *)
Definition env_or (name default : string) : string :=
  match getenv name with
  | Some v => v
  | None => default
  end.

(** [int(os.getenv(name, default))] with an integer default. *)
Definition env_int (name : string) (default : Z) : exn + Z :=
  match getenv name with
  | Some v =>
      match int_of v with
      | inl msg => inl (Exn ValueError msg)
      | inr n => inr n
      end
  | None => inr default
  end.

(** [SearchEngineManager.__init__]: the manager is its base URL. *)
Definition new (base_url : option string) : string :=
  match base_url with
  | Some u => if PyStr.truthy u then u
              else env_or "SEARXNG_URL" "http://localhost:8888"
  | None => env_or "SEARXNG_URL" "http://localhost:8888"
  end.

Definition pick {A} (o : option A) (default : A) : A :=
  match o with
  | Some v => v
  | None => default
  end.

(** [create_client]: the client is given by its configuration.  The two
    integers of the environment are read and converted before the
    overrides are applied. *)
Definition create_client (self : string) (o : overrides)
  : exn + SearchConfig :=
  match env_int "SEARXNG_TIMEOUT" 30 with
  | inl e => inl e
  | inr env_timeout =>
      match env_int "SEARXNG_MAX_RESULTS" 10 with
      | inl e => inl e
      | inr env_max_results =>
          let env_language := env_or "SEARXNG_LANGUAGE" "en" in
          Config.new (pick (o_base_url o) self)
                     (pick (o_timeout o) env_timeout)
                     (pick (o_max_results o) env_max_results)
                     (pick (o_language o) env_language)
                     (pick (o_safe_search o) 0)
                     (pick (o_time_range o) None)
                     (pick (o_categories o) ["general"])
                     (pick (o_engines o) [])
      end
  end.

(** [quick_search]; closing the session on leaving the [with] block
    changes nothing the world records. *)
Definition quick_search (self : string) (query : string) (max_results : Z)
  : M (list entry) :=
  config <- Eff.lift (create_client self
                        (mkOverrides None None (Some max_results) None None
                                     None None None)) ;;
  response <- search transport json_loads clock config query [] ;;
  Eff.lift (comprehension quick_entry (Models.results response)).

(** [search_ai_news] *)
Definition search_ai_news (self : string) (year : string) (max_results : Z)
  : M (list entry) :=
  let query := "AI news " ++ year ++ " artificial intelligence" in
  config <- Eff.lift (create_client self
                        (mkOverrides None None (Some max_results) None None
                                     None None None)) ;;
  response <- search_news transport json_loads clock config query
                [("time_range", PStr "year")] ;;
  Eff.lift (comprehension news_entry (Models.results response)).

End WithEnvironment.

End Manager.

(** ** [search_engine/utils.py] *)

Module Utils.

(** The world of [display_results]: the texts printed, one per call of
    [print], oldest first. *)
Definition M : Type -> Type := Eff.M (list string).

Definition print (text : string) : M unit :=
  fun out => (inr tt, (out ++ [text])%list).

(** [c * n] for a one-character string. *)
Fixpoint times (c : ascii) (n : nat) : string :=
  match n with
  | O => EmptyString
  | S n' => String c (times c n')
  end.

Definition newline : string := String (ascii_of_nat 10) EmptyString.

(** A result dictionary, as annotated: strings to strings. *)
Definition result : Type := list (string * string).

(** [d.get(key)] *)
Fixpoint get (d : result) (key : string) : option string :=
  match d with
  | [] => None
  | (k, v) :: d' => if String.eqb k key then Some v else get d' key
  end.

(** [d[key]] *)
Definition getitem (d : result) (key : string) : exn + string :=
  match get d key with
  | Some v => inr v
  | None => inl (Exn KeyError ("'" ++ key ++ "'"))
  end.

(** [if result.get(key): print(f"   <label>: {result[key]}")] *)
Definition print_if_present (d : result) (key label : string) : M unit :=
  match get d key with
  | Some v => if PyStr.truthy v then print ("   " ++ label ++ ": " ++ v)
              else Eff.ret tt
  | None => Eff.ret tt
  end.

(** The loop over [enumerate(results, 1)]. *)
Fixpoint display_each (i : Z) (results : list result) : M unit :=
  match results with
  | [] => Eff.ret tt
  | d :: results' =>
      title <- Eff.lift (getitem d "title") ;;
      print (newline ++ PyStr.of_int i ++ ". " ++ title) ;;;
      url <- Eff.lift (getitem d "url") ;;
      print ("   URL: " ++ url) ;;;
      print_if_present d "snippet" "Snippet" ;;;
      print_if_present d "engines" "Sources" ;;;
      print (times "-" 60) ;;;
      display_each (i + 1) results'
  end.

(** [display_results] *)
Definition display_results (results : list result) (title : string)
  : M unit :=
  print (newline ++ times "=" 60) ;;;
  print (" " ++ title) ;;;
  print (times "=" 60) ;;;
  match results with
  | [] => print "No results found."
  | _ =>
      display_each 1 results ;;;
      print (newline ++ "Total results: "
             ++ PyStr.of_int (Z.of_nat (List.length results)))
  end.

End Utils.

(** ** [main.py]: the search tool of the agent *)

Module Main.
Import Config Client.

(** The world of the tool: the world of the client and the lines
    printed. *)
Record world : Type := mkWorld {
  client_world : Client.world;
  stdout : list string
}.

Definition M : Type -> Type := Eff.M world.

(** A computation of the client, run inside the tool. *)
Definition in_client {A} (c : Client.M A) : M A :=
  fun w =>
    match c (client_world w) with
    | (r, cw) => (r, mkWorld cw (stdout w))
    end.

Definition print (line : string) : M unit :=
  fun w => (inr tt, mkWorld (client_world w) (stdout w ++ [line])%list).

Section WithEnvironment.

Variable getenv : string -> option string.
Variable int_of : string -> string + Z.
Variable transport : nat -> request -> outcome.
Variable json_loads : string -> string + json.
Variable clock : nat -> Q.

(** [search_manager = SearchEngineManager()] *)
Definition search_manager : string := Manager.new getenv None.

(** [search_web]: only a [SearXNGException] is caught. *)
Definition search_web (query : string) (max_results : Z)
  : M (list Manager.entry) :=
  fun w =>
    match in_client (Manager.quick_search getenv int_of transport json_loads
                       clock search_manager query max_results) w with
    | (inl e, w') =>
        if isinstance e SearXNGException
        then (print ("ERROR: Search failed: " ++ exn_msg e) ;;; Eff.ret []) w'
        else (inl e, w')
    | (inr results, w') => (inr results, w')
    end.

End WithEnvironment.

End Main.

(** ** [services/openai/client.py] *)

Module OpenAIService.

Record SearchResult : Type := mkSearchResult {
  title : string;
  url : string;
  content : string;
  engine : string;
  score : Q;
  category : string
}.

Record AIEnhancedResult : Type := mkAIEnhancedResult {
  original_result : SearchResult;
  ai_summary : string;
  relevance_score : float;
  key_points : list string;
  sentiment : string
}.

(** What the service reads of a chat completion. *)
Record tool_call : Type := mkToolCall {
  function_name : string;
  function_arguments : string
}.

Record message : Type := mkMessage {
  message_content : option string;
  tool_calls : option (list tool_call)
}.

Record completion : Type := mkCompletion { choices : list message }.

(** What [chat.completions.create] is called with. *)
Inductive tool_choice : Type :=
| ToolsNotOffered
| ToolAuto
| ToolForced (name : string).

Record chat_request : Type := mkChatRequest {
  model : string;
  messages : list (string * string);
  tools : tool_choice;
  temperature : Q;
  max_tokens : option Z
}.

(** The world of the service: the error lines logged and the completion
    requests issued, oldest first. *)
Record world : Type := mkWorld {
  log : list string;
  calls : list chat_request
}.

Definition empty_world : world := mkWorld [] [].

Definition M : Type -> Type := Eff.M world.

(** [a / b] on integers. *)
Definition truediv (a b : Z) : exn + float :=
  if b =? 0 then inl (Exn ZeroDivisionError "division by zero")
  else inr (PyFloat.int_div a b).

(** [min(a, b)] *)
Definition min (a b : float) : float := PyFloat.min a b.

(** [sum(1 for word in words if word in text)] *)
Definition count_in (words : list string) (text : string) : Z :=
  Z.of_nat (List.length (filter (fun word => PyStr.str_in word text) words)).

(** [xs[0]] *)
Definition first {A} (xs : list A) : exn + A :=
  match xs with
  | [] => inl (Exn IndexError "list index out of range")
  | x :: _ => inr x
  end.

(** The truth value of [message.tool_calls]. *)
Definition tool_calls_of (m : message) : list tool_call :=
  match tool_calls m with
  | Some tcs => tcs
  | None => []
  end.

(** [message.content.strip()] *)
Definition content_strip (m : message) : exn + string :=
  match message_content m with
  | Some s => inr (PyStr.strip s)
  | None => inl (Py.no_attribute JNull "strip")
  end.

Definition the_model : string := "gpt-4o-mini".

Section WithBackend.

(** The model backend answers the [n]-th completion request of a
    service; [json_loads] is the JSON decoder (the text of the
    [JSONDecodeError] when it rejects its input). *)
Variable backend : nat -> chat_request -> exn + completion.
Variable json_loads : string -> string + json.

Definition logger_error (msg : string) : M unit :=
  fun w => (inr tt, mkWorld (log w ++ [msg])%list (calls w)).

(** [await self.client.chat.completions.create(...)] *)
Definition create (req : chat_request) : M completion :=
  fun w => (backend (List.length (calls w)) req,
            mkWorld (log w) (calls w ++ [req])%list).

(** [json.loads(tool_call.function.arguments)] *)
Definition loads (s : string) : M json :=
  match json_loads s with
  | inl detail => Eff.raise (Exn JSONDecodeError detail)
  | inr v => Eff.ret v
  end.

(** [_calculate_relevance_score]: the [try] body, then the function.
    [0.6] and [0.4] are the doubles nearest to these decimals. *)
#[warnings="-inexact-float"]
Definition relevance_body (result : SearchResult) (query : string)
  : exn + float :=
  let query_words := PyStr.split (PyStr.lower query) in
  let title_lower := PyStr.lower (title result) in
  let content_lower := PyStr.lower (content result) in
  let title_matches := count_in query_words title_lower in
  let content_matches := count_in query_words content_lower in
  match truediv title_matches (Z.of_nat (List.length query_words)) with
  | inl e => inl e
  | inr t =>
      let title_score := (t * 0.6)%float in
      match truediv content_matches (Z.of_nat (List.length query_words)) with
      | inl e => inl e
      | inr c =>
          let content_score := (c * 0.4)%float in
          inr (min 1.0 (title_score + content_score))%float
      end
  end.

Definition _calculate_relevance_score (result : SearchResult)
  (query : string) : M float :=
  Eff.try_except (Eff.lift (relevance_body result query))
                 (fun _ => Eff.ret 0.5%float).

(** [_generate_summary] *)
Definition _generate_summary (content query : string) : M string :=
  Eff.try_except
    (let prompt := "Summarize this content in relation to the query '"
                   ++ query ++ "': " ++ PyStr.take 300 content in
     response <- create (mkChatRequest the_model [("user", prompt)]
                           ToolsNotOffered 0.3%Q (Some 100)) ;;
     choice <- Eff.lift (first (choices response)) ;;
     Eff.lift (content_strip choice))
    (fun e => logger_error ("Error generating summary: " ++ exn_msg e) ;;;
              Eff.ret (PyStr.take 100 content ++ "...")).

(** [[point.strip('- ').strip() for point in points if point.strip()][:3]] *)
Definition clean_points (points : list string) : list string :=
  firstn 3
    (map (fun point => PyStr.strip (PyStr.strip_chars "- " point))
         (filter (fun point => PyStr.truthy (PyStr.strip point)) points)).

(** [_extract_key_points] *)
Definition _extract_key_points (content : string) : M (list string) :=
  Eff.try_except
    (let prompt := "Extract 3 key points from this content: "
                   ++ PyStr.take 300 content in
     response <- create (mkChatRequest the_model [("user", prompt)]
                           ToolsNotOffered 0.3%Q (Some 80)) ;;
     choice <- Eff.lift (first (choices response)) ;;
     stripped <- Eff.lift (content_strip choice) ;;
     Eff.ret (clean_points (PyStr.split_on "010"%char stripped)))
    (fun e => logger_error ("Error extracting key points: " ++ exn_msg e) ;;;
              Eff.ret [PyStr.take 50 content ++ "..."]).

(** [_process_search_analysis]: the loop over [results[:5]]; the decoded
    arguments of the tool call are not read. *)
Fixpoint analyse_each (query : string) (batch : list SearchResult)
  (enhanced_results : list AIEnhancedResult) : M (list AIEnhancedResult) :=
  match batch with
  | [] => Eff.ret enhanced_results
  | result :: batch' =>
      ai_summary <- _generate_summary (content result) query ;;
      key_points <- _extract_key_points (content result) ;;
      relevance_score <- _calculate_relevance_score result query ;;
      analyse_each query batch'
        (enhanced_results
           ++ [mkAIEnhancedResult result ai_summary relevance_score
                 key_points "neutral"])%list
  end.

Definition _process_search_analysis (query : string)
  (results : list SearchResult) (analysis_args : json)
  : M (list AIEnhancedResult) :=
  analyse_each query (Py.slice_to 5 results) [].

(** One element of [_create_basic_enhanced_results]. *)
Definition basic_enhanced (result : SearchResult) : AIEnhancedResult :=
  mkAIEnhancedResult result
    (if PyStr.len (content result) >? 200
     then PyStr.take 200 (content result) ++ "..."
     else content result)
    0.5%float [title result] "neutral".

(** [_create_basic_enhanced_results]: the loop runs over [results]. *)
Definition _create_basic_enhanced_results (query : string)
  (results : list SearchResult) : M (list AIEnhancedResult) :=
  Eff.ret (fold_left (fun acc result => (acc ++ [basic_enhanced result])%list)
                     results []).

Definition enhance_messages (query : string) : list (string * string) :=
  [("developer",
    "You are an AI assistant that enhances search results. "
    ++ "Analyze the provided search results and provide intelligent insights. "
    ++ "Focus on relevance, accuracy, and usefulness to the user's query. "
    ++ "Always use the provided functions to structure your analysis.");
   ("user",
    "Please analyze these search results for the query: '" ++ query ++ "'")].

(** The request of [enhance_search_results]: the three tools are offered
    with [tool_choice="auto"]. *)
Definition enhance_request (query : string) : chat_request :=
  mkChatRequest the_model (enhance_messages query) ToolAuto 0.3%Q None.

(** The loop over the tool calls of [enhance_search_results]: every call
    named [analyze_search_results] replaces [enhanced_results]. *)
Fixpoint enhance_tool_calls (query : string) (results : list SearchResult)
  (tcs : list tool_call) (enhanced_results : list AIEnhancedResult)
  : M (list AIEnhancedResult) :=
  match tcs with
  | [] => Eff.ret enhanced_results
  | tc :: tcs' =>
      if String.eqb (function_name tc) "analyze_search_results" then
        args <- loads (function_arguments tc) ;;
        enhanced <- _process_search_analysis query results args ;;
        enhance_tool_calls query results tcs' enhanced
      else enhance_tool_calls query results tcs' enhanced_results
  end.

(** [enhance_search_results]; [results_data], built first in the source,
    is read by nothing and building it cannot raise. *)
Definition enhance_search_results (query : string)
  (results : list SearchResult) (enhancement_type : string)
  : M (list AIEnhancedResult) :=
  Eff.try_except
    (response <- create (enhance_request query) ;;
     choice <- Eff.lift (first (choices response)) ;;
     match tool_calls_of choice with
     | [] => _create_basic_enhanced_results query results
     | tcs => enhance_tool_calls query results tcs []
     end)
    (fun e =>
       logger_error ("Error enhancing search results: " ++ exn_msg e) ;;;
       _create_basic_enhanced_results query results).

(** [any(word in text for word in words)] *)
Definition any_in (words : list string) (text : string) : bool :=
  existsb (fun word => PyStr.str_in word text) words.

(** [query.lower()] on a value of any type. *)
Definition lower_of (v : json) : exn + string :=
  match v with
  | JStr s => inr (PyStr.lower s)
  | _ => inl (Py.no_attribute v "lower")
  end.

Definition intent_dict (query : json) (intent_type category urgency : string)
  (confidence : Q) : list (string * json) :=
  [("query", query); ("intent_type", JStr intent_type);
   ("category", JStr category); ("urgency", JStr urgency);
   ("confidence", JFloat confidence)].

(** [_process_intent_extraction] *)
Definition _process_intent_extraction (args : json)
  : exn + list (string * json) :=
  match Py.get args "query" (JStr "") with
  | inl e => inl e
  | inr query =>
      match lower_of query with
      | inl e => inl e
      | inr q =>
          let intent_type :=
            if any_in ["buy"; "purchase"; "price"; "cost"] q
            then "transactional"
            else if any_in ["how to"; "tutorial"; "guide"] q
            then "informational"
            else if any_in ["login"; "website"; "official"] q
            then "navigational"
            else "informational" in
          let category :=
            if any_in ["tech"; "programming"; "software"] q
            then "technology"
            else if any_in ["health"; "medical"; "doctor"] q
            then "health"
            else if any_in ["news"; "current"; "latest"] q
            then "news"
            else "general" in
          inr (intent_dict query intent_type category "medium" 0.8%Q)
      end
  end.

Definition intent_messages (query : string) : list (string * string) :=
  [("developer",
    "You are a search intent classifier. "
    ++ "Analyze user queries to determine their intent: "
    ++ "informational, navigational, transactional, or commercial. "
    ++ "Also identify the topic category and urgency level.");
   ("user", "Analyze the search intent for: '" ++ query ++ "'")].

(** The request of [extract_search_intent]: the tool is forced. *)
Definition intent_request (query : string) : chat_request :=
  mkChatRequest the_model (intent_messages query)
                (ToolForced "extract_search_intent") 0.2%Q None.

(** The loop over the tool calls of [extract_search_intent]. *)
Fixpoint intent_tool_calls (tcs : list tool_call)
  (intent_data : list (string * json)) : M (list (string * json)) :=
  match tcs with
  | [] => Eff.ret intent_data
  | tc :: tcs' =>
      if String.eqb (function_name tc) "extract_search_intent" then
        args <- loads (function_arguments tc) ;;
        data <- Eff.lift (_process_intent_extraction args) ;;
        intent_tool_calls tcs' data
      else intent_tool_calls tcs' intent_data
  end.

(** [extract_search_intent] *)
Definition extract_search_intent (query : string)
  : M (list (string * json)) :=
  Eff.try_except
    (response <- create (intent_request query) ;;
     let intent_data :=
       intent_dict (JStr query) "informational" "general" "medium" 0.8%Q in
     choice <- Eff.lift (first (choices response)) ;;
     intent_tool_calls (tool_calls_of choice) intent_data)
    (fun e =>
       logger_error ("Error extracting search intent: " ++ exn_msg e) ;;;
       Eff.ret (intent_dict (JStr query) "informational" "general" "medium"
                            0.5%Q)).

(** [str(v)] for the values that are not strings, as an f-string needs
    it. *)
Variable str_of : json -> string.

(** [f"{v}"] *)
Definition format_value (v : json) : string :=
  match v with
  | JStr s => s
  | _ => str_of v
  end.

(** [item in container] for a string [item]: substring of a string,
    element of a list, key of a dictionary. *)
Definition contains (container : json) (item : string) : exn + bool :=
  match container with
  | JStr s => inr (PyStr.str_in item s)
  | JArr l => inr (existsb (Py.eqb (JStr item)) l)
  | JObj m => inr (existsb (fun kv => String.eqb item (fst kv)) m)
  | _ => inl (Exn TypeError
                  ("argument of type '" ++ Py.type_name container
                   ++ "' is not iterable"))
  end.

Definition double_quote : string := String (ascii_of_nat 34) EmptyString.

(** [_generate_query_suggestions]; the argument is whatever the caller
    read from the tool call. *)
Definition _generate_query_suggestions (query : json)
  : exn + list json :=
  match contains query " " with
  | inl e => inl e
  | inr has_space =>
      match (if has_space
             then match contains query double_quote with
                  | inl e => inl e
                  | inr has_quote => inr (negb has_quote)
                  end
             else inr false) with
      | inl e => inl e
      | inr quote_it =>
          let q := format_value query in
          let suggestions := [query] in
          let suggestions :=
            if quote_it : bool
            then (suggestions
                  ++ [JStr (double_quote ++ q ++ double_quote)])%list
            else suggestions in
          let suggestions :=
            (suggestions
             ++ [JStr (q ++ " tutorial"); JStr (q ++ " guide");
                 JStr (q ++ " 2025"); JStr ("how to " ++ q);
                 JStr (q ++ " best practices")])%list in
          inr (Py.slice_to 5 suggestions)
      end
  end.

Definition suggest_messages (query context : string)
  : list (string * string) :=
  [("developer",
    "You are a search query optimization expert. "
    ++ "Suggest better search queries that would yield more relevant results. "
    ++ "Focus on adding relevant keywords, fixing typos, and improving specificity.");
   ("user",
    "Improve this search query: '" ++ query ++ "'"
    ++ (if PyStr.truthy context then " Context: " ++ context
        else EmptyString))].

(** The request of [suggest_query_improvements]: the tool is forced. *)
Definition suggest_request (query context : string) : chat_request :=
  mkChatRequest the_model (suggest_messages query context)
                (ToolForced "suggest_query_improvements") 0.7%Q None.

(** The loop over the tool calls of [suggest_query_improvements]. *)
Fixpoint suggestion_tool_calls (query : string) (tcs : list tool_call)
  (suggestions : list json) : M (list json) :=
  match tcs with
  | [] => Eff.ret suggestions
  | tc :: tcs' =>
      if String.eqb (function_name tc) "suggest_query_improvements" then
        args <- loads (function_arguments tc) ;;
        original <- Eff.lift (Py.get args "original_query" (JStr query)) ;;
        suggestions' <- Eff.lift (_generate_query_suggestions original) ;;
        suggestion_tool_calls query tcs' suggestions'
      else suggestion_tool_calls query tcs' suggestions
  end.

(** [suggest_query_improvements] *)
Definition suggest_query_improvements (query context : string)
  : M (list json) :=
  Eff.try_except
    (response <- create (suggest_request query context) ;;
     choice <- Eff.lift (first (choices response)) ;;
     suggestions <- suggestion_tool_calls query (tool_calls_of choice) [] ;;
     Eff.ret (match suggestions with
              | [] => [JStr query]
              | _ => suggestions
              end))
    (fun e =>
       logger_error ("Error suggesting query improvements: " ++ exn_msg e) ;;;
       Eff.ret [JStr query]).

End WithBackend.

End OpenAIService.

(** ** The properties, in the words of the specification *)

Module Spec.

(** A string made of whitespace only (the empty string included). *)
Definition all_whitespace (s : string) : Prop :=
  Forall (fun c => PyStr.isspace c = true) (list_ascii_of_string s).

(** A query token occurs in a text, case-insensitively. *)
Definition occurs (token text : string) : bool :=
  PyStr.str_in (PyStr.lower token) (PyStr.lower text).

(** The number of tokens that occur in the text. *)
Definition matches (tokens : list string) (text : string) : Z :=
  Z.of_nat (List.length (filter (fun t => occurs t text) tokens)).

(** The fraction of the tokens that occur in the text, as a number. *)
Definition fraction (tokens : list string) (text : string) : Q :=
  (inject_Z (matches tokens text)
   / inject_Z (Z.of_nat (List.length tokens)))%Q.

(** The relevance heuristic in exact arithmetic: the query is tokenized
    by whitespace. *)
Definition relevance (query title content : string) : Q :=
  let tokens := PyStr.split query in
  Qmin 1 (0.6 * fraction tokens title + 0.4 * fraction tokens content)%Q.

(** The same fraction as a double: the nearest to the quotient. *)
Definition fraction_double (tokens : list string) (text : string) : float :=
  PyFloat.int_div (matches tokens text) (Z.of_nat (List.length tokens)).

(** The relevance heuristic in double arithmetic: each fraction, each
    product and the sum are rounded to the nearest double. *)
#[warnings="-inexact-float"]
Definition relevance_double (query title content : string) : float :=
  let tokens := PyStr.split query in
  PyFloat.min 1.0 (0.6 * fraction_double tokens title
                   + 0.4 * fraction_double tokens content)%float.

(** The deterministic fallback enhancement of one result. *)
Definition fallback (r : OpenAIService.SearchResult)
  : OpenAIService.AIEnhancedResult :=
  OpenAIService.mkAIEnhancedResult r
    (if (200 <? String.length (OpenAIService.content r))%nat
     then substring 0 200 (OpenAIService.content r) ++ "..."
     else OpenAIService.content r)
    0.5%float [OpenAIService.title r] "neutral".

(** An upstream item the parser keeps: an object whose [url] is absent or
    has no truth value (empty string, null, zero, empty container), or is
    a string that starts with [http://] or [https://]. *)
Definition kept (item : json) : bool :=
  match item with
  | JObj m =>
      match Py.dict_get m "url" (JStr "") with
      | JStr s => negb (PyStr.truthy s) || Config.has_http_scheme s
      | url => negb (Py.truthy url)
      end
  | _ => false
  end.

(** The result built from a kept item, with the defaults of the parser. *)
Definition result_of (item : json) : Models.SearchResult :=
  match item with
  | JObj m =>
      Models.mkSearchResult
        (Py.dict_get m "title" (JStr "No title"))
        (Py.dict_get m "url" (JStr ""))
        (Py.dict_get m "content" (JStr ""))
        (Py.dict_get m "engines" (JArr []))
        (Py.dict_get m "category" (JStr "general"))
        (Py.dict_get m "publishedDate" JNull)
  | _ => Models.mkSearchResult JNull JNull JNull JNull JNull JNull
  end.

Definition is_string (v : json) : bool :=
  match v with JStr _ => true | _ => false end.

(** An ordinary upstream result: an object with an http(s) [url] whose
    [engines], when present, is a list of strings. *)
Definition ordinary (item : json) : bool :=
  match item with
  | JObj m =>
      match Py.dict_get m "url" (JStr "") with
      | JStr s => Config.has_http_scheme s
      | _ => false
      end
      && match Py.dict_get m "engines" (JArr []) with
         | JArr es => forallb is_string es
         | _ => false
         end
  | _ => false
  end.

(** A model backend whose failures are ordinary exceptions: instances of
    [Exception], which [except Exception] catches. *)
Definition ordinary_failures
  (backend : nat -> OpenAIService.chat_request
             -> exn + OpenAIService.completion) : Prop :=
  forall n req e, backend n req = inl e -> isinstance e Exception = true.

(** The keys of a fully populated intent structure. *)
Definition intent_keys : list string :=
  ["query"; "intent_type"; "category"; "urgency"; "confidence"].

End Spec.

(** ** Predicates used to state further properties *)

Module Props.

(** No two elements of the list are equal as Python values. *)
Fixpoint distinct (l : list json) : bool :=
  match l with
  | [] => true
  | x :: l' => negb (existsb (Py.eqb x) l') && distinct l'
  end.

(** The value occurs in the list, up to Python equality. *)
Definition member (x : json) (l : list json) : bool :=
  existsb (Py.eqb x) l.

End Props.

(** ** Concrete services and inputs used in the examples *)

Module Scenario.

Import OpenAIService.

Definition result_number (i : Z) : SearchResult :=
  mkSearchResult ("Result " ++ PyStr.of_int i)
                 ("https://example.org/" ++ PyStr.of_int i)
                 ("Text of result " ++ PyStr.of_int i)
                 "duckduckgo" 1%Q "general".

(** Six search results, one more than the analysis path handles. *)
Definition six_results : list SearchResult :=
  map result_number [1; 2; 3; 4; 5; 6].

(** A backend that is down: every completion request raises. *)
Definition failing_backend (n : nat) (req : chat_request)
  : exn + completion :=
  inl (Exn (OtherException "APIConnectionError") "Connection error.").

(** A backend whose model answers in prose, without calling a tool. *)
Definition prose_backend (n : nat) (req : chat_request)
  : exn + completion :=
  inr (mkCompletion [mkMessage (Some "These results look relevant.") None]).

(** A backend whose model calls a tool other than the analysis. *)
Definition other_tool_backend (n : nat) (req : chat_request)
  : exn + completion :=
  inr (mkCompletion
         [mkMessage None
            (Some [mkToolCall "suggest_query_improvements" "{}"])]).

(** A backend whose model calls [extract_search_intent] with the given
    arguments text. *)
Definition intent_backend (arguments : string) (n : nat)
  (req : chat_request) : exn + completion :=
  inr (mkCompletion
         [mkMessage None
            (Some [mkToolCall "extract_search_intent" arguments])]).

(** The arguments text [{"query": "<q>"}]. *)
Definition dq : string := String (ascii_of_nat 34) EmptyString.

Definition query_arguments (q : string) : string :=
  "{" ++ dq ++ "query" ++ dq ++ ": " ++ dq ++ q ++ dq ++ "}".

(** A decoder for the few argument texts of the examples. *)
Definition sample_loads (s : string) : string + json :=
  if String.eqb s "{}" then inr (JObj [])
  else if String.eqb s (query_arguments "buy cheap laptop")
  then inr (JObj [("query", JStr "buy cheap laptop")])
  else if String.eqb s (query_arguments "laptop")
  then inr (JObj [("query", JStr "laptop")])
  else inl "Expecting value: line 1 column 1 (char 0)".

(** A backend whose model calls [suggest_query_improvements] with the
    given arguments text. *)
Definition suggest_backend (arguments : string) (n : nat)
  (req : chat_request) : exn + completion :=
  inr (mkCompletion
         [mkMessage None
            (Some [mkToolCall "suggest_query_improvements" arguments])]).

(** A rendering of the values that are not strings, for the examples. *)
Definition sample_str (v : json) : string := Py.type_name v.

End Scenario.

(** ** Concrete transports and bodies used in the examples *)

Module ClientScenario.

Import Config Client.

(** A transport that gives the same answer to every request. *)
Definition answers (r : response) (n : nat) (req : request) : outcome :=
  Responds r.

Definition fails (e : exn) (n : nat) (req : request) : outcome :=
  Raises e.

(** A clock that advances by one second at each reading. *)
Definition ticks (n : nat) : Q := inject_Z (Z.of_nat n).

Definition too_many_requests : response :=
  mkResponse 429 EmptyString
    "429 Client Error: Too Many Requests for url: http://localhost:8888/search".

Definition blank_page : response := mkResponse 200 "  " EmptyString.

Definition html_page : response :=
  mkResponse 200 "<html>SearXNG</html>" EmptyString.

Definition list_page : response := mkResponse 200 "[]" EmptyString.

(** [{"results": [{"url": "<u>", "engines": ["<e>"]}, ...]}] *)
Definition item_text (u e : string) : string :=
  "{" ++ Scenario.dq ++ "url" ++ Scenario.dq ++ ": "
  ++ Scenario.dq ++ u ++ Scenario.dq ++ ", "
  ++ Scenario.dq ++ "engines" ++ Scenario.dq ++ ": ["
  ++ Scenario.dq ++ e ++ Scenario.dq ++ "]}".

Definition two_results_text : string :=
  "{" ++ Scenario.dq ++ "results" ++ Scenario.dq ++ ": ["
  ++ item_text "https://example.org/a" "duckduckgo" ++ ", "
  ++ item_text "https://example.org/b" "brave" ++ "]}".

Definition two_results_page : response :=
  mkResponse 200 two_results_text EmptyString.

Definition item_value (u e : string) : json :=
  JObj [("url", JStr u); ("engines", JArr [JStr e])].

(** A decoder for the bodies above. *)
Definition decode (s : string) : string + json :=
  if String.eqb s "[]" then inr (JArr [])
  else if String.eqb s two_results_text
  then inr (JObj [("results",
                   JArr [item_value "https://example.org/a" "duckduckgo";
                         item_value "https://example.org/b" "brave"])])
  else inl "Expecting value: line 1 column 1 (char 0)".

(** A body the decoder reads as an object: the settings answered by
    [/config]. *)
Definition config_page : response := mkResponse 200 "{}" EmptyString.

Definition decode_config (s : string) : string + json :=
  if String.eqb s "{}" then inr (JObj []) else decode s.

(** The time a response took, for the examples. *)
Definition quarter_second (r : response) : Q := 0.25%Q.

(** An environment without the [SEARXNG_] variables, and one whose result
    limit is not a number. *)
Definition no_env (name : string) : option string := None.

Definition bad_limit_env (name : string) : option string :=
  if String.eqb name "SEARXNG_MAX_RESULTS" then Some "ten" else None.

(** [int] on the few texts of the examples. *)
Definition sample_int (s : string) : string + Z :=
  if String.eqb s "30" then inr 30
  else if String.eqb s "10" then inr 10
  else inl ("invalid literal for int() with base 10: '" ++ s ++ "'").

End ClientScenario.

(** * Properties *)

(** ** Strings *)

Section StringFacts.

Import PyStr.

Lemma isspace_lower_char (c : ascii) : isspace (lower_char c) = isspace c.
Proof.
  destruct c as [[|] [|] [|] [|] [|] [|] [|] [|]]; vm_compute; reflexivity.
Qed.

Lemma lower_of_list (l : list ascii) :
  lower (string_of_list_ascii l) = string_of_list_ascii (map lower_char l).
Proof.
  induction l as [|c l IH]; simpl; [reflexivity | now rewrite IH].
Qed.

Lemma flush_lower (acc : list ascii) :
  flush (map lower_char acc) = map lower (flush acc).
Proof.
  destruct acc as [|c acc]; [reflexivity |].
  unfold flush. cbn [map].
  rewrite lower_of_list, map_rev. reflexivity.
Qed.

Lemma split_from_lower (s : string) :
  forall acc,
    split_from (map lower_char acc) (lower s) = map lower (split_from acc s).
Proof.
  induction s as [|c s IH]; intros acc; cbn [lower split_from].
  - apply flush_lower.
  - rewrite isspace_lower_char. destruct (isspace c).
    + rewrite map_app, <- flush_lower. f_equal. apply (IH []).
    + apply (IH (c :: acc)).
Qed.

(** Lower-casing commutes with whitespace tokenization. *)
Lemma split_lower (s : string) : split (lower s) = map lower (split s).
Proof. exact (split_from_lower s []). Qed.

Lemma lstrip_all_whitespace (s : string) :
  Spec.all_whitespace s -> lstrip s = EmptyString.
Proof.
  unfold Spec.all_whitespace.
  induction s as [|c s IH]; cbn; intros H; [reflexivity |].
  inversion H as [|? ? Hc Hs]; subst. rewrite Hc. now apply IH.
Qed.

Lemma strip_all_whitespace (s : string) :
  Spec.all_whitespace s -> strip s = EmptyString.
Proof.
  intros H. unfold strip. now rewrite lstrip_all_whitespace.
Qed.

Lemma take_short (k : nat) (s : string) :
  (String.length s <= k)%nat -> take k s = s.
Proof.
  unfold take. revert k.
  induction s as [|c s IH]; intros [|k] H; cbn in *; try reflexivity;
    try lia.
  f_equal. apply IH. lia.
Qed.

End StringFacts.

(** ** Configuration *)

(** C5: constructing a [SearchConfig] fails with an error exactly when the
    base URL has no http:// or https:// prefix, or the timeout or the
    result limit is not positive, or the safe-search level is outside
    0, 1, 2; in every other case construction succeeds and the object
    holds the very values passed in: nothing is clamped. *)
Theorem C5_config_construction
  (base_url : string) (timeout max_results : Z) (language : string)
  (safe_search : Z) (time_range : option string)
  (categories engines : list string) :
  let built := Config.new base_url timeout max_results language safe_search
                 time_range categories engines in
  let rejected :=
    (PyStr.startswith base_url "http://" = false
     /\ PyStr.startswith base_url "https://" = false)
    \/ timeout <= 0 \/ max_results <= 0
    \/ ~ In safe_search [0; 1; 2] in
  ((exists e, built = inl e /\ exn_cls e = ValueError) <-> rejected)
  /\ (built = inr (Config.mkSearchConfig base_url timeout max_results
                     language safe_search time_range categories engines)
      <-> ~ rejected).
Proof.
  cbv zeta. unfold Config.new, Config.__post_init__, Config.has_http_scheme,
    Config.in_0_1_2. cbn [Config.base_url Config.timeout Config.max_results
    Config.safe_search existsb].
  destruct (PyStr.startswith base_url "http://") eqn:H1;
    destruct (PyStr.startswith base_url "https://") eqn:H2;
    cbn [orb negb];
    try (destruct (Z.leb_spec timeout 0) as [Ht|Ht];
         [| destruct (Z.leb_spec max_results 0) as [Hm|Hm];
            [| destruct (Z.eqb_spec safe_search 0) as [S0|S0];
               [| destruct (Z.eqb_spec safe_search 1) as [S1|S1];
                  [| destruct (Z.eqb_spec safe_search 2) as [S2|S2]]]]]);
    cbn [orb negb];
    (split; split;
     [ intros [e [He Hc]]; try discriminate He
     | intros Hr
     | intros Hb; try discriminate Hb
     | intros Hn ]);
    try (eexists; split; reflexivity);
    try reflexivity;
    try (exfalso; apply Hn);
    cbn [In] in *;
    intuition (try congruence; try lia).
Qed.

(** ** The relevance heuristic *)

Section Doubles.

Import PyFloat.

(** Rounding keeps the sign: from a positive mantissa it gives a positive
    number, zero, infinity or no number. *)
Lemma binary_round_aux_sign (m e : Z) (l : location) :
  positive_or_nan (binary_round_aux prec emax false m e l) = true.
Proof.
  unfold binary_round_aux.
  destruct (shr_fexp prec emax m e l) as [mrs' e'].
  destruct (shr_fexp prec emax _ e' loc_Exact) as [mrs'' e''].
  destruct (shr_m mrs''); [reflexivity | | reflexivity].
  destruct (e'' <=? emax - prec); reflexivity.
Qed.

Lemma SFmul_sign (x y : spec_float) :
  positive_or_nan x = true -> positive_or_nan y = true ->
  positive_or_nan (SFmul prec emax x y) = true.
Proof.
  destruct x as [[|]|[|]| |[|] mx ex], y as [[|]|[|]| |[|] my ey];
    cbn; try discriminate; try reflexivity; intros _ _.
  apply binary_round_aux_sign.
Qed.

Lemma SFdiv_sign (x y : spec_float) :
  positive_or_nan x = true -> positive_or_nan y = true ->
  positive_or_nan (SFdiv prec emax x y) = true.
Proof.
  destruct x as [[|]|[|]| |[|] mx ex], y as [[|]|[|]| |[|] my ey];
    cbn -[SFdiv_core_binary]; try discriminate; try reflexivity;
    intros _ _.
  destruct (SFdiv_core_binary prec emax (Z.pos mx) ex (Z.pos my) ey)
    as [[mz ez] lz].
  apply binary_round_aux_sign.
Qed.

Lemma SFadd_sign (x y : spec_float) :
  positive_or_nan x = true -> positive_or_nan y = true ->
  positive_or_nan (SFadd prec emax x y) = true.
Proof.
  destruct x as [[|]|[|]| |[|] mx ex], y as [[|]|[|]| |[|] my ey];
    cbn -[shl_align binary_round]; try discriminate; try reflexivity;
    intros _ _.
  unfold binary_round.
  match goal with
  | |- context [shl_align ?a ?b ?c] => destruct (shl_align a b c) as [mz ez]
  end.
  apply binary_round_aux_sign.
Qed.

Lemma of_int_sign (n : Z) : positive_or_nan (Prim2SF (of_int n)) = true.
Proof.
  unfold of_int. rewrite of_uint63_spec.
  pose proof (Uint63.to_Z_bounded (Uint63.of_Z n)) as [H _].
  destruct (Uint63.to_Z (Uint63.of_Z n)) as [|p|p]; [reflexivity | | lia].
  unfold binary_normalize, binary_round.
  match goal with
  | |- context [shl_align ?a ?b ?c] => destruct (shl_align a b c) as [mz ez]
  end.
  apply binary_round_aux_sign.
Qed.

Lemma int_div_sign (a b : Z) :
  positive_or_nan (Prim2SF (int_div a b)) = true.
Proof.
  unfold int_div. rewrite div_spec. apply SFdiv_sign; apply of_int_sign.
Qed.

Lemma SFmul_comm (x y : spec_float) :
  SFmul prec emax x y = SFmul prec emax y x.
Proof.
  destruct x as [sx|sx| |sx mx ex], y as [sy|sy| |sy my ey];
    cbn -[binary_round_aux]; try reflexivity;
    rewrite (xorb_comm sx sy); try reflexivity.
  now rewrite (Pos.mul_comm mx my), (Z.add_comm ex ey).
Qed.

(** The product of two doubles does not depend on their order. *)
Lemma double_mul_comm (x y : float) : (x * y = y * x)%float.
Proof.
  rewrite <- (SF2Prim_Prim2SF (x * y)), <- (SF2Prim_Prim2SF (y * x)).
  rewrite !mul_spec. f_equal. apply SFmul_comm.
Qed.

(** [min(1.0, x)] lies between 0 and 1 for every [x] that is not
    negative, be it infinite or no number. *)
Lemma min_one_range (x : float) :
  positive_or_nan (Prim2SF x) = true ->
  (0 <=? PyFloat.min 1 x)%float = true
  /\ (PyFloat.min 1 x <=? 1)%float = true.
Proof.
  intros Hx. unfold PyFloat.min.
  destruct (x <? 1)%float eqn:Hlt; [| split; reflexivity].
  rewrite ltb_spec in Hlt. rewrite !leb_spec.
  unfold SFltb in Hlt. unfold SFleb.
  change (Prim2SF 0) with (S754_zero false).
  destruct (Prim2SF x) as [[|]|[|]| |[|] mx ex]; cbn in Hx;
    try discriminate Hx; try discriminate Hlt;
    (split; [reflexivity |]).
  - destruct (SFcompare (S754_zero false) (Prim2SF 1)) as [[| |]|];
      try discriminate Hlt; reflexivity.
  - destruct (SFcompare (S754_finite false mx ex) (Prim2SF 1))
      as [[| |]|]; try discriminate Hlt; reflexivity.
Qed.

End Doubles.

Section Relevance.

Import OpenAIService.

Lemma filter_map_length {A B} (f : B -> bool) (g : A -> B) (l : list A) :
  List.length (filter f (map g l))
  = List.length (filter (fun a => f (g a)) l).
Proof.
  induction l as [|a l IH]; cbn; [reflexivity |].
  destruct (f (g a)); cbn; now rewrite IH.
Qed.

Lemma count_in_lower (tokens : list string) (text : string) :
  count_in (map PyStr.lower tokens) (PyStr.lower text)
  = Spec.matches tokens text.
Proof. unfold count_in, Spec.matches. now rewrite filter_map_length. Qed.

(** The heuristic in double arithmetic always lies between 0 and 1. *)
Lemma relevance_double_range (query title content : string) :
  (0 <=? Spec.relevance_double query title content)%float = true
  /\ (Spec.relevance_double query title content <=? 1)%float = true.
Proof.
  unfold Spec.relevance_double. cbv zeta. apply min_one_range.
  rewrite add_spec.
  apply SFadd_sign; rewrite mul_spec; apply SFmul_sign;
    try reflexivity; apply int_div_sign.
Qed.

(** The [try] body of the score on a query with at least one token. *)
Lemma relevance_body_tokens (result : SearchResult) (query : string) :
  PyStr.split query <> [] ->
  relevance_body result query
  = inr (Spec.relevance_double query (title result) (content result)).
Proof.
  intros Hne. unfold relevance_body, truediv. cbv zeta.
  rewrite split_lower, !count_in_lower, length_map.
  destruct (Z.eqb_spec (Z.of_nat (List.length (PyStr.split query))) 0)
    as [H0|H0].
  - destruct (PyStr.split query); [congruence | cbn in H0; lia].
  - unfold Spec.relevance_double, Spec.fraction_double, min. cbv zeta.
    now rewrite !(double_mul_comm (PyFloat.int_div _ _)).
Qed.

(** C7, amended: on a query with at least one whitespace token the score
    is min(1.0, 0.6 x the fraction of tokens occurring in the title + 0.4 x
    the fraction occurring in the content) evaluated in double arithmetic
    (each fraction is the double nearest to the quotient of the two counts,
    each product and the sum are rounded to the nearest double), a token
    occurring in a text when its [lower()] form is a substring of the
    [lower()] form of the text; the score lies between 0 and 1; computing
    it raises nothing and leaves the world as it was. *)
Theorem C7_relevance_score (result : SearchResult) (query : string)
  (w : world) :
  PyStr.split query <> [] ->
  _calculate_relevance_score result query w
  = (inr (Spec.relevance_double query (title result) (content result)), w)
  /\ (0 <=? Spec.relevance_double query (title result) (content result)
     )%float = true
  /\ (Spec.relevance_double query (title result) (content result) <=? 1
     )%float = true.
Proof.
  intros Hne. split; [| apply relevance_double_range].
  unfold _calculate_relevance_score, Eff.try_except, Eff.lift.
  now rewrite (relevance_body_tokens result query Hne).
Qed.

(** C7 as stated fails in exact arithmetic: for the title [alpha] and the
    query [alpha beta gamma] the formula gives 0.6 x 1/3 = 1/5, and the
    score returned is the double 7205759403792793 / 2^55, a little less. *)
Lemma C7_relevance_score_counterexample :
  PyStr.split "alpha beta gamma" <> []
  /\ exists score value,
       _calculate_relevance_score
         (mkSearchResult "alpha" "https://e.org" EmptyString "g" 0
                         "general")
         "alpha beta gamma" empty_world = (inr score, empty_world)
       /\ PyFloat.exact_value score = Some value
       /\ value = 7205759403792793 # (2 ^ 55)
       /\ (Spec.relevance "alpha beta gamma" "alpha" EmptyString == 1 # 5)%Q
       /\ ~ (value == Spec.relevance "alpha beta gamma" "alpha" EmptyString)%Q.
Proof.
  split; [discriminate |].
  do 2 eexists. split; [vm_compute; reflexivity |].
  split; [vm_compute; reflexivity |].
  split; [reflexivity |].
  split; [reflexivity |].
  intros H. vm_compute in H. discriminate H.
Qed.

(** The score of a query without tokens: the first division raises. *)
Lemma relevance_body_no_tokens (result : SearchResult) (query : string) :
  PyStr.split query = [] ->
  relevance_body result query
  = inl (Exn ZeroDivisionError "division by zero").
Proof.
  intros He. unfold relevance_body. cbv zeta.
  rewrite split_lower, He. reflexivity.
Qed.

(** The score is defined for every query string. *)
Lemma relevance_score_total (result : SearchResult) (query : string)
  (w : world) :
  exists score, _calculate_relevance_score result query w = (inr score, w).
Proof.
  unfold _calculate_relevance_score, Eff.try_except, Eff.lift.
  destruct (relevance_body result query) as [e|s] eqn:Hr.
  - unfold relevance_body, truediv in Hr. cbv zeta in Hr.
    destruct (Z.of_nat (List.length (PyStr.split (PyStr.lower query))) =? 0);
      [| discriminate Hr].
    injection Hr as <-. eexists. reflexivity.
  - eexists. reflexivity.
Qed.

(** C10: on a query whose whitespace tokenization is empty the division by
    the number of tokens raises ZeroDivisionError inside the [try], the
    handler returns 0.5, and nothing is raised; hence the score is
    defined for every query string. *)
Theorem C10_empty_query_score (result : SearchResult) (query : string)
  (w : world) :
  PyStr.split query = [] ->
  relevance_body result query
  = inl (Exn ZeroDivisionError "division by zero")
  /\ _calculate_relevance_score result query w = (inr 0.5%float, w)
  /\ (forall result' query' w',
         exists score,
           _calculate_relevance_score result' query' w' = (inr score, w')).
Proof.
  intros He. pose proof (relevance_body_no_tokens result query He) as Hb.
  split; [exact Hb | split].
  - unfold _calculate_relevance_score, Eff.try_except, Eff.lift.
    rewrite Hb. reflexivity.
  - intros r q w'. apply relevance_score_total.
Qed.

(** A query of three tokens, two of them in the title, one in the content:
    2/3 x 0.6 + 1/3 x 0.4 in doubles is 4803839602528529 / 2^53, a little
    more than 8/15. *)
Example relevance_example :
  exists score,
    relevance_body
      (mkSearchResult "Python Guide" "https://e.org" "learn python" "g" 0
                      "general")
      "PYTHON guide now" = inr score
    /\ PyFloat.exact_value score = Some (4803839602528529 # (2 ^ 53)).
Proof. eexists. split; vm_compute; reflexivity. Qed.

(** Witness of C7 at the query "buy laptop". *)
Lemma C7_relevance_score_witness :
  exists score,
    _calculate_relevance_score
      (mkSearchResult "Cheap laptop deals" "https://shop.example"
                      "Where to buy" "g" 0 "general")
      "buy laptop" empty_world = (inr score, empty_world)
    /\ (0 <=? score)%float = true /\ (score <=? 1)%float = true.
Proof.
  destruct (C7_relevance_score
              (mkSearchResult "Cheap laptop deals" "https://shop.example"
                              "Where to buy" "g" 0 "general")
              "buy laptop" empty_world) as [H1 [H2 H3]].
  - discriminate.
  - eexists. split; [exact H1 |]. split; assumption.
Defined.

(** Witness of C10 at the empty query and at a query of blanks. *)
Lemma C10_empty_query_score_witness :
  _calculate_relevance_score
    (mkSearchResult "t" "https://e.org" "c" "g" 0 "general") "" empty_world
  = (inr 0.5%float, empty_world).
Proof.
  apply (C10_empty_query_score
           (mkSearchResult "t" "https://e.org" "c" "g" 0 "general") ""
           empty_world).
  reflexivity.
Defined.

End Relevance.

(** ** The enhancement service *)

Section Enhancement.

Import OpenAIService.

Variable backend : nat -> chat_request -> exn + completion.
Variable json_loads : string -> string + json.

Lemma fold_append {A B} (f : A -> B) (l : list A) :
  forall acc,
    fold_left (fun acc a => (acc ++ [f a])%list) l acc
    = (acc ++ map f l)%list.
Proof.
  induction l as [|a l IH]; intros acc; cbn.
  - now rewrite app_nil_r.
  - rewrite IH, <- app_assoc. reflexivity.
Qed.

Lemma basic_enhanced_fallback (r : SearchResult) :
  basic_enhanced r = Spec.fallback r.
Proof.
  unfold basic_enhanced, Spec.fallback, PyStr.len, PyStr.take.
  replace (Z.of_nat (String.length (content r)) >? 200)
    with (200 <? String.length (content r))%nat; [reflexivity |].
  rewrite Z.gtb_ltb.
  destruct (Nat.ltb_spec 200 (String.length (content r)));
    destruct (Z.ltb_spec 200 (Z.of_nat (String.length (content r))));
    (reflexivity || lia).
Qed.

(** The fallback builder returns one fallback enhancement per result,
    for all of them and in their order, and has no effect. *)
Lemma create_basic_enhanced_results_spec (query : string)
  (results : list SearchResult) (w : world) :
  _create_basic_enhanced_results query results w
  = (inr (map Spec.fallback results), w).
Proof.
  unfold _create_basic_enhanced_results, Eff.ret.
  rewrite fold_append. cbn [app].
  f_equal. f_equal. apply map_ext, basic_enhanced_fallback.
Qed.

(** C3: when the completion call of [enhance_search_results] raises an
    exception, nothing is propagated: the error is logged and every result
    gets the fallback enhancement (summary = content cut at 200 characters
    plus "..." or the whole content when shorter, score 0.5, key points =
    [title], sentiment "neutral"). *)
Theorem C3_backend_failure_fallback (query : string)
  (results : list SearchResult) (enhancement_type : string) (w : world)
  (e : exn) :
  backend (List.length (calls w)) (enhance_request query) = inl e ->
  isinstance e Exception = true ->
  enhance_search_results backend json_loads query results enhancement_type w
  = (inr (map Spec.fallback results),
     mkWorld (log w ++ ["Error enhancing search results: " ++ exn_msg e])
             (calls w ++ [enhance_request query])).
Proof.
  intros Hb He.
  unfold enhance_search_results, Eff.try_except, Eff.bind, create.
  rewrite Hb, He. unfold logger_error. cbn [log calls].
  now rewrite create_basic_enhanced_results_spec.
Qed.

(** The path without tool call: the same fallback, for all results. *)
Lemma enhance_without_tool_call (query : string)
  (results : list SearchResult) (enhancement_type : string) (w : world)
  (choice : message) (others : list message) :
  backend (List.length (calls w)) (enhance_request query)
  = inr (mkCompletion (choice :: others)) ->
  tool_calls_of choice = [] ->
  enhance_search_results backend json_loads query results enhancement_type w
  = (inr (map Spec.fallback results),
     mkWorld (log w) (calls w ++ [enhance_request query])).
Proof.
  intros Hb Hc.
  unfold enhance_search_results, Eff.try_except, Eff.bind, create, Eff.lift.
  rewrite Hb. cbn [choices first]. rewrite Hc.
  now rewrite create_basic_enhanced_results_spec.
Qed.

(** The two secondary completions of the tool-call path always return:
    their own [except Exception] turns a failure into a stub. *)
Lemma generate_summary_returns (content query : string) (w : world) :
  Spec.ordinary_failures backend ->
  exists summary w',
    _generate_summary backend content query w = (inr summary, w').
Proof.
  intros Hord.
  unfold _generate_summary, Eff.try_except, Eff.bind, create, Eff.lift.
  cbv zeta.
  destruct (backend _ _) as [e|[cs]] eqn:Hb.
  - rewrite (Hord _ _ _ Hb). do 2 eexists. reflexivity.
  - destruct cs as [|[[s|] tcs] cs]; do 2 eexists; reflexivity.
Qed.

Lemma extract_key_points_returns (content : string) (w : world) :
  Spec.ordinary_failures backend ->
  exists points w',
    _extract_key_points backend content w = (inr points, w').
Proof.
  intros Hord.
  unfold _extract_key_points, Eff.try_except, Eff.bind, create, Eff.lift.
  cbv zeta.
  destruct (backend _ _) as [e|[cs]] eqn:Hb.
  - rewrite (Hord _ _ _ Hb). do 2 eexists. reflexivity.
  - destruct cs as [|[[s|] tcs] cs]; do 2 eexists; reflexivity.
Qed.

Lemma calculate_relevance_score_returns (result : SearchResult)
  (query : string) (w : world) :
  exists score, _calculate_relevance_score result query w = (inr score, w).
Proof.
  destruct (relevance_score_total result query w) as [s Hs]. eauto.
Qed.

(** The loop of the analysis appends one enhancement per result of the
    batch, in order, each owning its original result. *)
Lemma analyse_each_spec (query : string) (batch : list SearchResult) :
  Spec.ordinary_failures backend ->
  forall acc w,
  exists out w',
    analyse_each backend query batch acc w = (inr (acc ++ out)%list, w')
    /\ map original_result out = batch.
Proof.
  intros Hord.
  induction batch as [|r batch IH]; intros acc w; cbn [analyse_each].
  - exists [], w. rewrite app_nil_r. split; reflexivity.
  - unfold Eff.bind.
    destruct (generate_summary_returns (content r) query w Hord)
      as [s [w1 Hs]]. rewrite Hs.
    destruct (extract_key_points_returns (content r) w1 Hord)
      as [k [w2 Hk]]. rewrite Hk.
    destruct (calculate_relevance_score_returns r query w2) as [sc Hsc].
    rewrite Hsc.
    destruct (IH (acc ++ [mkAIEnhancedResult r s sc k "neutral"])%list w2)
      as [out [w' [Hrun Hmap]]].
    rewrite Hrun.
    exists (mkAIEnhancedResult r s sc k "neutral" :: out), w'.
    split; [now rewrite <- app_assoc | cbn; now rewrite Hmap].
Qed.

(** The tool-call path: when the model calls [analyze_search_results]
    once with well-formed arguments, the service returns one enhancement
    for each of the first five results, in order. *)
Lemma enhance_with_analysis (query : string) (results : list SearchResult)
  (enhancement_type : string) (w : world) (content : option string)
  (arguments : string) (args : json) (others : list message) :
  Spec.ordinary_failures backend ->
  backend (List.length (calls w)) (enhance_request query)
  = inr (mkCompletion
           (mkMessage content
              (Some [mkToolCall "analyze_search_results" arguments])
            :: others)) ->
  json_loads arguments = inr args ->
  exists out w',
    enhance_search_results backend json_loads query results
      enhancement_type w = (inr out, w')
    /\ map original_result out = firstn 5 results
    /\ List.length out = Nat.min (List.length results) 5.
Proof.
  intros Hord Hb Hj.
  destruct (analyse_each_spec query (Py.slice_to 5 results) Hord []
              (mkWorld (log w) (calls w ++ [enhance_request query])))
    as [out [w' [Hrun Hmap]]].
  exists out, w'.
  change (Py.slice_to 5 results) with (firstn 5 results) in Hmap.
  split; [| split; [exact Hmap |]].
  - unfold enhance_search_results, Eff.try_except, Eff.bind, create,
      Eff.lift.
    rewrite Hb.
    cbn [choices first tool_calls_of tool_calls enhance_tool_calls
      function_name function_arguments].
    change ("analyze_search_results" =? "analyze_search_results")%string
      with true.
    cbv iota. unfold loads, Eff.bind, Eff.lift. rewrite Hj.
    unfold Eff.ret at 1. unfold _process_search_analysis, Eff.bind.
    cbn [log calls]. rewrite Hrun. reflexivity.
  - rewrite <- (length_map original_result), Hmap, length_firstn.
    apply Nat.min_comm.
Qed.

End Enhancement.

Section EnhancementExamples.

Import OpenAIService Scenario.

Lemma C3_backend_failure_fallback_witness :
  enhance_search_results failing_backend sample_loads "rust" six_results
    "all" empty_world
  = (inr (map Spec.fallback six_results),
     mkWorld ["Error enhancing search results: Connection error."]
             [enhance_request "rust"]).
Proof.
  apply (C3_backend_failure_fallback failing_backend sample_loads "rust"
           six_results "all" empty_world
           (Exn (OtherException "APIConnectionError") "Connection error."));
    reflexivity.
Defined.

(** C1: on six results the enhancement does not return min(6, 5) = 5
    elements on every path.  When the model answers without a tool call,
    and when the backend fails, all six results come back enhanced; when
    the model calls another tool only, nothing comes back.  Only the
    analysis path (see [enhance_with_analysis]) returns the first five. *)
Theorem C1_six_results_not_five :
  List.length six_results = 6%nat
  /\ (exists w',
        enhance_search_results prose_backend sample_loads "rust" six_results
          "all" empty_world = (inr (map Spec.fallback six_results), w')
        /\ map original_result (map Spec.fallback six_results) = six_results
        /\ List.length (map Spec.fallback six_results) = 6%nat)
  /\ (exists w',
        enhance_search_results failing_backend sample_loads "rust"
          six_results "all" empty_world
        = (inr (map Spec.fallback six_results), w'))
  /\ (exists w',
        enhance_search_results other_tool_backend sample_loads "rust"
          six_results "all" empty_world = (inr [], w'))
  /\ Nat.min (List.length six_results) 5 = 5%nat.
Proof.
  split; [reflexivity |].
  split.
  { eexists. split; [| split; reflexivity].
    apply (enhance_without_tool_call prose_backend sample_loads "rust"
             six_results "all" empty_world
             (mkMessage (Some "These results look relevant.") None) []);
      reflexivity. }
  split.
  { eexists. reflexivity. }
  split; [| reflexivity].
  eexists. reflexivity.
Qed.

End EnhancementExamples.

(** ** Keyword dictionaries *)

Section Dictionaries.

Import Client.

Lemma dict_get_set_same (d : kwargs) (k : string) (v dflt : param) :
  dict_get (dict_set d k v) k dflt = v.
Proof.
  induction d as [|[k0 x] d IH]; cbn [dict_set dict_get].
  - now rewrite String.eqb_refl.
  - destruct (String.eqb k0 k) eqn:E; cbn [dict_get]; rewrite E;
      [reflexivity | exact IH].
Qed.

Lemma dict_get_set_other (d : kwargs) (k k' : string) (v dflt : param) :
  k <> k' ->
  dict_get (dict_set d k v) k' dflt = dict_get d k' dflt.
Proof.
  intros Hne.
  assert (Hk : String.eqb k k' = false) by now apply String.eqb_neq.
  induction d as [|[k0 x] d IH]; cbn [dict_set dict_get].
  - now rewrite Hk.
  - destruct (String.eqb k0 k) eqn:E; cbn [dict_get].
    + apply String.eqb_eq in E. subst k0. now rewrite Hk.
    + now rewrite IH.
Qed.

Lemma dict_get_set (d : kwargs) (k k' : string) (v dflt : param) :
  dict_get (dict_set d k v) k' dflt
  = if String.eqb k k' then v else dict_get d k' dflt.
Proof.
  destruct (String.eqb k k') eqn:E.
  - apply String.eqb_eq in E. subst k'. apply dict_get_set_same.
  - apply dict_get_set_other. now apply String.eqb_neq.
Qed.

Lemma dict_get_app (d1 d2 : kwargs) (k : string) (dflt : param) :
  dict_get (d1 ++ d2)%list k dflt = dict_get d1 k (dict_get d2 k dflt).
Proof.
  induction d1 as [|[k0 x] d1 IH]; cbn [app dict_get]; [reflexivity |].
  now rewrite IH.
Qed.

Lemma dict_get_absent (d : kwargs) (k : string) (dflt : param) :
  ~ In k (map fst d) -> dict_get d k dflt = dflt.
Proof.
  induction d as [|[k0 x] d IH]; cbn [map fst In dict_get]; intros Hin;
    [reflexivity |].
  destruct (String.eqb k0 k) eqn:E.
  - apply String.eqb_eq in E. tauto.
  - apply IH. tauto.
Qed.

(** Updating is a left-to-right sequence of assignments: the last value
    given for a key wins. *)
Lemma dict_get_update_rev (other d : kwargs) (k : string) (dflt : param) :
  dict_get (dict_update d other) k dflt
  = dict_get (List.rev other) k (dict_get d k dflt).
Proof.
  unfold dict_update. revert d.
  induction other as [|[k0 x] other IH]; intros d; cbn [fold_left List.rev];
    [reflexivity |].
  rewrite IH, dict_get_app. cbn [fst snd dict_get].
  now rewrite dict_get_set.
Qed.

Lemma dict_get_rev (d : kwargs) (k : string) (dflt : param) :
  NoDup (map fst d) ->
  dict_get (List.rev d) k dflt = dict_get d k dflt.
Proof.
  intros Hnd. revert dflt.
  induction d as [|[k0 x] d IH]; intros dflt; [reflexivity |].
  cbn [map fst] in Hnd. inversion Hnd as [|? ? Hnotin Hnd']; subst.
  cbn [List.rev]. rewrite dict_get_app, IH by assumption.
  cbn [dict_get].
  destruct (String.eqb k0 k) eqn:E; [| reflexivity].
  apply String.eqb_eq in E. subst k0.
  now apply dict_get_absent.
Qed.

Lemma dict_get_update (other d : kwargs) (k : string) (dflt : param) :
  NoDup (map fst other) ->
  dict_get (dict_update d other) k dflt
  = dict_get other k (dict_get d k dflt).
Proof.
  intros Hnd. now rewrite dict_get_update_rev, dict_get_rev.
Qed.

Lemma dict_get_pop_other (d : kwargs) (k k' : string) (dflt dflt' : param) :
  k <> k' ->
  dict_get (snd (dict_pop d k dflt)) k' dflt' = dict_get d k' dflt'.
Proof.
  intros Hne. unfold dict_pop. cbn [snd].
  induction d as [|[k0 x] d IH]; cbn [filter fst dict_get]; [reflexivity |].
  destruct (String.eqb k0 k) eqn:E; cbn [negb dict_get].
  - apply String.eqb_eq in E. subst k0.
    apply String.eqb_neq in Hne. now rewrite Hne.
  - now rewrite IH.
Qed.

Lemma dict_get_pop_same (d : kwargs) (k : string) (dflt dflt' : param) :
  dict_get (snd (dict_pop d k dflt)) k dflt' = dflt'.
Proof.
  unfold dict_pop. cbn [snd].
  induction d as [|[k0 x] d IH]; cbn [filter fst dict_get]; [reflexivity |].
  destruct (String.eqb k0 k) eqn:E; cbn [negb dict_get];
    [exact IH | now rewrite E].
Qed.

Lemma dict_pop_keys_nodup (d : kwargs) (k : string) (dflt : param) :
  NoDup (map fst d) -> NoDup (map fst (snd (dict_pop d k dflt))).
Proof.
  unfold dict_pop. cbn [snd].
  induction d as [|[k0 x] d IH]; cbn [filter map fst]; intros Hnd;
    [constructor |].
  inversion Hnd as [|? ? Hnotin Hnd']; subst.
  destruct (negb (String.eqb k0 k)); [| now apply IH].
  cbn [map fst]. constructor; [| now apply IH].
  intros Hin. apply Hnotin.
  apply in_map_iff in Hin. destruct Hin as [[k1 y] [Hk Hin]].
  apply filter_In in Hin. destruct Hin as [Hin _].
  cbn [fst] in Hk. subst k1. apply in_map_iff. now exists (k0, y).
Qed.

Lemma dict_set_keys (d : kwargs) (k k' : string) (v : param) :
  In k' (map fst (dict_set d k v)) -> k' = k \/ In k' (map fst d).
Proof.
  induction d as [|[k0 x] d IH]; cbn [dict_set map fst In].
  - intros [H|[]]. now left.
  - destruct (String.eqb k0 k); cbn [map fst In]; [tauto |].
    intros [H|H]; [tauto |]. destruct (IH H); tauto.
Qed.

Lemma dict_set_nodup (d : kwargs) (k : string) (v : param) :
  NoDup (map fst d) -> NoDup (map fst (dict_set d k v)).
Proof.
  induction d as [|[k0 x] d IH]; cbn [dict_set map fst]; intros Hnd.
  - constructor; [intros [] | constructor].
  - inversion Hnd as [|? ? Hnotin Hnd']; subst.
    destruct (String.eqb k0 k) eqn:E; cbn [map fst];
      [now constructor |].
    constructor; [| now apply IH].
    intros Hin. destruct (dict_set_keys _ _ _ _ Hin) as [->|Hin'];
      [| contradiction].
    now rewrite String.eqb_refl in E.
Qed.

Lemma dict_update_nodup (other d : kwargs) :
  NoDup (map fst d) -> NoDup (map fst (dict_update d other)).
Proof.
  unfold dict_update. revert d.
  induction other as [|[k x] other IH]; intros d Hnd; cbn [fold_left];
    [assumption |].
  apply IH. now apply dict_set_nodup.
Qed.

End Dictionaries.

(** ** The request of the search client *)

Section Requests.

Import Config Client.

Variable transport : nat -> request -> outcome.
Variable json_loads : string -> string + json.
Variable config : SearchConfig.

Lemma dict_update_nil (d : kwargs) : dict_update d [] = d.
Proof. reflexivity. Qed.

(** X1: [_build_search_params]: a keyword argument overrides the parameter of
    the same name and every other parameter keeps the value built from the
    query and the configuration. *)
Theorem build_search_params_overrides (query : string) (kw : kwargs)
  (k : string) (dflt : param) :
  NoDup (map fst kw) ->
  dict_get (_build_search_params config query kw) k dflt
  = dict_get kw k (dict_get (_build_search_params config query []) k dflt).
Proof.
  intros Hnd. unfold _build_search_params.
  rewrite dict_update_nil. now apply dict_get_update.
Qed.

(** X2: [_build_search_params] without overrides: [q], [format=json],
    [language] and [safesearch] are always sent; [time_range], [categories]
    and [engines] are sent only when the configuration has a non-empty
    value for them, the lists joined with commas. *)
Theorem build_search_params_base (query : string) (dflt : param) :
  let params := _build_search_params config query [] in
  dict_get params "q" dflt = PStr query
  /\ dict_get params "format" dflt = PStr "json"
  /\ dict_get params "language" dflt = PStr (language config)
  /\ dict_get params "safesearch" dflt = PInt (safe_search config)
  /\ dict_get params "time_range" dflt
     = match time_range config with
       | Some tr => if PyStr.truthy tr then PStr tr else dflt
       | None => dflt
       end
  /\ dict_get params "categories" dflt
     = match categories config with
       | [] => dflt
       | cs => PStr (PyStr.join "," cs)
       end
  /\ dict_get params "engines" dflt
     = match engines config with
       | [] => dflt
       | es => PStr (PyStr.join "," es)
       end.
Proof.
  unfold _build_search_params. rewrite dict_update_nil.
  destruct (time_range config) as [tr|]; [destruct (PyStr.truthy tr) |];
    destruct (categories config) as [|c cs];
    destruct (engines config) as [|e es];
    cbv zeta; repeat split; rewrite ?dict_get_set; reflexivity.
Qed.

(** The handlers of [_make_request] always raise and send nothing. *)
Lemma make_request_handlers_raise (resp : option response) (e : exn)
  (w : world) :
  exists e' w',
    _make_request_handlers config resp e w = (inl e', w')
    /\ sent w' = sent w /\ clock_reads w' = clock_reads w.
Proof.
  unfold _make_request_handlers.
  destruct (isinstance e Timeout); [do 2 eexists; repeat split |].
  destruct (isinstance e ConnectionError); [do 2 eexists; repeat split |].
  destruct (isinstance e HTTPError); [| do 2 eexists; repeat split].
  destruct resp as [r|]; [| do 2 eexists; repeat split].
  unfold Eff.bind, logger. cbn [sent log clock_reads].
  destruct (status_code r =? 403); [do 2 eexists; repeat split |].
  destruct (status_code r =? 429); do 2 eexists; repeat split.
Qed.

Lemma make_request_read_sent (r : response) (w : world) :
  sent (snd (_make_request_read json_loads r w)) = sent w
  /\ clock_reads (snd (_make_request_read json_loads r w)) = clock_reads w.
Proof.
  unfold _make_request_read, raise_for_status, Eff.bind.
  destruct ((400 <=? status_code r) && (status_code r <? 600));
    [split; reflexivity |].
  cbn [Eff.ret].
  destruct (negb (PyStr.truthy (PyStr.strip (text r))));
    [split; reflexivity |].
  destruct (json_loads (text r)); split; reflexivity.
Qed.

(** [_make_request] records exactly one request and reads no clock. *)
Lemma make_request_frame (params : kwargs) (w : world) :
  exists res w',
    _make_request transport json_loads config params w = (res, w')
    /\ sent w' = (sent w ++ [mkRequest (base_url config ++ "/search") params
                                       (timeout config)])%list
    /\ clock_reads w' = clock_reads w.
Proof.
  unfold _make_request, Eff.bind, logger, session_get.
  cbn [sent log clock_reads].
  destruct (transport _ _) as [e|r].
  - match goal with
    | |- context [_make_request_handlers config None e ?w0] =>
        destruct (make_request_handlers_raise None e w0)
          as [e' [w' [Hrun [Hsent Hclock]]]]
    end.
    rewrite Hrun. exists (inl e'), w'. cbn [sent clock_reads] in *. auto.
  - unfold handle.
    match goal with
    | |- context [_make_request_read json_loads r ?w0] =>
        pose proof (make_request_read_sent r w0) as [Hs Hc];
        destruct (_make_request_read json_loads r w0) as [[e|data] w1]
    end; cbn [snd sent clock_reads] in Hs, Hc.
    + destruct (make_request_handlers_raise (Some r) e w1)
        as [e' [w' [Hrun [Hsent Hclock]]]].
      rewrite Hrun. exists (inl e'), w'. split; [reflexivity |].
      split; congruence.
    + exists (inr data), w1. auto.
Qed.

(** The [q] of the parameters built without overrides. *)
Lemma build_search_params_q (query : string) (dflt : param) :
  dict_get (_build_search_params config query []) "q" dflt = PStr query.
Proof.
  unfold _build_search_params. rewrite dict_update_nil.
  destruct (time_range config) as [tr|]; [destruct (PyStr.truthy tr) |];
    destruct (categories config) as [|c cs];
    destruct (engines config) as [|e es];
    rewrite ?dict_get_set; reflexivity.
Qed.

(** X3: [_make_request] sends exactly one request, whatever the transport
    does: a GET of [<base_url>/search] with the given parameters and the
    configured timeout.  Nothing is retried. *)
Theorem make_request_sends_once (params : kwargs) (w : world) :
  sent (snd (_make_request transport json_loads config params w))
  = (sent w ++ [mkRequest (base_url config ++ "/search") params
                          (timeout config)])%list.
Proof.
  destruct (make_request_frame params w) as [res [w' [Hrun [Hsent _]]]].
  rewrite Hrun. exact Hsent.
Qed.

End Requests.

(** ** What [_make_request] makes of the transport's answer *)

Section RequestOutcomes.

Import Config Client.

Variable transport : nat -> request -> outcome.
Variable json_loads : string -> string + json.
Variable config : SearchConfig.

(** On an error status the [HTTPError] of [raise_for_status] reaches the
    handlers, with the response bound. *)
Lemma make_request_error_status (params : kwargs) (w : world)
  (r : response) :
  transport (List.length (sent w))
    (mkRequest (base_url config ++ "/search") params (timeout config))
  = Responds r ->
  400 <= status_code r < 600 ->
  _make_request transport json_loads config params w
  = _make_request_handlers config (Some r)
      (Exn HTTPError (http_error_text r))
      (mkWorld
         (log w ++ [(INFO, "Making search request with query: "
                           ++ param_str (dict_get params "q" (PStr "N/A")))])
         (sent w ++ [mkRequest (base_url config ++ "/search") params
                               (timeout config)])
         (clock_reads w)).
Proof.
  intros Ht [Hlo Hhi].
  unfold _make_request, Eff.bind, logger, session_get.
  cbn [sent log clock_reads]. rewrite Ht.
  unfold handle, _make_request_read, raise_for_status, Eff.bind.
  apply Z.leb_le in Hlo. apply Z.ltb_lt in Hhi. now rewrite Hlo, Hhi.
Qed.

(** The third handler: what is raised for an [HTTPError], by status. *)
Lemma handlers_http_error (r : response) (message : string) (w : world) :
  _make_request_handlers config (Some r) (Exn HTTPError message) w
  = (inl (if status_code r =? 403
          then Exn APIError
                   "Access forbidden - check if JSON format is enabled"
          else if status_code r =? 429
          then Exn APIError "Rate limit exceeded - try again later"
          else Exn NetworkError
                   ("HTTP " ++ PyStr.of_int (status_code r) ++ ": "
                    ++ message)),
     mkWorld (log w ++ [(ERROR, "HTTP error: " ++ message)]) (sent w)
             (clock_reads w)).
Proof.
  unfold _make_request_handlers.
  change (isinstance (Exn HTTPError message) Timeout) with false.
  change (isinstance (Exn HTTPError message) ConnectionError) with false.
  change (isinstance (Exn HTTPError message) HTTPError) with true.
  cbv iota. unfold Eff.bind, logger. cbn [sent log clock_reads exn_msg].
  destruct (status_code r =? 403); [reflexivity |].
  destruct (status_code r =? 429); reflexivity.
Qed.

(** X4: [_make_request] on an HTTP error status (400..599): 403 and 429 raise
    an [APIError] with a fixed message, every other error status raises
    [NetworkError("HTTP <status>: <error>")]; the error is logged first. *)
Theorem make_request_http_error (params : kwargs) (w : world)
  (r : response) :
  transport (List.length (sent w))
    (mkRequest (base_url config ++ "/search") params (timeout config))
  = Responds r ->
  400 <= status_code r < 600 ->
  _make_request transport json_loads config params w
  = (inl (if status_code r =? 403
          then Exn APIError
                   "Access forbidden - check if JSON format is enabled"
          else if status_code r =? 429
          then Exn APIError "Rate limit exceeded - try again later"
          else Exn NetworkError
                   ("HTTP " ++ PyStr.of_int (status_code r) ++ ": "
                    ++ http_error_text r)),
     mkWorld
       (log w
        ++ [(INFO, "Making search request with query: "
                   ++ param_str (dict_get params "q" (PStr "N/A")));
            (ERROR, "HTTP error: " ++ http_error_text r)])
       (sent w ++ [mkRequest (base_url config ++ "/search") params
                             (timeout config)])
       (clock_reads w)).
Proof.
  intros Ht Hst.
  rewrite (make_request_error_status params w r Ht Hst), handlers_http_error.
  cbn [log sent clock_reads]. now rewrite <- app_assoc.
Qed.

(** X5: [_make_request] when the transport cannot connect (a
    [ConnectionError] that is not also a [Timeout]): the failure is logged
    and [NetworkError("Cannot connect to SearXNG at <base_url>")] raised. *)
Theorem make_request_connection_error (params : kwargs) (w : world)
  (e : exn) :
  transport (List.length (sent w))
    (mkRequest (base_url config ++ "/search") params (timeout config))
  = Raises e ->
  isinstance e Timeout = false ->
  isinstance e ConnectionError = true ->
  _make_request transport json_loads config params w
  = (inl (Exn NetworkError
              ("Cannot connect to SearXNG at " ++ base_url config)),
     mkWorld
       (log w
        ++ [(INFO, "Making search request with query: "
                   ++ param_str (dict_get params "q" (PStr "N/A")));
            (ERROR, "Failed to connect to SearXNG at " ++ base_url config)])
       (sent w ++ [mkRequest (base_url config ++ "/search") params
                             (timeout config)])
       (clock_reads w)).
Proof.
  intros Ht Hnt Hc.
  unfold _make_request, Eff.bind, logger, session_get.
  cbn [sent log clock_reads]. rewrite Ht.
  unfold _make_request_handlers. rewrite Hnt, Hc.
  unfold Eff.bind, logger. cbn [sent log clock_reads].
  now rewrite <- app_assoc.
Qed.

(** X6: [_make_request] when the transport raises anything but a [Timeout],
    a [ConnectionError] or an [HTTPError]: the exception leaves the
    function as it is, and no error line is logged. *)
Theorem make_request_other_exception (params : kwargs) (w : world)
  (e : exn) :
  transport (List.length (sent w))
    (mkRequest (base_url config ++ "/search") params (timeout config))
  = Raises e ->
  isinstance e Timeout = false ->
  isinstance e ConnectionError = false ->
  isinstance e HTTPError = false ->
  _make_request transport json_loads config params w
  = (inl e,
     mkWorld
       (log w
        ++ [(INFO, "Making search request with query: "
                   ++ param_str (dict_get params "q" (PStr "N/A")))])
       (sent w ++ [mkRequest (base_url config ++ "/search") params
                             (timeout config)])
       (clock_reads w)).
Proof.
  intros Ht Hnt Hnc Hnh.
  unfold _make_request, Eff.bind, logger, session_get.
  cbn [sent log clock_reads]. rewrite Ht.
  unfold _make_request_handlers. now rewrite Hnt, Hnc, Hnh.
Qed.

(** X7: [_make_request] on a response without error status whose body is
    empty or whitespace only: [APIError("Empty response from SearXNG")],
    before any attempt to decode. *)
Theorem make_request_empty_body (params : kwargs) (w : world)
  (r : response) :
  transport (List.length (sent w))
    (mkRequest (base_url config ++ "/search") params (timeout config))
  = Responds r ->
  (400 <=? status_code r) && (status_code r <? 600) = false ->
  Spec.all_whitespace (text r) ->
  _make_request transport json_loads config params w
  = (inl (Exn APIError "Empty response from SearXNG"),
     mkWorld
       (log w
        ++ [(INFO, "Making search request with query: "
                   ++ param_str (dict_get params "q" (PStr "N/A")))])
       (sent w ++ [mkRequest (base_url config ++ "/search") params
                             (timeout config)])
       (clock_reads w)).
Proof.
  intros Ht Hst Hws.
  unfold _make_request, Eff.bind, logger, session_get.
  cbn [sent log clock_reads]. rewrite Ht.
  unfold handle, _make_request_read, raise_for_status, Eff.bind.
  rewrite Hst. cbn [Eff.ret].
  rewrite (strip_all_whitespace (text r) Hws). reflexivity.
Qed.

(** X8: [_make_request] on a response without error status whose body the
    JSON decoder rejects: the decoder's message is logged and
    [APIError("Invalid JSON response from SearXNG: <message>")] raised. *)
Theorem make_request_invalid_json (params : kwargs) (w : world)
  (r : response) (detail : string) :
  transport (List.length (sent w))
    (mkRequest (base_url config ++ "/search") params (timeout config))
  = Responds r ->
  (400 <=? status_code r) && (status_code r <? 600) = false ->
  PyStr.truthy (PyStr.strip (text r)) = true ->
  json_loads (text r) = inl detail ->
  _make_request transport json_loads config params w
  = (inl (Exn APIError ("Invalid JSON response from SearXNG: " ++ detail)),
     mkWorld
       (log w
        ++ [(INFO, "Making search request with query: "
                   ++ param_str (dict_get params "q" (PStr "N/A")));
            (ERROR, "Failed to parse JSON response: " ++ detail)])
       (sent w ++ [mkRequest (base_url config ++ "/search") params
                             (timeout config)])
       (clock_reads w)).
Proof.
  intros Ht Hst Hbody Hj.
  unfold _make_request, Eff.bind, logger, session_get.
  cbn [sent log clock_reads]. rewrite Ht.
  unfold handle, _make_request_read, raise_for_status, Eff.bind.
  rewrite Hst. cbn [Eff.ret]. rewrite Hbody, Hj. cbn [negb].
  unfold Eff.bind, logger. cbn [sent log clock_reads Eff.raise].
  unfold _make_request_handlers.
  rewrite <- app_assoc. reflexivity.
Qed.

(** A response without error status, with a body that is not blank and
    that the decoder accepts, is returned decoded. *)
Lemma make_request_accepts (params : kwargs) (w : world) (r : response)
  (data : json) :
  transport (List.length (sent w))
    (mkRequest (base_url config ++ "/search") params (timeout config))
  = Responds r ->
  (400 <=? status_code r) && (status_code r <? 600) = false ->
  PyStr.truthy (PyStr.strip (text r)) = true ->
  json_loads (text r) = inr data ->
  _make_request transport json_loads config params w
  = (inr data,
     mkWorld
       (log w ++ [(INFO, "Making search request with query: "
                         ++ param_str (dict_get params "q" (PStr "N/A")))])
       (sent w ++ [mkRequest (base_url config ++ "/search") params
                             (timeout config)])
       (clock_reads w)).
Proof.
  intros Ht Hst Hbody Hj.
  unfold _make_request, Eff.bind, logger, session_get.
  cbn [sent log clock_reads]. rewrite Ht.
  unfold handle, _make_request_read, raise_for_status, Eff.bind.
  rewrite Hst. cbn [Eff.ret]. now rewrite Hbody, Hj.
Qed.

(** Conversely, data is returned in that case only. *)
Lemma make_request_returns (params : kwargs) (w w' : world) (data : json) :
  _make_request transport json_loads config params w = (inr data, w') ->
  exists r,
    transport (List.length (sent w))
      (mkRequest (base_url config ++ "/search") params (timeout config))
    = Responds r
    /\ (400 <=? status_code r) && (status_code r <? 600) = false
    /\ PyStr.truthy (PyStr.strip (text r)) = true
    /\ json_loads (text r) = inr data
    /\ w' = mkWorld
              (log w
               ++ [(INFO, "Making search request with query: "
                          ++ param_str (dict_get params "q" (PStr "N/A")))])
              (sent w ++ [mkRequest (base_url config ++ "/search")
                            params (timeout config)])
              (clock_reads w).
Proof.
  unfold _make_request, Eff.bind, logger, session_get.
  cbn [sent log clock_reads].
  destruct (transport _ _) as [e|r] eqn:Ht.
  - intros H.
    match type of H with
    | _make_request_handlers config None e ?w0 = _ =>
        destruct (make_request_handlers_raise config None e w0)
          as [e' [w1 [Hrun _]]]
    end.
    rewrite Hrun in H. discriminate.
  - unfold handle, _make_request_read, raise_for_status, Eff.bind.
    destruct ((400 <=? status_code r) && (status_code r <? 600)) eqn:Hst.
    + cbn [Eff.raise]. intros H.
      match type of H with
      | _make_request_handlers config ?o ?e0 ?w0 = _ =>
          destruct (make_request_handlers_raise config o e0 w0)
            as [e' [w1 [Hrun _]]]
      end.
      rewrite Hrun in H. discriminate.
    + cbn [Eff.ret].
      destruct (PyStr.truthy (PyStr.strip (text r))) eqn:Hbody;
        cbn [negb Eff.raise].
      * destruct (json_loads (text r)) as [detail|d] eqn:Hj.
        -- unfold Eff.bind, logger. cbn [Eff.raise]. intros H.
           match type of H with
           | _make_request_handlers config ?o ?e0 ?w0 = _ =>
               destruct (make_request_handlers_raise config o e0 w0)
                 as [e' [w1 [Hrun _]]]
           end.
           rewrite Hrun in H. discriminate.
        -- cbn [Eff.ret]. intros H. injection H as Hd Hw. subst d w'.
           exists r. repeat split; auto.
      * intros H.
        match type of H with
        | _make_request_handlers config ?o ?e0 ?w0 = _ =>
            destruct (make_request_handlers_raise config o e0 w0)
              as [e' [w1 [Hrun _]]]
        end.
        rewrite Hrun in H. discriminate.
Qed.

(** X9: [_make_request] returns decoded data exactly when the transport
    answers without error status, with a body that is not blank and that
    the decoder accepts; then only the INFO line has been logged. *)
Theorem make_request_returns_iff (params : kwargs) (w w' : world)
  (data : json) :
  _make_request transport json_loads config params w = (inr data, w')
  <-> exists r,
        transport (List.length (sent w))
          (mkRequest (base_url config ++ "/search") params (timeout config))
        = Responds r
        /\ (400 <=? status_code r) && (status_code r <? 600) = false
        /\ PyStr.truthy (PyStr.strip (text r)) = true
        /\ json_loads (text r) = inr data
        /\ w' = mkWorld
                  (log w
                   ++ [(INFO, "Making search request with query: "
                              ++ param_str (dict_get params "q"
                                                     (PStr "N/A")))])
                  (sent w ++ [mkRequest (base_url config ++ "/search")
                                params (timeout config)])
                  (clock_reads w).
Proof.
  split.
  - apply make_request_returns.
  - intros [r [Ht [Hst [Hbody [Hj Hw]]]]]. subst w'.
    now apply (make_request_accepts params w r data).
Qed.

End RequestOutcomes.

(** ** Parsing never touches the network *)

Section Parsing.

Import Config Client.

Variable config : SearchConfig.

Lemma world_eta (w : world) :
  mkWorld (log w ++ []) (sent w) (clock_reads w) = w.
Proof. destruct w. cbn. now rewrite app_nil_r. Qed.

(** The body of one iteration only logs, and what it raises is an
    ordinary exception. *)
Lemma parse_item_body_spec (item : json) (w : world) :
  exists res msgs,
    parse_item_body item w
    = (res, mkWorld (log w ++ msgs) (sent w) (clock_reads w))
    /\ (forall e, res = inl e -> isinstance e Exception = true).
Proof.
  unfold parse_item_body, Eff.bind, Eff.lift.
  destruct item as [| b | n | q | s | l | m];
    try (eexists; exists []; rewrite world_eta; split;
         [reflexivity | intros e He; injection He as <-; reflexivity]).
  cbn [Py.get].
  destruct (Py.truthy (Py.dict_get m "url" (JStr ""))).
  - destruct (Py.dict_get m "url" (JStr "")) as [| b | n | q | s | l | m'];
      cbn [startswith_scheme];
      try (eexists; exists []; rewrite world_eta; split;
           [reflexivity | intros e He; injection He as <-; reflexivity]).
    cbn [Eff.ret]. destruct (has_http_scheme s); cbn [negb].
    + eexists; exists []. rewrite world_eta. split;
        [reflexivity | discriminate].
    + unfold logger. cbn [Eff.ret log sent clock_reads].
      eexists; eexists. split; [reflexivity | discriminate].
  - cbn [Eff.ret]. eexists; exists []. rewrite world_eta. split;
      [reflexivity | discriminate].
Qed.

(** One iteration never raises: it yields a result or skips the item. *)
Lemma parse_item_spec (item : json) (w : world) :
  exists r msgs,
    parse_item item w
    = (inr r, mkWorld (log w ++ msgs) (sent w) (clock_reads w)).
Proof.
  unfold parse_item, Eff.try_except.
  destruct (parse_item_body_spec item w) as [res [msgs [Hrun Hexn]]].
  rewrite Hrun. destruct res as [e|r].
  - rewrite (Hexn e eq_refl). unfold Eff.bind, logger.
    cbn [log sent clock_reads Eff.ret].
    exists None. eexists. rewrite <- app_assoc. reflexivity.
  - exists r, msgs. reflexivity.
Qed.

(** The loop returns, keeps what it had and adds at most one result per
    item. *)
Lemma parse_items_spec (items : list json) :
  forall (acc : list Models.SearchResult) (w : world),
  exists out msgs,
    parse_items items acc w
    = (inr (acc ++ out)%list,
       mkWorld (log w ++ msgs) (sent w) (clock_reads w))
    /\ (List.length out <= List.length items)%nat.
Proof.
  induction items as [|item items IH]; intros acc w; cbn [parse_items].
  - exists [], []. rewrite world_eta, app_nil_r.
    split; [reflexivity | cbn [List.length]; lia].
  - unfold Eff.bind.
    destruct (parse_item_spec item w) as [r [msgs Hrun]]. rewrite Hrun.
    destruct r as [result|].
    + destruct (IH (acc ++ [result])%list
                  (mkWorld (log w ++ msgs) (sent w) (clock_reads w)))
        as [out [msgs' [Hrest Hlen]]].
      rewrite Hrest. cbn [log sent clock_reads].
      exists (result :: out), (msgs ++ msgs')%list.
      rewrite <- !app_assoc. split; [reflexivity | cbn; lia].
    + destruct (IH acc (mkWorld (log w ++ msgs) (sent w) (clock_reads w)))
        as [out [msgs' [Hrest Hlen]]].
      rewrite Hrest. cbn [log sent clock_reads].
      exists out, (msgs ++ msgs')%list.
      rewrite <- !app_assoc. split; [reflexivity | cbn; lia].
Qed.

Lemma slice_to_length {A : Type} (k : Z) (xs : list A) :
  0 <= k -> (List.length (Py.slice_to k xs) <= Z.to_nat k)%nat.
Proof.
  intros Hk. unfold Py.slice_to.
  apply Z.leb_le in Hk. rewrite Hk. rewrite length_firstn. lia.
Qed.

Lemma set_add_all_raises (vs s : list json) (e : exn) :
  Py.set_add_all s vs = inl e -> isinstance e Exception = true.
Proof.
  revert s. induction vs as [|v vs IH]; intros s; cbn [Py.set_add_all];
    [discriminate |].
  unfold Py.set_add at 1. destruct (Py.hashable v).
  - apply IH.
  - intros H. injection H as <-. reflexivity.
Qed.

Lemma collect_engines_raises (results : list Models.SearchResult)
  (seen : list json) (e : exn) :
  collect_engines results seen = inl e -> isinstance e Exception = true.
Proof.
  revert seen. induction results as [|r results IH]; intros seen;
    cbn [collect_engines]; [discriminate |].
  destruct (Py.iter (Models.engines r)) as [e0|es] eqn:Hiter.
  - intros H. injection H as <-.
    unfold Py.iter in Hiter.
    destruct (Models.engines r); try discriminate;
      injection Hiter as <-; reflexivity.
  - destruct (Py.set_add_all seen es) as [e0|seen'] eqn:Hadd.
    + intros H. injection H as <-. exact (set_add_all_raises _ _ _ Hadd).
    + apply IH.
Qed.

(** [_parse_results] only logs; what it raises is an ordinary exception;
    the response it returns carries the query and the search time it was
    given, and no more results than [max_results]. *)
Lemma parse_results_spec (data : json) (query : string) (search_time : Q)
  (w : world) :
  exists res msgs,
    _parse_results config data query search_time w
    = (res, mkWorld (log w ++ msgs) (sent w) (clock_reads w))
    /\ (forall e, res = inl e -> isinstance e Exception = true)
    /\ (forall resp, res = inr resp ->
          Models.query resp = query
          /\ Models.search_time resp = search_time
          /\ (0 <= max_results config ->
              (List.length (Models.results resp)
               <= Z.to_nat (max_results config))%nat)).
Proof.
  unfold _parse_results, Eff.bind, Eff.lift.
  destruct (Py.get data "results" (JArr [])) as [e|raw] eqn:Hraw.
  { exists (inl e), []. rewrite world_eta. split; [reflexivity |].
    split; [| discriminate].
    intros e' He'. injection He' as <-.
    destruct data; try (injection Hraw as <-; reflexivity).
    discriminate. }
  destruct (Py.slice_items raw (max_results config)) as [e|items] eqn:Hitems.
  { exists (inl e), []. rewrite world_eta. split; [reflexivity |].
    split; [| discriminate].
    intros e' He'. injection He' as <-.
    destruct raw; try (injection Hitems as <-; reflexivity);
      discriminate. }
  destruct (parse_items_spec items [] w) as [out [msgs [Hrun Hlen]]].
  rewrite Hrun. cbn [app].
  destruct (collect_engines out []) as [e|engines_used] eqn:Heng.
  { exists (inl e), msgs. split; [reflexivity |].
    split; [| discriminate].
    intros e' He'. injection He' as <-.
    exact (collect_engines_raises _ _ _ Heng). }
  destruct (Py.get data "suggestions" (JArr [])) as [e|suggestions]
    eqn:Hsug.
  { destruct data; try discriminate. }
  cbn [Eff.ret]. eexists; exists msgs. split; [reflexivity |].
  split; [discriminate |].
  intros resp Hresp. injection Hresp as <-.
  cbn [Models.query Models.search_time Models.results].
  repeat split. intros Hmax.
  assert (List.length items <= Z.to_nat (max_results config))%nat.
  { destruct raw; try discriminate; injection Hitems as <-;
      now apply slice_to_length. }
  lia.
Qed.

End Parsing.

(** ** [search] *)

Section Searching.

Import Config Client.

Variable transport : nat -> request -> outcome.
Variable json_loads : string -> string + json.
Variable clock : nat -> Q.
Variable config : SearchConfig.

(** [search] on a query that is not blank, one level unfolded. *)
Lemma search_unfold (query : string) (kw : kwargs) (w : world) :
  blank query = false ->
  search transport json_loads clock config query kw w
  = match _make_request transport json_loads config
            (_build_search_params config (PyStr.strip query) kw)
            (mkWorld (log w) (sent w) (S (clock_reads w))) with
    | (inl e, w2) =>
        if isinstance e Exception
        then (inl e,
              mkWorld (log w2 ++ [(ERROR, "Search failed for query '"
                                          ++ query ++ "': " ++ exn_msg e)])
                      (sent w2) (clock_reads w2))
        else (inl e, w2)
    | (inr data, w2) =>
        match _parse_results config data query
                (clock (clock_reads w2) - clock (clock_reads w))%Q
                (mkWorld (log w2) (sent w2) (S (clock_reads w2))) with
        | (inl e, w3) =>
            if isinstance e Exception
            then (inl e,
                  mkWorld (log w3 ++ [(ERROR, "Search failed for query '"
                                              ++ query ++ "': "
                                              ++ exn_msg e)])
                          (sent w3) (clock_reads w3))
            else (inl e, w3)
        | (inr resp, w3) => (inr resp, w3)
        end
    end.
Proof.
  intros Hb. unfold search. rewrite Hb.
  unfold Eff.bind at 1. unfold now at 1. unfold Eff.try_except.
  unfold Eff.bind at 1.
  destruct (_make_request _ _ _ _ _) as [[e|data] w2].
  - destruct (isinstance e Exception); reflexivity.
  - unfold Eff.bind at 1. unfold now at 1.
    destruct (_parse_results _ _ _ _ _) as [[e|resp] w3];
      [destruct (isinstance e Exception) |]; reflexivity.
Qed.

(** A search for a query that is not blank records exactly one
    request. *)
Lemma search_run_sent (query : string) (kw : kwargs) (w : world) :
  blank query = false ->
  exists res w',
    search transport json_loads clock config query kw w = (res, w')
    /\ sent w'
       = (sent w
          ++ [mkRequest (base_url config ++ "/search")
                (_build_search_params config (PyStr.strip query) kw)
                (timeout config)])%list.
Proof.
  intros Hb. rewrite (search_unfold query kw w Hb).
  destruct (make_request_frame transport json_loads config
              (_build_search_params config (PyStr.strip query) kw)
              (mkWorld (log w) (sent w) (S (clock_reads w))))
    as [res [w2 [Hrun [Hsent _]]]].
  rewrite Hrun. cbn [sent] in Hsent.
  destruct res as [e|data].
  - destruct (isinstance e Exception); do 2 eexists;
      (split; [reflexivity | exact Hsent]).
  - destruct (parse_results_spec config data query
                (clock (clock_reads w2) - clock (clock_reads w))%Q
                (mkWorld (log w2) (sent w2) (S (clock_reads w2))))
      as [res [msgs [Hparse _]]].
    rewrite Hparse. cbn [log sent clock_reads].
    destruct res as [e|resp]; [destruct (isinstance e Exception) |];
      do 2 eexists; (split; [reflexivity | exact Hsent]).
Qed.

(** X10: A search for a query that is not blank sends exactly one request,
    whether it succeeds or fails: the GET of [<base_url>/search] whose
    parameters are built from the stripped query and [kwargs]. *)
Theorem search_sends_once (query : string) (kw : kwargs) (w : world) :
  blank query = false ->
  sent (snd (search transport json_loads clock config query kw w))
  = (sent w
     ++ [mkRequest (base_url config ++ "/search")
                   (_build_search_params config (PyStr.strip query) kw)
                   (timeout config)])%list.
Proof.
  intros Hb.
  destruct (search_run_sent query kw w Hb) as [res [w' [Hrun Hsent]]].
  rewrite Hrun. exact Hsent.
Qed.

(** X11: When a search for a query that is not blank raises an ordinary
    exception, the last line logged is the ERROR line
    [Search failed for query '<query>': <message>] for that exception,
    which is re-raised as it is. *)
Theorem search_failure_logged (query : string) (kw : kwargs) (w w' : world)
  (e : exn) :
  blank query = false ->
  isinstance e Exception = true ->
  search transport json_loads clock config query kw w = (inl e, w') ->
  exists earlier,
    log w' = (earlier ++ [(ERROR, ("Search failed for query '" ++ query
                                   ++ "': " ++ exn_msg e)%string)])%list.
Proof.
  intros Hb He. rewrite (search_unfold query kw w Hb).
  destruct (_make_request _ _ _ _ _) as [[e0|data] w2].
  - destruct (isinstance e0 Exception) eqn:He0; intros H;
      injection H as -> <-; [| congruence].
    eexists. reflexivity.
  - destruct (_parse_results _ _ _ _ _) as [[e0|resp] w3];
      [| discriminate].
    destruct (isinstance e0 Exception) eqn:He0; intros H;
      injection H as -> <-; [| congruence].
    eexists. reflexivity.
Qed.

(** A search that returns has parsed the data of its request, with the
    difference of the two clock readings as search time. *)
Lemma search_returns_inv (query : string) (kw : kwargs) (w w' : world)
  (resp : Models.SearchResponse) :
  search transport json_loads clock config query kw w = (inr resp, w') ->
  blank query = false
  /\ exists data w0,
       _parse_results config data query
         (clock (S (clock_reads w)) - clock (clock_reads w))%Q w0
       = (inr resp, w')
       /\ clock_reads w0 = S (S (clock_reads w)).
Proof.
  destruct (blank query) eqn:Hb.
  { unfold search. rewrite Hb. discriminate. }
  rewrite (search_unfold query kw w Hb).
  destruct (make_request_frame transport json_loads config
              (_build_search_params config (PyStr.strip query) kw)
              (mkWorld (log w) (sent w) (S (clock_reads w))))
    as [res [w2 [Hrun [_ Hclock]]]].
  rewrite Hrun. cbn [clock_reads] in Hclock.
  destruct res as [e|data];
    [destruct (isinstance e Exception); discriminate |].
  rewrite Hclock.
  destruct (_parse_results _ _ _ _ _) as [[e|resp0] w3] eqn:Hparse;
    [destruct (isinstance e Exception); discriminate |].
  intros H. injection H as -> <-.
  split; [reflexivity |]. do 2 eexists. split; [exact Hparse |].
  reflexivity.
Qed.

(** A successful search holds no more results than [max_results]. *)
Lemma search_results_bound (query : string) (kw : kwargs) (w w' : world)
  (resp : Models.SearchResponse) :
  search transport json_loads clock config query kw w = (inr resp, w') ->
  0 <= max_results config ->
  (List.length (Models.results resp) <= Z.to_nat (max_results config))%nat.
Proof.
  intros Hs Hmax.
  destruct (search_returns_inv query kw w w' resp Hs)
    as [_ [data [w0 [Hparse _]]]].
  destruct (parse_results_spec config data query
              (clock (S (clock_reads w)) - clock (clock_reads w))%Q w0)
    as [res [msgs [Hrun [_ Hresp]]]].
  rewrite Hparse in Hrun. injection Hrun as <- _.
  now apply (Hresp resp eq_refl).
Qed.


End Searching.

(** ** [search_news] and bodies that are not objects *)

Section News.

Import Config Client.

Variable transport : nat -> request -> outcome.
Variable json_loads : string -> string + json.
Variable clock : nat -> Q.
Variable config : SearchConfig.

(** [search_news] is [search] with the news parameters in front of the
    caller's keyword arguments. *)
Lemma search_news_unfold (query : string) (kw : kwargs) :
  search_news transport json_loads clock config query kw
  = search transport json_loads clock config query
      (dict_update
         [("categories", PStr "news");
          ("time_range", dict_get kw "time_range" (PStr "year"))]
         (snd (dict_pop kw "time_range" (PStr "year")))).
Proof. reflexivity. Qed.

(** What the request of [search_news] holds for each key. *)
Lemma news_request_params (query : string) (kw : kwargs) (dflt : param) :
  NoDup (map fst kw) ->
  let params :=
    _build_search_params config query
      (dict_update
         [("categories", PStr "news");
          ("time_range", dict_get kw "time_range" (PStr "year"))]
         (snd (dict_pop kw "time_range" (PStr "year")))) in
  dict_get params "categories" dflt = dict_get kw "categories" (PStr "news")
  /\ dict_get params "time_range" dflt
     = dict_get kw "time_range" (PStr "year")
  /\ (forall k, k <> "categories" -> k <> "time_range" ->
        dict_get params k dflt
        = dict_get kw k
            (dict_get (_build_search_params config query []) k dflt)).
Proof.
  intros Hnd. cbv zeta.
  set (kw' := snd (dict_pop kw "time_range" (PStr "year"))).
  set (tr := dict_get kw "time_range" (PStr "year")).
  assert (Hnd' : NoDup (map fst kw'))
    by now apply dict_pop_keys_nodup.
  assert (Hnews : NoDup (map fst (dict_update
            [("categories", PStr "news"); ("time_range", tr)] kw'))).
  { apply dict_update_nodup. cbn [map fst].
    constructor; [intros [H|[]]; discriminate |].
    constructor; [intros [] | constructor]. }
  unfold _build_search_params. rewrite dict_update_nil.
  rewrite !(dict_get_update _ _ _ _ Hnews).
  rewrite !(dict_get_update _ _ _ _ Hnd').
  split; [| split].
  - cbn [dict_get String.eqb Ascii.eqb Bool.eqb].
    now apply dict_get_pop_other.
  - cbn [dict_get String.eqb Ascii.eqb Bool.eqb].
    unfold kw'. now rewrite dict_get_pop_same.
  - intros k Hc Ht.
    rewrite (dict_get_update _ _ _ _ Hnews).
    rewrite (dict_get_update _ _ _ _ Hnd').
    cbn [dict_get].
    apply not_eq_sym in Hc. apply not_eq_sym in Ht.
    apply String.eqb_neq in Hc. apply String.eqb_neq in Ht.
    rewrite Hc, Ht.
    apply dict_get_pop_other. intros <-.
    now rewrite String.eqb_refl in Ht.
Qed.

(** X13: [search_news] sends one request whose [categories] is [news] and whose
    [time_range] is [year], unless the caller's keyword arguments name
    them; either way they replace the categories and time range of the
    configuration.  Every other parameter is as in [search]. *)
Theorem search_news_request (query : string) (kw : kwargs) (w : world)
  (dflt : param) :
  blank query = false ->
  NoDup (map fst kw) ->
  exists req,
    sent (snd (search_news transport json_loads clock config query kw w))
    = (sent w ++ [req])%list
    /\ req_url req = base_url config ++ "/search"
    /\ dict_get (req_params req) "categories" dflt
       = dict_get kw "categories" (PStr "news")
    /\ dict_get (req_params req) "time_range" dflt
       = dict_get kw "time_range" (PStr "year")
    /\ (forall k, k <> "categories" -> k <> "time_range" ->
          dict_get (req_params req) k dflt
          = dict_get kw k
              (dict_get (_build_search_params config (PyStr.strip query) [])
                        k dflt)).
Proof.
  intros Hb Hnd. rewrite search_news_unfold.
  match goal with
  | |- context [search transport json_loads clock config query ?k w] =>
      destruct (search_run_sent transport json_loads clock config query k w
                  Hb) as [res [w' [Hrun Hsent]]]
  end.
  rewrite Hrun. eexists. split; [exact Hsent |].
  cbn [req_url req_params]. split; [reflexivity |].
  exact (news_request_params (PyStr.strip query) kw dflt Hnd).
Qed.

(** X14: When the body decodes to a JSON value that is not an object (a list,
    say), [search] does not raise one of the client's own errors: the
    [AttributeError] of [data.get] leaves the function. *)
Theorem search_non_object_body (query : string) (kw : kwargs) (w : world)
  (r : response) (data : json) :
  blank query = false ->
  transport (List.length (sent w))
    (mkRequest (base_url config ++ "/search")
               (_build_search_params config (PyStr.strip query) kw)
               (timeout config))
  = Responds r ->
  (400 <=? status_code r) && (status_code r <? 600) = false ->
  PyStr.truthy (PyStr.strip (text r)) = true ->
  json_loads (text r) = inr data ->
  (forall fields, data <> JObj fields) ->
  fst (search transport json_loads clock config query kw w)
  = inl (Exn AttributeError
             ("'" ++ Py.type_name data
              ++ "' object has no attribute 'get'")).
Proof.
  intros Hb Ht Hst Hbody Hj Hobj.
  rewrite (search_unfold _ _ _ _ query kw w Hb).
  rewrite (make_request_accepts transport json_loads config
             (_build_search_params config (PyStr.strip query) kw)
             (mkWorld (log w) (sent w) (S (clock_reads w))) r data
             Ht Hst Hbody Hj).
  unfold _parse_results, Eff.bind, Eff.lift.
  destruct data; try reflexivity.
  now contradiction (Hobj fields).
Qed.

End News.

(** ** The search client on concrete transports *)

Section ClientExamples.

Import Config Client ClientScenario.

Lemma build_search_params_overrides_witness :
  dict_get (_build_search_params default "rust" [("language", PStr "de")])
           "language" (PStr "none")
  = PStr "de".
Proof.
  rewrite (build_search_params_overrides default "rust"
             [("language", PStr "de")] "language" (PStr "none")).
  - reflexivity.
  - constructor; [intros [] | constructor].
Defined.

Lemma make_request_http_error_witness :
  fst (_make_request (answers too_many_requests) decode default
         [("q", PStr "rust")] empty_world)
  = inl (Exn APIError "Rate limit exceeded - try again later").
Proof.
  rewrite (make_request_http_error (answers too_many_requests) decode
             default [("q", PStr "rust")] empty_world too_many_requests).
  - reflexivity.
  - reflexivity.
  - cbn. lia.
Defined.

Lemma make_request_connection_error_witness :
  fst (_make_request
         (fails (Exn ConnectionError "Connection refused")) decode default
         [("q", PStr "rust")] empty_world)
  = inl (Exn NetworkError "Cannot connect to SearXNG at http://localhost:8888").
Proof.
  rewrite (make_request_connection_error
             (fails (Exn ConnectionError "Connection refused")) decode
             default [("q", PStr "rust")] empty_world
             (Exn ConnectionError "Connection refused"));
    reflexivity.
Defined.

Lemma make_request_other_exception_witness :
  fst (_make_request
         (fails (Exn (OtherException "TooManyRedirects")
                     "Exceeded 30 redirects.")) decode default
         [("q", PStr "rust")] empty_world)
  = inl (Exn (OtherException "TooManyRedirects") "Exceeded 30 redirects.").
Proof.
  rewrite (make_request_other_exception
             (fails (Exn (OtherException "TooManyRedirects")
                         "Exceeded 30 redirects.")) decode
             default [("q", PStr "rust")] empty_world
             (Exn (OtherException "TooManyRedirects")
                  "Exceeded 30 redirects."));
    reflexivity.
Defined.

Lemma make_request_empty_body_witness :
  fst (_make_request (answers blank_page) decode default
         [("q", PStr "rust")] empty_world)
  = inl (Exn APIError "Empty response from SearXNG").
Proof.
  rewrite (make_request_empty_body (answers blank_page) decode default
             [("q", PStr "rust")] empty_world blank_page).
  - reflexivity.
  - reflexivity.
  - reflexivity.
  - repeat constructor.
Defined.

Lemma make_request_invalid_json_witness :
  fst (_make_request (answers html_page) decode default
         [("q", PStr "rust")] empty_world)
  = inl (Exn APIError
             "Invalid JSON response from SearXNG: Expecting value: line 1 column 1 (char 0)").
Proof.
  rewrite (make_request_invalid_json (answers html_page) decode default
             [("q", PStr "rust")] empty_world html_page
             "Expecting value: line 1 column 1 (char 0)");
    reflexivity.
Defined.

Lemma search_sends_once_witness :
  sent (snd (search (answers two_results_page) decode ticks default
               "  rust lang " [] empty_world))
  = [mkRequest "http://localhost:8888/search"
       [("q", PStr "rust lang"); ("format", PStr "json");
        ("language", PStr "en"); ("safesearch", PInt 0);
        ("categories", PStr "general")]
       30].
Proof.
  rewrite (search_sends_once (answers two_results_page) decode ticks
             default "  rust lang " [] empty_world);
    reflexivity.
Defined.

Lemma search_failure_logged_witness :
  exists earlier,
    log (snd (search (answers too_many_requests) decode ticks default
                "rust" [] empty_world))
    = (earlier
       ++ [(ERROR, "Search failed for query 'rust': Rate limit exceeded - try again later")])%list.
Proof.
  apply (search_failure_logged (answers too_many_requests) decode ticks
           default "rust" [] empty_world
           (snd (search (answers too_many_requests) decode ticks default
                   "rust" [] empty_world))
           (Exn APIError "Rate limit exceeded - try again later"));
    reflexivity.
Defined.


Lemma search_news_request_witness :
  exists req,
    sent (snd (search_news (answers two_results_page) decode ticks default
                 "rust" [("language", PStr "de")] empty_world))
    = [req]
    /\ dict_get (req_params req) "categories" (PStr "none") = PStr "news"
    /\ dict_get (req_params req) "time_range" (PStr "none") = PStr "year"
    /\ dict_get (req_params req) "language" (PStr "none") = PStr "de".
Proof.
  destruct (search_news_request (answers two_results_page) decode ticks
              default "rust" [("language", PStr "de")] empty_world
              (PStr "none"))
    as [req [Hsent [_ [Hc [Ht Hk]]]]].
  - reflexivity.
  - constructor; [intros [] | constructor].
  - exists req. split; [exact Hsent |]. split; [exact Hc |].
    split; [exact Ht |]. rewrite Hk; [reflexivity | |]; discriminate.
Defined.

Lemma search_non_object_body_witness :
  fst (search (answers list_page) decode ticks default "rust" []
         empty_world)
  = inl (Exn AttributeError "'list' object has no attribute 'get'").
Proof.
  apply (search_non_object_body (answers list_page) decode ticks default
           "rust" [] empty_world list_page (JArr []));
    try reflexivity.
  discriminate.
Defined.

End ClientExamples.

(** ** Query suggestions *)

Section Suggestions.

Import OpenAIService.

Variable backend : nat -> chat_request -> exn + completion.
Variable json_loads : string -> string + json.
Variable str_of : json -> string.

Lemma length_append (a b : string) :
  String.length (a ++ b) = (String.length a + String.length b)%nat.
Proof.
  induction a as [|c a IH]; cbn [append String.length];
    [reflexivity | now rewrite IH].
Qed.

Ltac length_clash H :=
  apply (f_equal (fun v => match v with
                           | JStr s => String.length s
                           | _ => 0%nat
                           end)) in H;
  cbv beta iota in H; unfold double_quote in H;
  rewrite ?length_append in H; cbn in H; lia.

Ltac absent_by_length :=
  let H := fresh "H" in
  cbn [In]; intros H;
  repeat (destruct H as [H|H]; [length_clash H |]); contradiction H.

(** The five suggestions for a string, listed. *)
Lemma generate_query_suggestions_listed (query : string) :
  _generate_query_suggestions str_of (JStr query)
  = inr (if PyStr.str_in " " query
            && negb (PyStr.str_in double_quote query)
         then [JStr query; JStr (double_quote ++ query ++ double_quote);
               JStr (query ++ " tutorial"); JStr (query ++ " guide");
               JStr (query ++ " 2025")]
         else [JStr query; JStr (query ++ " tutorial");
               JStr (query ++ " guide"); JStr (query ++ " 2025");
               JStr ("how to " ++ query)]).
Proof.
  unfold _generate_query_suggestions. cbn [contains format_value].
  destruct (PyStr.str_in " " query);
    [destruct (PyStr.str_in double_quote query) |]; reflexivity.
Qed.

(** X15: [_generate_query_suggestions] on a string: always exactly five
    suggestions, the query itself first; the exact-phrase form (the query
    in double quotes) is among them exactly when the query has a space and
    no double quote, and then the [how to] form is cut off; the
    [best practices] form is always cut off. *)
Theorem generate_query_suggestions_string (query : string) :
  exists suggestions,
    _generate_query_suggestions str_of (JStr query) = inr suggestions
    /\ List.length suggestions = 5%nat
    /\ hd_error suggestions = Some (JStr query)
    /\ (In (JStr (double_quote ++ query ++ double_quote)) suggestions
        <-> PyStr.str_in " " query
            && negb (PyStr.str_in double_quote query) = true)
    /\ (In (JStr ("how to " ++ query)) suggestions
        <-> PyStr.str_in " " query
            && negb (PyStr.str_in double_quote query) = false)
    /\ ~ In (JStr (query ++ " best practices")) suggestions.
Proof.
  rewrite generate_query_suggestions_listed.
  destruct (PyStr.str_in " " query
            && negb (PyStr.str_in double_quote query));
    eexists; (split; [reflexivity |]);
    (split; [reflexivity |]); (split; [reflexivity |]).
  - split; [split; [reflexivity | intros _; cbn [In]; auto] |].
    split; [split; [absent_by_length | discriminate] |].
    absent_by_length.
  - split; [split; [absent_by_length | discriminate] |].
    split; [split; [reflexivity | intros _; cbn [In]; auto 10] |].
    absent_by_length.
Qed.

(** On any value, [_generate_query_suggestions] returns five suggestions
    or raises the [TypeError] of the membership test. *)
Lemma generate_query_suggestions_any (v : json) :
  (exists l, _generate_query_suggestions str_of v = inr l
             /\ List.length l = 5%nat)
  \/ (exists e, _generate_query_suggestions str_of v = inl e
                /\ isinstance e Exception = true).
Proof.
  unfold _generate_query_suggestions.
  destruct v as [| b | n | q | s | l | m]; cbn [contains];
    try (right; eexists; split; reflexivity).
  all: match goal with
       | |- context [if ?c then _ else inr false] => destruct c
       end;
    try match goal with
        | |- context [negb ?c] => destruct c
        end;
    left; eexists; split; reflexivity.
Qed.

(** The loop over the tool calls leaves the world alone; it raises
    ordinary exceptions only and returns nothing or five suggestions. *)
Lemma suggestion_tool_calls_spec (query : string) (tcs : list tool_call) :
  forall (suggestions : list json) (w : world),
    suggestions = [] \/ List.length suggestions = 5%nat ->
    exists res,
      suggestion_tool_calls json_loads str_of query tcs suggestions w
      = (res, w)
      /\ (forall e, res = inl e -> isinstance e Exception = true)
      /\ (forall l, res = inr l -> l = [] \/ List.length l = 5%nat).
Proof.
  induction tcs as [|tc tcs IH]; intros suggestions w Hs;
    cbn [suggestion_tool_calls].
  - exists (inr suggestions). split; [reflexivity |].
    split; [discriminate |]. intros l Hl. now injection Hl as <-.
  - destruct (String.eqb (function_name tc) "suggest_query_improvements");
      [| now apply IH].
    unfold Eff.bind, loads, Eff.lift.
    destruct (json_loads (function_arguments tc)) as [detail|args].
    { eexists. split; [reflexivity |]. split; [| discriminate].
      intros e He. injection He as <-. reflexivity. }
    cbn [Eff.ret].
    destruct (Py.get args "original_query" (JStr query)) as [e|original]
      eqn:Hget.
    { exists (inl e). split; [reflexivity |]. split; [| discriminate].
      intros e' He'. injection He' as <-.
      destruct args; try (injection Hget as <-; reflexivity).
      discriminate. }
    destruct (generate_query_suggestions_any original)
      as [[l [Hl Hlen]]|[e [He Hexn]]].
    + rewrite Hl. apply IH. now right.
    + rewrite He. exists (inl e). split; [reflexivity |].
      split; [| discriminate].
      intros e' He'. now injection He' as <-.
Qed.

(** X16: [suggest_query_improvements] never raises when the backend fails with
    ordinary exceptions and never returns an empty list: it returns the
    query alone or five suggestions, after exactly one model call; when
    that call fails the error is logged and the query alone returned. *)
Theorem suggest_query_improvements_total (query context : string)
  (w : world) :
  Spec.ordinary_failures backend ->
  exists suggestions w',
    suggest_query_improvements backend json_loads str_of query context w
    = (inr suggestions, w')
    /\ (suggestions = [JStr query] \/ List.length suggestions = 5%nat)
    /\ calls w' = (calls w ++ [suggest_request query context])%list
    /\ (forall e,
          backend (List.length (calls w)) (suggest_request query context)
          = inl e ->
          suggestions = [JStr query]
          /\ log w' = (log w ++ [("Error suggesting query improvements: "
                                  ++ exn_msg e)%string])%list).
Proof.
  intros Hord.
  unfold suggest_query_improvements, Eff.try_except, Eff.bind, create,
    Eff.lift.
  destruct (backend (List.length (calls w)) (suggest_request query context))
    as [e|[cs]] eqn:Hb.
  { rewrite (Hord _ _ _ Hb). unfold logger_error. cbn [log calls Eff.ret].
    do 2 eexists. split; [reflexivity |]. split; [now left |].
    split; [reflexivity |].
    intros e' He'. injection He' as <-. split; reflexivity. }
  cbn [choices].
  destruct cs as [|choice cs]; cbn [first].
  { cbn [isinstance exn_cls mro existsb class_eqb class_name String.eqb
           Ascii.eqb Bool.eqb orb].
    unfold logger_error. cbn [log calls Eff.ret].
    do 2 eexists. split; [reflexivity |]. split; [now left |].
    split; [reflexivity |]. discriminate. }
  match goal with
  | |- context [suggestion_tool_calls json_loads str_of query ?t ?s0 ?w0] =>
      destruct (suggestion_tool_calls_spec query t s0 w0 (or_introl eq_refl))
        as [res [Hrun [Hexn Hlen]]]
  end.
  rewrite Hrun. destruct res as [e|l].
  - rewrite (Hexn e eq_refl). unfold logger_error. cbn [log calls Eff.ret].
    do 2 eexists. split; [reflexivity |]. split; [now left |].
    split; [reflexivity |]. discriminate.
  - cbn [Eff.ret]. do 2 eexists. split; [reflexivity |].
    split; [| split; [reflexivity | discriminate]].
    destruct (Hlen l eq_refl) as [->|Hl]; [now left |].
    right. destruct l; [discriminate | exact Hl].
Qed.

End Suggestions.

(** ** The analysis of the first results *)

Section Analysis.

Import OpenAIService.

Variable backend : nat -> chat_request -> exn + completion.
Variable json_loads : string -> string + json.

(** The score always exists and lies between 0 and 1. *)
Lemma relevance_score_range (result : SearchResult) (query : string)
  (w : world) :
  exists score,
    _calculate_relevance_score result query w = (inr score, w)
    /\ (0 <=? score)%float = true /\ (score <=? 1)%float = true.
Proof.
  unfold _calculate_relevance_score, Eff.try_except, Eff.lift.
  destruct (PyStr.split query) as [|t ts] eqn:Hs.
  - rewrite (relevance_body_no_tokens result query Hs).
    exists 0.5%float. repeat split.
  - assert (Hne : PyStr.split query <> []) by (rewrite Hs; discriminate).
    rewrite (relevance_body_tokens result query Hne).
    eexists. split; [reflexivity |]. apply relevance_double_range.
Qed.

(** X17: [_generate_summary] never raises when the backend fails with ordinary
    exceptions and makes exactly one model call, with at most 300
    characters of the content in its prompt.  The summary is the stripped
    text of the first choice; when the call fails, or there is no choice,
    or the choice has no text, the error is logged and the summary is the
    first 100 characters of the content followed by [...]. *)
Theorem generate_summary_spec (content query : string) (w : world) :
  Spec.ordinary_failures backend ->
  let req :=
    mkChatRequest the_model
      [("user", "Summarize this content in relation to the query '"
                ++ query ++ "': " ++ PyStr.take 300 content)]
      ToolsNotOffered 0.3%Q (Some 100) in
  let stub := PyStr.take 100 content ++ "..." in
  exists summary w',
    _generate_summary backend content query w = (inr summary, w')
    /\ calls w' = (calls w ++ [req])%list
    /\ match backend (List.length (calls w)) req with
       | inl e =>
           summary = stub
           /\ log w' = (log w ++ [("Error generating summary: "
                                   ++ exn_msg e)%string])%list
       | inr (mkCompletion []) =>
           summary = stub
           /\ log w' = (log w ++ ["Error generating summary: list index out of range"])%list
       | inr (mkCompletion (mkMessage None _ :: _)) =>
           summary = stub
           /\ log w' = (log w ++ ["Error generating summary: 'NoneType' object has no attribute 'strip'"])%list
       | inr (mkCompletion (mkMessage (Some text) _ :: _)) =>
           summary = PyStr.strip text /\ log w' = log w
       end.
Proof.
  intros Hord. cbv zeta.
  unfold _generate_summary, Eff.try_except, Eff.bind, create, Eff.lift.
  cbv zeta.
  destruct (backend _ _) as [e|[cs]] eqn:Hb.
  - rewrite (Hord _ _ _ Hb). do 2 eexists. repeat split.
  - destruct cs as [|[[s|] tcs] cs]; do 2 eexists; repeat split.
Qed.

(** X18: [_extract_key_points] never raises when the backend fails with
    ordinary exceptions, makes exactly one model call and returns at most
    three points; when the call fails the error is logged and the only
    point is the first 50 characters of the content followed by [...]. *)
Theorem extract_key_points_spec (content : string) (w : world) :
  Spec.ordinary_failures backend ->
  let req :=
    mkChatRequest the_model
      [("user", "Extract 3 key points from this content: "
                ++ PyStr.take 300 content)]
      ToolsNotOffered 0.3%Q (Some 80) in
  exists points w',
    _extract_key_points backend content w = (inr points, w')
    /\ (List.length points <= 3)%nat
    /\ calls w' = (calls w ++ [req])%list
    /\ (forall e, backend (List.length (calls w)) req = inl e ->
          points = [PyStr.take 50 content ++ "..."]
          /\ log w' = (log w ++ [("Error extracting key points: "
                                  ++ exn_msg e)%string])%list).
Proof.
  intros Hord. cbv zeta.
  unfold _extract_key_points, Eff.try_except, Eff.bind, create, Eff.lift.
  cbv zeta.
  destruct (backend _ _) as [e|[cs]] eqn:Hb.
  - rewrite (Hord _ _ _ Hb). do 2 eexists.
    split; [reflexivity |]. split; [cbn; lia |]. split; [reflexivity |].
    intros e' He'. injection He' as <-. split; reflexivity.
  - destruct cs as [|[[s|] tcs] cs]; do 2 eexists;
      (split; [reflexivity |]);
      (split; [| split; [reflexivity | discriminate]]);
      try (cbn; lia).
    unfold clean_points. rewrite length_firstn. lia.
Qed.

(** One model call each, whatever happens. *)
Lemma generate_summary_run (content query : string) (w : world) :
  Spec.ordinary_failures backend ->
  exists summary w',
    _generate_summary backend content query w = (inr summary, w')
    /\ List.length (calls w') = S (List.length (calls w)).
Proof.
  intros Hord.
  unfold _generate_summary, Eff.try_except, Eff.bind, create, Eff.lift.
  cbv zeta.
  destruct (backend _ _) as [e|[cs]] eqn:Hb.
  - rewrite (Hord _ _ _ Hb). do 2 eexists.
    split; [reflexivity |]. cbn [calls logger_error Eff.ret].
    rewrite length_app. cbn. lia.
  - destruct cs as [|[[s|] tcs] cs]; do 2 eexists;
      (split; [reflexivity |]); cbn [calls];
      rewrite length_app; cbn; lia.
Qed.

Lemma extract_key_points_run (content : string) (w : world) :
  Spec.ordinary_failures backend ->
  exists points w',
    _extract_key_points backend content w = (inr points, w')
    /\ (List.length points <= 3)%nat
    /\ List.length (calls w') = S (List.length (calls w)).
Proof.
  intros Hord.
  unfold _extract_key_points, Eff.try_except, Eff.bind, create, Eff.lift.
  cbv zeta.
  destruct (backend _ _) as [e|[cs]] eqn:Hb.
  - rewrite (Hord _ _ _ Hb). do 2 eexists.
    split; [reflexivity |]. split; [cbn; lia |].
    cbn [calls]. rewrite length_app. cbn. lia.
  - destruct cs as [|[[s|] tcs] cs]; do 2 eexists;
      (split; [reflexivity |]);
      (split; [| cbn [calls]; rewrite length_app; cbn; lia]);
      try (cbn; lia).
    unfold clean_points. rewrite length_firstn. lia.
Qed.

(** The loop of the analysis, with what each enhancement holds and the
    number of model calls made. *)
Lemma analyse_each_full (query : string) (batch : list SearchResult) :
  Spec.ordinary_failures backend ->
  forall acc w,
  exists out w',
    analyse_each backend query batch acc w = (inr (acc ++ out)%list, w')
    /\ map original_result out = batch
    /\ Forall (fun r => sentiment r = "neutral"
                        /\ (List.length (key_points r) <= 3)%nat
                        /\ (0 <=? relevance_score r)%float = true
                        /\ (relevance_score r <=? 1)%float = true) out
    /\ List.length (calls w')
       = (List.length (calls w) + 2 * List.length batch)%nat.
Proof.
  intros Hord.
  induction batch as [|r batch IH]; intros acc w; cbn [analyse_each].
  - exists [], w. rewrite app_nil_r.
    repeat split; [constructor | cbn; lia].
  - unfold Eff.bind.
    destruct (generate_summary_run (content r) query w Hord)
      as [s [w1 [Hs Hc1]]]. rewrite Hs.
    destruct (extract_key_points_run (content r) w1 Hord)
      as [k [w2 [Hk [Hlen Hc2]]]]. rewrite Hk.
    destruct (relevance_score_range r query w2) as [sc [Hsc Hrange]].
    rewrite Hsc.
    destruct (IH (acc ++ [mkAIEnhancedResult r s sc k "neutral"])%list w2)
      as [out [w' [Hrun [Hmap [Hall Hcalls]]]]].
    rewrite Hrun.
    exists (mkAIEnhancedResult r s sc k "neutral" :: out), w'.
    split; [now rewrite <- app_assoc |].
    split; [cbn; now rewrite Hmap |].
    split; [constructor; [repeat split; (assumption || apply Hrange) |
                          assumption] |].
    rewrite Hcalls, Hc2, Hc1. cbn [List.length]. lia.
Qed.

(** X19: [_process_search_analysis], when the backend fails with ordinary
    exceptions only: it never raises and returns one enhancement for each
    of the first five results, in order; each has sentiment [neutral], at
    most three key points and a score between 0 and 1; it makes exactly
    two model calls per result handled, so at most ten.  The decoded
    arguments of the tool call are ignored. *)
Theorem process_search_analysis_spec (query : string)
  (results : list SearchResult) (analysis_args : json) (w : world) :
  Spec.ordinary_failures backend ->
  exists out w',
    _process_search_analysis backend query results analysis_args w
    = (inr out, w')
    /\ map original_result out = firstn 5 results
    /\ Forall (fun r => sentiment r = "neutral"
                        /\ (List.length (key_points r) <= 3)%nat
                        /\ (0 <=? relevance_score r)%float = true
                        /\ (relevance_score r <=? 1)%float = true) out
    /\ List.length (calls w')
       = (List.length (calls w)
          + 2 * Nat.min 5 (List.length results))%nat.
Proof.
  intros Hord. unfold _process_search_analysis.
  destruct (analyse_each_full query (Py.slice_to 5 results) Hord [] w)
    as [out [w' [Hrun [Hmap [Hall Hcalls]]]]].
  exists out, w'. split; [exact Hrun |].
  change (Py.slice_to 5 results) with (firstn 5 results) in *.
  split; [exact Hmap |]. split; [exact Hall |].
  now rewrite Hcalls, length_firstn.
Qed.

End Analysis.

(** ** The service on concrete backends *)

Section ServiceExamples.

Import OpenAIService Scenario.

Lemma failing_backend_ordinary : Spec.ordinary_failures failing_backend.
Proof. intros n req e H. injection H as <-. reflexivity. Qed.

Lemma prose_backend_ordinary : Spec.ordinary_failures prose_backend.
Proof. intros n req e H. discriminate H. Qed.

Lemma suggest_backend_ordinary (arguments : string) :
  Spec.ordinary_failures (suggest_backend arguments).
Proof. intros n req e H. discriminate H. Qed.

Lemma suggest_query_improvements_total_witness :
  exists suggestions w',
    suggest_query_improvements failing_backend sample_loads sample_str
      "rust lang" EmptyString empty_world = (inr suggestions, w')
    /\ suggestions = [JStr "rust lang"]
    /\ log w' = ["Error suggesting query improvements: Connection error."].
Proof.
  destruct (suggest_query_improvements_total failing_backend sample_loads
              sample_str "rust lang" EmptyString empty_world
              failing_backend_ordinary)
    as [l [w' [Hrun [_ [_ Hfail]]]]].
  exists l, w'. split; [exact Hrun |].
  exact (Hfail _ eq_refl).
Defined.

Lemma generate_summary_spec_witness :
  exists summary w',
    _generate_summary prose_backend "Rust is a systems language." "rust"
      empty_world = (inr summary, w')
    /\ summary = "These results look relevant."
    /\ List.length (calls w') = 1%nat.
Proof.
  destruct (generate_summary_spec prose_backend
              "Rust is a systems language." "rust" empty_world
              prose_backend_ordinary)
    as [s [w' [Hrun [Hcalls Hcase]]]].
  exists s, w'. split; [exact Hrun |]. split; [exact (proj1 Hcase) |].
  rewrite Hcalls. reflexivity.
Defined.

Lemma extract_key_points_spec_witness :
  exists points w',
    _extract_key_points failing_backend "Rust is a systems language."
      empty_world = (inr points, w')
    /\ points = ["Rust is a systems language...."].
Proof.
  destruct (extract_key_points_spec failing_backend
              "Rust is a systems language." empty_world
              failing_backend_ordinary)
    as [k [w' [Hrun [_ [_ Hfail]]]]].
  exists k, w'. split; [exact Hrun |].
  exact (proj1 (Hfail _ eq_refl)).
Defined.

Lemma process_search_analysis_spec_witness :
  exists out w',
    _process_search_analysis prose_backend "rust" six_results (JObj [])
      empty_world = (inr out, w')
    /\ List.length out = 5%nat
    /\ List.length (calls w') = 10%nat.
Proof.
  destruct (process_search_analysis_spec prose_backend "rust" six_results
              (JObj []) empty_world prose_backend_ordinary)
    as [out [w' [Hrun [Hmap [_ Hcalls]]]]].
  exists out, w'. split; [exact Hrun |].
  split; [| exact Hcalls].
  rewrite <- (length_map original_result), Hmap. reflexivity.
Defined.

End ServiceExamples.

(** ** The health check *)

Section Health.

Import Config Client.

Variable transport : nat -> request -> outcome.
Variable json_loads : string -> string + json.
Variable config : SearchConfig.
Variable elapsed : response -> Q.

(** X20: [get_health_status], when the transport fails with ordinary
    exceptions only, never raises: it sends exactly one request, the GET of
    [<base_url>/config], logs nothing, and reports [healthy] exactly when
    the transport answered without error status and with a body the JSON
    decoder accepts; every other report is [unhealthy]. *)
Theorem get_health_status_spec (w : world) :
  (forall e,
     transport (List.length (sent w))
       (mkRequest (base_url config ++ "/config") [] (timeout config))
     = Raises e -> isinstance e Exception = true) ->
  exists report,
    get_health_status transport json_loads config elapsed w
    = (inr report,
       mkWorld (log w)
         (sent w ++ [mkRequest (base_url config ++ "/config") []
                               (timeout config)])
         (clock_reads w))
    /\ Py.dict_get report "url" JNull = JStr (base_url config)
    /\ (Py.dict_get report "status" JNull = JStr "healthy"
        \/ Py.dict_get report "status" JNull = JStr "unhealthy")
    /\ (Py.dict_get report "status" JNull = JStr "healthy"
        <-> exists r cfg,
              transport (List.length (sent w))
                (mkRequest (base_url config ++ "/config") []
                           (timeout config))
              = Responds r
              /\ (400 <=? status_code r) && (status_code r <? 600) = false
              /\ json_loads (text r) = inr cfg).
Proof.
  intros Hord.
  unfold get_health_status, Eff.try_except, Eff.bind, session_get.
  destruct (transport _ _) as [e|r] eqn:Ht.
  - cbn [Eff.raise]. rewrite (Hord e eq_refl). cbn [Eff.ret].
    eexists. split; [reflexivity |]. split; [reflexivity |].
    split; [now right |].
    split; [discriminate | intros [r [cfg [H _]]]; discriminate].
  - unfold raise_for_status.
    destruct ((400 <=? status_code r) && (status_code r <? 600)) eqn:Hst.
    + cbn [Eff.raise Eff.ret].
      eexists. split; [reflexivity |]. split; [reflexivity |].
      split; [now right |].
      split; [discriminate |].
      intros [r' [cfg [H [Hst' _]]]]. injection H as <-. congruence.
    + cbn [Eff.ret].
      destruct (json_loads (text r)) as [detail|cfg] eqn:Hj.
      * cbn [Eff.raise Eff.ret].
        eexists. split; [reflexivity |]. split; [reflexivity |].
        split; [now right |].
        split; [discriminate |].
        intros [r' [cfg [H [_ Hj']]]]. injection H as <-. congruence.
      * cbn [Eff.ret].
        eexists. split; [reflexivity |]. split; [reflexivity |].
        split; [now left |].
        split; [intros _; now exists r, cfg | reflexivity].
Qed.

End Health.

(** ** The engines of a response *)

Section Engines.

Import Config Client Props.

Variable config : SearchConfig.

Lemma Qeq_bool_sym (x y : Q) : Qeq_bool x y = Qeq_bool y x.
Proof.
  destruct (Qeq_bool x y) eqn:E; symmetry.
  - apply Qeq_bool_iff. symmetry. now apply Qeq_bool_iff.
  - destruct (Qeq_bool y x) eqn:E'; [| reflexivity].
    apply Qeq_bool_iff in E'. symmetry in E'.
    apply Qeq_bool_iff in E'. congruence.
Qed.

Lemma py_eqb_sym (a b : json) : Py.eqb a b = Py.eqb b a.
Proof.
  destruct a, b; cbn; try reflexivity;
    try apply Qeq_bool_sym; try apply String.eqb_sym;
    try (destruct b; destruct b0; reflexivity);
    try (destruct b; apply Qeq_bool_sym).
Qed.

Lemma py_eqb_refl (v : json) : Py.hashable v = true -> Py.eqb v v = true.
Proof.
  destruct v; cbn; try discriminate; intros _; try reflexivity;
    try apply Qeq_bool_refl; try apply String.eqb_refl.
Qed.

Lemma member_app (x : json) (l1 l2 : list json) :
  member x (l1 ++ l2) = member x l1 || member x l2.
Proof. apply existsb_app. Qed.

Lemma distinct_snoc (s : list json) (v : json) :
  distinct s = true -> member v s = false -> distinct (s ++ [v]) = true.
Proof.
  induction s as [|x s IH]; cbn [app distinct member existsb];
    [reflexivity |].
  intros Hd Hm.
  apply andb_true_iff in Hd. destruct Hd as [Hx Hd].
  apply orb_false_iff in Hm. destruct Hm as [Hvx Hm].
  rewrite existsb_app. cbn [existsb].
  rewrite (py_eqb_sym x v), Hvx. cbn [orb]. rewrite orb_false_r, Hx.
  cbn [andb]. now apply IH.
Qed.

(** One insertion: the set stays duplicate-free, keeps its elements, now
    holds the value, and holds nothing else. *)
Lemma set_add_spec (s s' : list json) (v : json) :
  Py.set_add s v = inr s' ->
  (distinct s = true -> distinct s' = true)
  /\ (forall x, member x s = true -> member x s' = true)
  /\ member v s' = true
  /\ (forall x, In x s' -> In x s \/ x = v).
Proof.
  unfold Py.set_add. destruct (Py.hashable v) eqn:Hh; [| discriminate].
  fold (member v s). destruct (member v s) eqn:Hm; intros H;
    injection H as <-.
  - repeat split; auto.
  - split; [intros Hd; now apply distinct_snoc |].
    split; [intros x Hx; rewrite member_app, Hx; reflexivity |].
    split.
    + rewrite member_app. cbn [member existsb].
      rewrite (py_eqb_refl v Hh). now rewrite orb_true_r.
    + intros x Hx. apply in_app_or in Hx. destruct Hx as [Hx|[Hx|[]]];
        auto.
Qed.

Lemma set_add_all_spec (vs : list json) :
  forall s s',
    Py.set_add_all s vs = inr s' ->
    (distinct s = true -> distinct s' = true)
    /\ (forall x, member x s = true -> member x s' = true)
    /\ (forall v, In v vs -> member v s' = true)
    /\ (forall x, In x s' -> In x s \/ In x vs).
Proof.
  induction vs as [|v vs IH]; intros s s'; cbn [Py.set_add_all].
  - intros H. injection H as <-. repeat split; auto; try (intros ? []).
  - destruct (Py.set_add s v) as [e|s1] eqn:Hadd; [discriminate |].
    intros Hrest.
    destruct (set_add_spec s s1 v Hadd) as [Hd1 [Hk1 [Hv1 Hin1]]].
    destruct (IH s1 s' Hrest) as [Hd2 [Hk2 [Hv2 Hin2]]].
    split; [auto |]. split; [auto |]. split.
    + intros x [ <- | Hx ]; auto.
    + intros x Hx. destruct (Hin2 x Hx) as [H1|H1].
      * destruct (Hin1 x H1) as [ H | -> ]; [now left | right; now left].
      * right. now right.
Qed.

Lemma collect_engines_spec (results : list Models.SearchResult) :
  forall seen out,
    collect_engines results seen = inr out ->
    (distinct seen = true -> distinct out = true)
    /\ (forall x, member x seen = true -> member x out = true)
    /\ (forall result es, In result results ->
          Py.iter (Models.engines result) = inr es ->
          forall engine, In engine es -> member engine out = true)
    /\ (forall x, In x out ->
          In x seen
          \/ exists result es,
               In result results
               /\ Py.iter (Models.engines result) = inr es /\ In x es).
Proof.
  induction results as [|r results IH]; intros seen out;
    cbn [collect_engines].
  - intros H. injection H as <-. repeat split; auto;
      try (intros ? ? []).
  - destruct (Py.iter (Models.engines r)) as [e|es] eqn:Hiter;
      [discriminate |].
    destruct (Py.set_add_all seen es) as [e|seen'] eqn:Hadd;
      [discriminate |].
    intros Hrest.
    destruct (set_add_all_spec es seen seen' Hadd) as [Hd1 [Hk1 [Hv1 Hin1]]].
    destruct (IH seen' out Hrest) as [Hd2 [Hk2 [Hv2 Hin2]]].
    split; [auto |]. split; [auto |]. split.
    + intros result es' [ <- | Hin ] Hes engine He.
      * rewrite Hiter in Hes. injection Hes as <-. auto.
      * eapply Hv2; eassumption.
    + intros x Hx. destruct (Hin2 x Hx) as [H1|[result [es' [Hr [Hi He]]]]].
      * destruct (Hin1 x H1) as [H|H]; [now left |].
        right. exists r, es. repeat split; auto. now left.
      * right. exists result, es'. repeat split; auto. now right.
Qed.

(** X21: The [engines_used] of a parsed response name every engine of every
    result of the response, each once, and nothing else. *)
Theorem parse_results_engines_used (data : json) (query : string)
  (search_time : Q) (w w' : world) (resp : Models.SearchResponse) :
  _parse_results config data query search_time w = (inr resp, w') ->
  distinct (Models.engines_used resp) = true
  /\ (forall result es engine,
        In result (Models.results resp) ->
        Py.iter (Models.engines result) = inr es ->
        In engine es ->
        member engine (Models.engines_used resp) = true)
  /\ (forall engine,
        In engine (Models.engines_used resp) ->
        exists result es,
          In result (Models.results resp)
          /\ Py.iter (Models.engines result) = inr es /\ In engine es).
Proof.
  unfold _parse_results, Eff.bind, Eff.lift.
  destruct (Py.get data "results" (JArr [])) as [e|raw]; [discriminate |].
  destruct (Py.slice_items raw (max_results config)) as [e|items];
    [discriminate |].
  destruct (parse_items items [] w) as [[e|results] w1]; [discriminate |].
  destruct (collect_engines results []) as [e|used] eqn:Hc;
    [discriminate |].
  destruct (Py.get data "suggestions" (JArr [])) as [e|sug];
    [discriminate |].
  cbn [Eff.ret]. intros H. injection H as <- _.
  cbn [Models.engines_used Models.results].
  destruct (collect_engines_spec results [] used Hc) as [Hd [_ [Hv Hin]]].
  split; [now apply Hd |]. split.
  - intros result es engine Hr Hes He. eapply Hv; eassumption.
  - intros engine He. destruct (Hin engine He) as [[]|H]. exact H.
Qed.

End Engines.

(** ** The manager *)

Section ManagerFacts.

Import Config Client Manager.

Variable getenv : string -> option string.
Variable int_of : string -> string + Z.
Variable transport : nat -> request -> outcome.
Variable json_loads : string -> string + json.
Variable clock : nat -> Q.

(** A configuration that was constructed passed the four checks. *)
Lemma config_new_valid (b : string) (t m : Z) (l : string) (s : Z)
  (tr : option string) (cs es : list string) (c : SearchConfig) :
  Config.new b t m l s tr cs es = inr c ->
  c = mkSearchConfig b t m l s tr cs es
  /\ has_http_scheme b = true /\ 0 < t /\ 0 < m /\ in_0_1_2 s = true.
Proof.
  unfold Config.new, __post_init__.
  cbn [base_url timeout max_results safe_search].
  destruct (has_http_scheme b); cbn [negb]; [| discriminate].
  destruct (Z.leb_spec t 0) as [Ht|Ht]; [discriminate |].
  destruct (Z.leb_spec m 0) as [Hm|Hm]; [discriminate |].
  destruct (in_0_1_2 s); cbn [negb]; [| discriminate].
  intros H. injection H as <-. repeat split; assumption.
Qed.

Lemma comprehension_length {A B} (f : A -> exn + B) (xs : list A)
  (ys : list B) :
  comprehension f xs = inr ys -> List.length ys = List.length xs.
Proof.
  revert ys. induction xs as [|x xs IH]; intros ys; cbn [comprehension].
  - intros H. now injection H as <-.
  - destruct (f x) as [e|y]; [discriminate |].
    destruct (comprehension f xs) as [e|ys']; [discriminate |].
    intros H. injection H as <-. cbn [List.length]. now rewrite (IH ys').
Qed.

Lemma comprehension_forall {A B} (f : A -> exn + B) (P : B -> Prop)
  (xs : list A) (ys : list B) :
  (forall x y, f x = inr y -> P y) ->
  comprehension f xs = inr ys -> Forall P ys.
Proof.
  intros Hf. revert ys.
  induction xs as [|x xs IH]; intros ys; cbn [comprehension].
  - intros H. injection H as <-. constructor.
  - destruct (f x) as [e|y] eqn:Hy; [discriminate |].
    destruct (comprehension f xs) as [e|ys']; [discriminate |].
    intros H. injection H as <-. constructor; [now apply (Hf x) |].
    now apply IH.
Qed.

Lemma take_length (k : nat) (s : string) :
  (String.length (PyStr.take k s) <= k)%nat.
Proof.
  unfold PyStr.take. revert k.
  induction s as [|c s IH]; intros [|k]; cbn; try lia.
  specialize (IH k). lia.
Qed.

(** A snippet that is a string has at most [k + 3] characters. *)
Lemma snippet_length (k : nat) (c : json) (s : string) :
  snippet k c = inr (JStr s) -> (String.length s <= k + 3)%nat.
Proof.
  unfold snippet.
  destruct c as [| b | n | q | s0 | l | m]; cbn [py_len]; try discriminate.
  - unfold PyStr.len.
    destruct (Z.gtb_spec (Z.of_nat (String.length s0)) (Z.of_nat k))
      as [Hlong|Hshort].
    + cbn [cut_with_dots]. intros H. injection H as <-.
      rewrite length_append. pose proof (take_length k s0). cbn. lia.
    + intros H. injection H as <-. lia.
  - destruct (Z.of_nat (List.length l) >? Z.of_nat k); discriminate.
  - destruct (Z.of_nat (List.length m) >? Z.of_nat k); discriminate.
Qed.

Lemma join_engines_string (v out : json) :
  join_engines v = inr out -> exists s, out = JStr s.
Proof.
  unfold join_engines.
  destruct (Py.iter v) as [e|items]; [discriminate |].
  destruct (join_items 0 items) as [e|parts]; [discriminate |].
  intros H. injection H as <-. eauto.
Qed.

Lemma quick_entry_spec (result : Models.SearchResult) (e : entry) :
  quick_entry result = inr e ->
  map fst e = ["title"; "url"; "snippet"; "engines"]
  /\ Py.dict_get e "title" JNull = Models.title result
  /\ Py.dict_get e "url" JNull = Models.url result
  /\ (forall s, Py.dict_get e "snippet" JNull = JStr s ->
        (String.length s <= 203)%nat)
  /\ (exists s, Py.dict_get e "engines" JNull = JStr s).
Proof.
  unfold quick_entry.
  destruct (snippet 200 (Models.content result)) as [e0|snip] eqn:Hs;
    [discriminate |].
  destruct (join_engines (Models.engines result)) as [e0|eng] eqn:Hj;
    [discriminate |].
  intros H. injection H as <-.
  split; [reflexivity |]. split; [reflexivity |]. split; [reflexivity |].
  split.
  - cbn. intros s ->. exact (snippet_length 200 _ s Hs).
  - cbn. exact (join_engines_string _ _ Hj).
Qed.

(** X22: [create_client] converts the two integers of the environment
    before it applies the overrides, the timeout first.  When
    [SEARXNG_TIMEOUT] is set to a text [int] rejects, or [SEARXNG_TIMEOUT]
    is unset or a number and [SEARXNG_MAX_RESULTS] is set to a text [int]
    rejects, [quick_search] raises the [ValueError] of that variable,
    whatever [max_results] it is given, and nothing is sent or logged. *)
Theorem quick_search_env_error (self query : string) (max_results : Z)
  (w : world) (v msg : string) :
  (getenv "SEARXNG_TIMEOUT" = Some v /\ int_of v = inl msg)
  \/ ((exists t, env_int getenv int_of "SEARXNG_TIMEOUT" 30 = inr t)
      /\ getenv "SEARXNG_MAX_RESULTS" = Some v /\ int_of v = inl msg) ->
  quick_search getenv int_of transport json_loads clock self query
    max_results w
  = (inl (Exn ValueError msg), w).
Proof.
  unfold quick_search, Eff.bind, Eff.lift, create_client.
  intros [[Hv Hmsg]|[[t Ht] [Hv Hmsg]]].
  - unfold env_int at 1. now rewrite Hv, Hmsg.
  - rewrite Ht. unfold env_int at 1. now rewrite Hv, Hmsg.
Qed.

(** X23: [quick_search] with [max_results <= 0] (and an environment and a base
    URL that are in order) raises the [ValueError] of the configuration
    and sends nothing. *)
Theorem quick_search_bad_limit (self query : string) (max_results : Z)
  (w : world) (t m : Z) :
  env_int getenv int_of "SEARXNG_TIMEOUT" 30 = inr t ->
  env_int getenv int_of "SEARXNG_MAX_RESULTS" 10 = inr m ->
  0 < t ->
  has_http_scheme self = true ->
  max_results <= 0 ->
  quick_search getenv int_of transport json_loads clock self query
    max_results w
  = (inl (Exn ValueError "Max results must be positive"), w).
Proof.
  intros Ht Hm Htpos Hurl Hmax.
  unfold quick_search, Eff.bind, Eff.lift, create_client.
  rewrite Ht, Hm. cbn [pick o_base_url o_timeout o_max_results o_language
    o_safe_search o_time_range o_categories o_engines].
  unfold Config.new, __post_init__.
  cbn [base_url timeout Config.max_results safe_search]. rewrite Hurl.
  cbn [negb].
  destruct (Z.leb_spec t 0) as [H0|H0]; [lia |].
  destruct (Z.leb_spec max_results 0) as [H1|H1]; [reflexivity | lia].
Qed.

(** X24: Whenever [quick_search] returns, [max_results] was positive, exactly
    one request was sent, and there are at most [max_results] entries,
    each with the keys [title], [url], [snippet] and [engines] in that
    order, a snippet of at most 203 characters when it is a string, and
    the engines as one string. *)
Theorem quick_search_returns (self query : string) (max_results : Z)
  (w w' : world) (entries : list entry) :
  quick_search getenv int_of transport json_loads clock self query
    max_results w = (inr entries, w') ->
  0 < max_results
  /\ (List.length entries <= Z.to_nat max_results)%nat
  /\ Forall (fun e =>
               map fst e = ["title"; "url"; "snippet"; "engines"]
               /\ (forall s, Py.dict_get e "snippet" JNull = JStr s ->
                     (String.length s <= 203)%nat)
               /\ (exists s, Py.dict_get e "engines" JNull = JStr s))
            entries
  /\ exists req,
       sent w' = (sent w ++ [req])%list
       /\ req_timeout req > 0
       /\ dict_get (req_params req) "q" (PStr "N/A")
          = PStr (PyStr.strip query).
Proof.
  unfold quick_search, Eff.bind, Eff.lift.
  destruct (create_client getenv int_of self _) as [e|config] eqn:Hc;
    [discriminate |].
  unfold create_client in Hc.
  destruct (env_int getenv int_of "SEARXNG_TIMEOUT" 30) as [e|t];
    [discriminate |].
  destruct (env_int getenv int_of "SEARXNG_MAX_RESULTS" 10) as [e|m];
    [discriminate |].
  cbn [pick o_base_url o_timeout o_max_results o_language
    o_safe_search o_time_range o_categories o_engines] in Hc.
  destruct (config_new_valid _ _ _ _ _ _ _ _ _ Hc)
    as [Hcfg [Hurl [Htpos [Hmpos _]]]].
  destruct (search transport json_loads clock config query [] w)
    as [[e|response] w1] eqn:Hs; [discriminate |].
  destruct (comprehension quick_entry (Models.results response))
    as [e|out] eqn:Hout; [discriminate |].
  intros H. injection H as <- <-.
  pose proof (search_results_bound _ _ _ _ _ _ _ _ _ Hs) as Hlen.
  destruct (search_returns_inv _ _ _ _ _ _ _ _ _ Hs) as [Hb _].
  destruct (search_run_sent transport json_loads clock config query [] w
              Hb) as [res [w2 [Hrun Hsent]]].
  rewrite Hs in Hrun. injection Hrun as <- <-.
  assert (Hmax : Config.max_results config = max_results)
    by (rewrite Hcfg; reflexivity).
  split; [assumption |]. split.
  - rewrite (comprehension_length _ _ _ Hout).
    rewrite <- Hmax. apply Hlen. lia.
  - split.
    + apply (comprehension_forall quick_entry _ _ _) with (2 := Hout).
      intros x y Hy.
      destruct (quick_entry_spec x y Hy) as [Hk [_ [_ [Hsn He]]]].
      repeat split; assumption.
    + eexists. split; [exact Hsent |]. cbn [req_timeout req_params].
      split; [rewrite Hcfg; cbn [timeout]; lia |].
      apply build_search_params_q.
Qed.

Lemma rstrip_app (a b : string) :
  PyStr.rstrip b <> EmptyString ->
  PyStr.rstrip (a ++ b) = a ++ PyStr.rstrip b.
Proof.
  intros Hb. induction a as [|c a IH]; cbn [append PyStr.rstrip];
    [reflexivity |].
  rewrite IH.
  destruct (a ++ PyStr.rstrip b) eqn:E; [| reflexivity].
  destruct a; cbn in E; [contradiction | discriminate].
Qed.

(** The query of [search_ai_news] has nothing to strip. *)
Lemma ai_news_query_strip (year : string) :
  PyStr.strip ("AI news " ++ year ++ " artificial intelligence")
  = "AI news " ++ year ++ " artificial intelligence".
Proof.
  unfold PyStr.strip.
  change (PyStr.lstrip ("AI news " ++ year ++ " artificial intelligence"))
    with ("AI news " ++ year ++ " artificial intelligence").
  assert (Htail : PyStr.rstrip (year ++ " artificial intelligence")
                  = year ++ " artificial intelligence")
    by (rewrite rstrip_app; [reflexivity | discriminate]).
  rewrite rstrip_app; rewrite Htail; [reflexivity |].
  destruct year; discriminate.
Qed.

(** X25: [search_ai_news], once the client is configured, sends exactly one
    request: the query [AI news <year> artificial intelligence] in the
    category [news] with time range [year], whatever categories and time
    range the configuration has. *)
Theorem search_ai_news_request (self year : string) (max_results : Z)
  (w : world) (config : SearchConfig) (dflt : param) :
  create_client getenv int_of self
    (mkOverrides None None (Some max_results) None None None None None)
  = inr config ->
  exists req,
    sent (snd (search_ai_news getenv int_of transport json_loads clock self
                 year max_results w))
    = (sent w ++ [req])%list
    /\ req_url req = base_url config ++ "/search"
    /\ dict_get (req_params req) "q" dflt
       = PStr ("AI news " ++ year ++ " artificial intelligence")
    /\ dict_get (req_params req) "categories" dflt = PStr "news"
    /\ dict_get (req_params req) "time_range" dflt = PStr "year".
Proof.
  intros Hc. unfold search_ai_news, Eff.bind, Eff.lift. rewrite Hc.
  assert (Hb : blank ("AI news " ++ year ++ " artificial intelligence")
               = false).
  { unfold blank. rewrite ai_news_query_strip. reflexivity. }
  assert (Hnd : NoDup (map fst [("time_range", PStr "year")]))
    by (constructor; [intros [] | constructor]).
  rewrite search_news_unfold.
  match goal with
  | |- context [search transport json_loads clock config ?q ?k w] =>
      destruct (search_run_sent transport json_loads clock config q k w Hb)
        as [res [w1 [Hrun Hsent]]]
  end.
  rewrite Hrun. eexists.
  split; [destruct res as [e|response]; exact Hsent |].
  cbn [req_url req_params]. split; [reflexivity |].
  destruct (news_request_params config
              (PyStr.strip ("AI news " ++ year ++ " artificial intelligence"))
              [("time_range", PStr "year")] dflt Hnd)
    as [Hcat [Htr Hother]].
  split; [| split; [exact Hcat | exact Htr]].
  rewrite Hother by discriminate.
  cbn [dict_get String.eqb Ascii.eqb Bool.eqb].
  rewrite ai_news_query_strip. apply build_search_params_q.
Qed.

End ManagerFacts.

(** ** The search tool *)

Section SearchTool.

Import Config Client Manager.

Variable getenv : string -> option string.
Variable int_of : string -> string + Z.
Variable transport : nat -> request -> outcome.
Variable json_loads : string -> string + json.
Variable clock : nat -> Q.

(** [quick_search] once the client is configured and the search raises. *)
Lemma quick_search_raises (self query : string) (max_results : Z)
  (config : SearchConfig) (w w' : world) (e : exn) :
  create_client getenv int_of self
    (mkOverrides None None (Some max_results) None None None None None)
  = inr config ->
  search transport json_loads clock config query [] w = (inl e, w') ->
  quick_search getenv int_of transport json_loads clock self query
    max_results w = (inl e, w').
Proof.
  intros Hc Hs. unfold quick_search, Eff.bind, Eff.lift.
  now rewrite Hc, Hs.
Qed.

(** X26: [search_web] turns an HTTP error status of the search backend into an
    empty result list: the [APIError] (403, 429) or [NetworkError] (the
    other statuses from 400 to 599) of the client is caught, one line
    [ERROR: Search failed: <message>] is printed, and [[]] returned. *)
Theorem search_web_http_error (query : string) (max_results : Z)
  (config : SearchConfig) (w : Main.world) (r : response) :
  create_client getenv int_of (Main.search_manager getenv)
    (mkOverrides None None (Some max_results) None None None None None)
  = inr config ->
  blank query = false ->
  transport (List.length (sent (Main.client_world w)))
    (mkRequest (base_url config ++ "/search")
               (_build_search_params config (PyStr.strip query) [])
               (timeout config))
  = Responds r ->
  400 <= status_code r < 600 ->
  exists w',
    Main.search_web getenv int_of transport json_loads clock query
      max_results w = (inr [], w')
    /\ Main.stdout w'
       = (Main.stdout w
          ++ [("ERROR: Search failed: "
               ++ (if (status_code r =? 403)%Z
                   then "Access forbidden - check if JSON format is enabled"
                   else if (status_code r =? 429)%Z
                   then "Rate limit exceeded - try again later"
                   else "HTTP " ++ PyStr.of_int (status_code r) ++ ": "
                        ++ http_error_text r))%string])%list.
Proof.
  intros Hc Hb Ht Hst.
  unfold Main.search_web, Main.in_client.
  pose proof (search_unfold transport json_loads clock config query []
                (Main.client_world w) Hb) as Hs.
  rewrite (make_request_error_status transport json_loads config _
             (mkWorld (log (Main.client_world w))
                      (sent (Main.client_world w))
                      (S (clock_reads (Main.client_world w)))) r Ht Hst),
    handlers_http_error in Hs.
  destruct (status_code r =? 403) eqn:E403;
    [| destruct (status_code r =? 429) eqn:E429];
    cbn [isinstance exn_cls mro existsb class_eqb class_name String.eqb
         Ascii.eqb Bool.eqb orb exn_msg] in Hs;
    rewrite (quick_search_raises _ _ _ _ _ _ _ Hc Hs);
    eexists; split; reflexivity.
Qed.

(** What [create_client] raises is a [ValueError]: of [int] for the
    environment, or of the configuration check. *)
Lemma create_client_raises (self : string) (o : overrides) (e : exn) :
  create_client getenv int_of self o = inl e -> exn_cls e = ValueError.
Proof.
  unfold create_client, env_int.
  destruct (getenv "SEARXNG_TIMEOUT") as [vt|];
    [destruct (int_of vt) as [mt|t];
       [intros H; injection H as <-; reflexivity |] |];
    (destruct (getenv "SEARXNG_MAX_RESULTS") as [vm|];
     [destruct (int_of vm) as [mm|m];
        [intros H; injection H as <-; reflexivity |] |]);
    unfold Config.new, __post_init__;
    repeat match goal with
           | |- context [if ?c then _ else _] => destruct c
           end;
    intros H; try discriminate H; injection H as <-; reflexivity.
Qed.

(** X27: [search_web] catches only [SearXNGException], so for an empty or
    whitespace-only query it always raises a [ValueError] and sends and
    prints nothing: [ValueError('Search query cannot be empty')] of
    [search] when the client could be configured, and otherwise the
    [ValueError] that configuring the client raised (an environment
    integer [int] rejects, a base URL without scheme, a limit that is not
    positive). *)
Theorem search_web_blank_query (query : string) (max_results : Z)
  (w : Main.world) :
  Spec.all_whitespace query ->
  exists e,
    Main.search_web getenv int_of transport json_loads clock query
      max_results w = (inl e, w)
    /\ exn_cls e = ValueError
    /\ match create_client getenv int_of (Main.search_manager getenv)
               (mkOverrides None None (Some max_results) None None None
                            None None) with
       | inr _ => e = Exn ValueError "Search query cannot be empty"
       | inl e' => e = e'
       end.
Proof.
  intros Hws.
  unfold Main.search_web, Main.in_client, quick_search, Eff.bind, Eff.lift.
  destruct (create_client getenv int_of (Main.search_manager getenv) _)
    as [e|config] eqn:Hc.
  - pose proof (create_client_raises _ _ _ Hc) as Hcls.
    exists e. destruct e as [cls msg]. cbn [exn_cls] in Hcls. subst cls.
    change (isinstance (Exn ValueError msg) SearXNGException) with false.
    cbv iota. destruct w. repeat split.
  - unfold search, blank. rewrite (strip_all_whitespace query Hws).
    cbn [PyStr.truthy negb]. rewrite orb_true_r.
    exists (Exn ValueError "Search query cannot be empty").
    destruct w. repeat split.
Qed.

End SearchTool.

(** ** The health check, the manager and the tool on concrete inputs *)

Section CallerExamples.

Import Config Client Manager ClientScenario.

Lemma get_health_status_spec_witness :
  exists report w',
    get_health_status (answers config_page) decode_config default
      quarter_second empty_world = (inr report, w')
    /\ Py.dict_get report "status" JNull = JStr "healthy"
    /\ List.length (sent w') = 1%nat.
Proof.
  destruct (get_health_status_spec (answers config_page) decode_config
              default quarter_second empty_world)
    as [report [Hrun [_ [_ Hiff]]]].
  - intros e H. discriminate H.
  - eexists report, _. split; [exact Hrun |]. split; [| reflexivity].
    apply Hiff. exists config_page, (JObj []).
    repeat split; reflexivity.
Defined.

Lemma parse_results_engines_used_witness :
  exists resp w',
    _parse_results default
      (JObj [("results",
              JArr [item_value "https://example.org/a" "duckduckgo";
                    item_value "https://example.org/b" "duckduckgo"])])
      "rust" 1%Q empty_world = (inr resp, w')
    /\ Models.engines_used resp = [JStr "duckduckgo"]
    /\ Props.distinct (Models.engines_used resp) = true.
Proof.
  eexists _, _. split; [reflexivity |]. split; [reflexivity |].
  eapply (parse_results_engines_used default
            (JObj [("results",
                    JArr [item_value "https://example.org/a" "duckduckgo";
                          item_value "https://example.org/b" "duckduckgo"])])
            "rust" 1%Q empty_world).
  reflexivity.
Defined.

Lemma quick_search_env_error_witness :
  quick_search bad_limit_env sample_int (answers two_results_page) decode
    ticks "http://localhost:8888" "rust" 5 empty_world
  = (inl (Exn ValueError "invalid literal for int() with base 10: 'ten'"),
     empty_world).
Proof.
  apply (quick_search_env_error bad_limit_env sample_int
           (answers two_results_page) decode ticks "http://localhost:8888"
           "rust" 5 empty_world "ten"
           "invalid literal for int() with base 10: 'ten'").
  right. split; [exists 30; reflexivity | split; reflexivity].
Defined.

Lemma quick_search_bad_limit_witness :
  quick_search no_env sample_int (answers two_results_page) decode ticks
    "http://localhost:8888" "rust" 0 empty_world
  = (inl (Exn ValueError "Max results must be positive"), empty_world).
Proof.
  apply (quick_search_bad_limit no_env sample_int (answers two_results_page)
           decode ticks "http://localhost:8888" "rust" 0 empty_world 30 10);
    (reflexivity || lia).
Defined.

Lemma quick_search_returns_witness :
  exists entries w',
    quick_search no_env sample_int (answers two_results_page) decode ticks
      "http://localhost:8888" "rust" 1 empty_world = (inr entries, w')
    /\ (List.length entries <= 1)%nat.
Proof.
  destruct (quick_search no_env sample_int (answers two_results_page) decode
              ticks "http://localhost:8888" "rust" 1 empty_world)
    as [[e|entries] w'] eqn:Hrun; [vm_compute in Hrun; discriminate |].
  exists entries, w'. split; [reflexivity |].
  exact (proj1 (proj2 (quick_search_returns no_env sample_int
                         (answers two_results_page) decode ticks
                         "http://localhost:8888" "rust" 1 empty_world w'
                         entries Hrun))).
Defined.

Lemma search_ai_news_request_witness :
  exists req,
    sent (snd (search_ai_news no_env sample_int (answers two_results_page)
                 decode ticks "http://localhost:8888" "2025" 15
                 empty_world))
    = [req]
    /\ dict_get (req_params req) "q" (PStr "none")
       = PStr "AI news 2025 artificial intelligence"
    /\ dict_get (req_params req) "categories" (PStr "none") = PStr "news".
Proof.
  destruct (search_ai_news_request no_env sample_int
              (answers two_results_page) decode ticks
              "http://localhost:8888" "2025" 15 empty_world
              (mkSearchConfig "http://localhost:8888" 30 15 "en" 0 None
                              ["general"] [])
              (PStr "none") eq_refl)
    as [req [Hsent [_ [Hq [Hc _]]]]].
  exists req. split; [exact Hsent |]. split; [exact Hq | exact Hc].
Defined.

Lemma search_web_http_error_witness :
  exists w',
    Main.search_web no_env sample_int (answers too_many_requests) decode
      ticks "rust" 5 (Main.mkWorld empty_world []) = (inr [], w')
    /\ Main.stdout w'
       = ["ERROR: Search failed: Rate limit exceeded - try again later"].
Proof.
  destruct (search_web_http_error no_env sample_int
              (answers too_many_requests) decode ticks "rust" 5
              (mkSearchConfig "http://localhost:8888" 30 5 "en" 0 None
                              ["general"] [])
              (Main.mkWorld empty_world []) too_many_requests)
    as [w' [Hrun Hout]]; try reflexivity.
  - cbn. lia.
  - exists w'. split; [exact Hrun | exact Hout].
Defined.

Lemma search_web_blank_query_witness :
  exists e,
    Main.search_web no_env sample_int (answers two_results_page) decode
      ticks "   " 5 (Main.mkWorld empty_world [])
    = (inl e, Main.mkWorld empty_world [])
    /\ e = Exn ValueError "Search query cannot be empty".
Proof.
  destruct (search_web_blank_query no_env sample_int
              (answers two_results_page) decode ticks "   " 5
              (Main.mkWorld empty_world []))
    as [e [Hrun [_ He]]].
  - repeat constructor.
  - exists e. split; [exact Hrun | exact He].
Defined.

End CallerExamples.

(** ** The keyword classification of intents *)

Section IntentValues.

Import OpenAIService.

(** X28: [_process_intent_extraction] returns exactly when the arguments are an
    object whose [query] is a string (or absent); otherwise it raises
    [AttributeError].  What it returns has the five keys, echoes the query
    of the arguments, has urgency [medium] and confidence 0.8, one of the
    intent types transactional, informational and navigational (never
    commercial) and one of the categories technology, health, news and
    general. *)
Theorem process_intent_extraction_values (args : json) :
  match _process_intent_extraction args with
  | inr d =>
      (exists fields q,
         args = JObj fields
         /\ Py.dict_get fields "query" (JStr EmptyString) = JStr q
         /\ Py.dict_get d "query" JNull = JStr q)
      /\ map fst d = Spec.intent_keys
      /\ In (Py.dict_get d "intent_type" JNull)
            [JStr "transactional"; JStr "informational";
             JStr "navigational"]
      /\ In (Py.dict_get d "category" JNull)
            [JStr "technology"; JStr "health"; JStr "news"; JStr "general"]
      /\ Py.dict_get d "urgency" JNull = JStr "medium"
      /\ Py.dict_get d "confidence" JNull = JFloat 0.8%Q
  | inl e =>
      exn_cls e = AttributeError
      /\ forall fields q,
           args = JObj fields ->
           Py.dict_get fields "query" (JStr EmptyString) <> JStr q
  end.
Proof.
  unfold _process_intent_extraction.
  destruct args as [| b | n | q | s | l | m]; cbn [Py.get];
    try (split; [reflexivity | intros fields q' H; discriminate H]).
  destruct (Py.dict_get m "query" (JStr EmptyString))
    as [| b | n | q | s | l | m'] eqn:Hq; cbn [lower_of];
    try (split; [reflexivity |];
         intros fields q' H; injection H as <-; rewrite Hq; discriminate).
  cbv zeta. split; [exists m, s; repeat split; assumption |].
  split; [reflexivity |].
  unfold intent_dict.
  cbn [Py.dict_get String.eqb Ascii.eqb Bool.eqb].
  split; [| split; [| split; reflexivity]].
  - destruct (any_in ["buy"; "purchase"; "price"; "cost"] (PyStr.lower s));
      [cbn; auto |].
    destruct (any_in ["how to"; "tutorial"; "guide"] (PyStr.lower s));
      [cbn; auto |].
    destruct (any_in ["login"; "website"; "official"] (PyStr.lower s));
      cbn; auto.
  - destruct (any_in ["tech"; "programming"; "software"] (PyStr.lower s));
      [cbn; auto |].
    destruct (any_in ["health"; "medical"; "doctor"] (PyStr.lower s));
      [cbn; auto |].
    destruct (any_in ["news"; "current"; "latest"] (PyStr.lower s));
      cbn; auto.
Qed.

End IntentValues.

(** ** Displaying results *)

Section Display.

Import Utils.

Lemma print_if_present_spec (d : result) (key label : string)
  (out : list string) :
  exists lines,
    print_if_present d key label out = (inr tt, (out ++ lines)%list)
    /\ (List.length lines <= 1)%nat.
Proof.
  unfold print_if_present.
  destruct (get d key) as [v|]; [destruct (PyStr.truthy v) |].
  - exists [("   " ++ label ++ ": " ++ v)%string].
    split; [reflexivity | cbn; lia].
  - exists []. rewrite app_nil_r. split; [reflexivity | cbn; lia].
  - exists []. rewrite app_nil_r. split; [reflexivity | cbn; lia].
Qed.

(** The loop on results that all have a title and a URL. *)
Lemma display_each_spec (results : list result) :
  Forall (fun d => get d "title" <> None /\ get d "url" <> None) results ->
  forall i out,
  exists lines,
    display_each i results out = (inr tt, (out ++ lines)%list)
    /\ (3 * List.length results <= List.length lines
        <= 5 * List.length results)%nat.
Proof.
  induction 1 as [|d results [Ht Hu] _ IH]; intros i out;
    cbn [display_each].
  - exists []. rewrite app_nil_r. split; [reflexivity | cbn; lia].
  - unfold Eff.bind, Eff.lift, getitem.
    destruct (get d "title") as [title|]; [| contradiction].
    destruct (get d "url") as [url|]; [| contradiction].
    unfold print at 1 2.
    match goal with
    | |- context [print_if_present d "snippet" "Snippet" ?o] =>
        destruct (print_if_present_spec d "snippet" "Snippet" o)
          as [l1 [H1 Hl1]]; rewrite H1
    end.
    match goal with
    | |- context [print_if_present d "engines" "Sources" ?o] =>
        destruct (print_if_present_spec d "engines" "Sources" o)
          as [l2 [H2 Hl2]]; rewrite H2
    end.
    unfold print at 1.
    match goal with
    | |- context [display_each (i + 1) results ?o] =>
        destruct (IH (i + 1) o) as [rest [Hrest Hlen]]; rewrite Hrest
    end.
    eexists. rewrite <- !app_assoc. split; [reflexivity |].
    rewrite !length_app. cbn [List.length]. lia.
Qed.

(** X29: [display_results] on results that all have a title and a URL never
    raises.  For no results it prints the three header lines and
    [No results found.] and no total; for [n >= 1] results it prints
    between [3n + 4] and [5n + 4] texts, the last of which is the total
    [Total results: <n>]. *)
Theorem display_results_spec (results : list result) (title : string)
  (out : list string) :
  Forall (fun d => get d "title" <> None /\ get d "url" <> None) results ->
  exists lines,
    display_results results title out = (inr tt, (out ++ lines)%list)
    /\ match results with
       | [] =>
           lines = [newline ++ times "=" 60; " " ++ title; times "=" 60;
                    "No results found."]
       | _ =>
           (3 * List.length results + 4 <= List.length lines
            <= 5 * List.length results + 4)%nat
           /\ last lines EmptyString
              = newline ++ "Total results: "
                ++ PyStr.of_int (Z.of_nat (List.length results))
       end.
Proof.
  intros Hwf. unfold display_results, Eff.bind.
  unfold print at 1 2 3.
  destruct results as [|d results].
  - unfold print. eexists. rewrite <- !app_assoc. split; reflexivity.
  - match goal with
    | |- context [display_each 1 ?rs ?o] =>
        destruct (display_each_spec rs Hwf 1 o) as [lines [Hrun Hlen]];
        rewrite Hrun
    end.
    unfold print. eexists. rewrite <- !app_assoc.
    split; [reflexivity |]. split.
    + cbn [app]. cbn [List.length]. rewrite length_app.
      cbn [List.length] in *. lia.
    + cbn [app].
      repeat rewrite app_comm_cons. now rewrite last_last.
Qed.

(** X30: A result without title stops the display with [KeyError('title')];
    what came before it has been printed. *)
Theorem display_results_missing_title (d : result) (results : list result)
  (title : string) (out : list string) :
  get d "title" = None ->
  display_results (d :: results) title out
  = (inl (Exn KeyError "'title'"),
     (out ++ [(newline ++ times "=" 60)%string; (" " ++ title)%string;
              times "=" 60])%list).
Proof.
  intros Ht. unfold display_results, Eff.bind. unfold print at 1 2 3.
  cbn [display_each]. unfold Eff.bind, Eff.lift, getitem. rewrite Ht.
  now rewrite <- !app_assoc.
Qed.

End Display.

Section DisplayExamples.

Import Utils.

Lemma display_results_spec_witness :
  exists lines,
    display_results
      [[("title", "Rust"); ("url", "https://www.rust-lang.org");
        ("snippet", "A language"); ("engines", EmptyString)]]
      "Search Results" []
    = (inr tt, lines)
    /\ List.length lines = 8%nat
    /\ last lines EmptyString = newline ++ "Total results: 1".
Proof.
  destruct (display_results_spec
              [[("title", "Rust"); ("url", "https://www.rust-lang.org");
                ("snippet", "A language"); ("engines", EmptyString)]]
              "Search Results" [])
    as [lines [Hrun [_ Hlast]]].
  - constructor; [split; discriminate | constructor].
  - exists lines. split; [exact Hrun |]. split; [| exact Hlast].
    vm_compute in Hrun. injection Hrun as <-. reflexivity.
Defined.

Lemma display_results_missing_title_witness :
  fst (display_results [[("url", "https://www.rust-lang.org")]]
         "Search Results" [])
  = inl (Exn KeyError "'title'").
Proof.
  exact (f_equal fst
           (display_results_missing_title
              [("url", "https://www.rust-lang.org")] [] "Search Results" []
              eq_refl)).
Defined.

End DisplayExamples.
